(** * OpenMM stage cubes: lock arbiter, platform negotiation, reporters

    A shallow embedding of [MDCubes/OpenMMCubes/simtools.py] and of the
    [process] methods of [MDCubes/OpenMMCubes/cubes.py].

    Conventions of the embedding:
    - a Python [float] is an exact rational ([Q]); the conversions below only
      divide and round, and every number that the statements evaluate is far
      from a rounding boundary;
    - a Python [dict] with string keys is a [gmap string pyval];
    - an exception is a value of [exn]; a computation that may raise threads
      the mutable world and keeps the mutations made before the raise. *)

From Stdlib Require Import ZArith QArith Qround Bool List Ascii Lia Lqa.
From stdpp Require Import gmap strings list fin_maps pretty.

Local Open Scope string_scope.
Local Open Scope Z_scope.

(* ===================================================================== *)
(** ** Python values and exceptions                                        *)
(* ===================================================================== *)

(** [simtk.unit]: only the two time units that the source uses. *)
Inductive time_unit := picoseconds | nanoseconds.

(** Heap addresses of mutable objects (ParmEd structures, OEMols). *)
Definition loc := nat.

Inductive pyval :=
| PNone
| PBool (b : bool)
| PInt (z : Z)
| PFloat (q : Q)
| PStr (s : string)
| PQuantity (q : Q) (u : time_unit)   (* a [unit.Quantity] of time *)
| PMol (l : loc).                     (* a reference to an OEMol *)

Inductive exn :=
| KeyError (key : string)
| TypeError (msg : string)
| ValueError (msg : string)
| IndexError (msg : string)
| AttributeError (msg : string)
| UnboundLocalError (var : string)
| OpenMMException (msg : string)
| IOError (errno : Z).

Definition EACCES : Z := 13.
Definition EAGAIN : Z := 11.

(** Truth value of an object, as [if x:] tests it. *)
Definition py_truthy (v : pyval) : bool :=
  match v with
  | PNone => false
  | PBool b => b
  | PInt z => negb (z =? 0)
  | PFloat q => negb (Qeq_bool q 0)
  | PStr s => negb (String.eqb s "")
  | PQuantity _ _ => true
  | PMol _ => true
  end.

(** [x == 0] *)
Definition py_is_zero (v : pyval) : bool :=
  match v with
  | PInt z => z =? 0
  | PFloat q => Qeq_bool q 0
  | PBool b => negb b
  | _ => false
  end.

(** [round(x)] on a float, Python 3: to the nearest integer, ties to even. *)
Definition py_round (x : Q) : Z :=
  let f := Qfloor x in
  match Qcompare (x - inject_Z f) (1 # 2) with
  | Lt => f
  | Gt => f + 1
  | Eq => if Z.even f then f else f + 1
  end.

(** Factor that takes a value in [u] to a value in [v]. *)
Definition conversion_factor_to (u v : time_unit) : Q :=
  match u, v with
  | picoseconds, nanoseconds => 1 # 1000
  | nanoseconds, picoseconds => 1000 # 1
  | _, _ => 1
  end.

(** [q.in_units_of(v)] *)
Definition in_units_of (q : Q) (u v : time_unit) : Q * time_unit :=
  (Qred (q * conversion_factor_to u v), v).

(** [q / v] for a quantity [q] and a unit [v] of the same dimension: the
    plain number of [v]s. *)
Definition div_unit (x : Q * time_unit) (v : time_unit) : Q :=
  Qred (fst x * conversion_factor_to (snd x) v).

(** [stepLen.in_units_of(unit.nanoseconds)/unit.nanoseconds] *)
Definition in_nanoseconds (q : Q) (u : time_unit) : Q :=
  div_unit (in_units_of q u nanoseconds) nanoseconds.

(** [int(round(t / (stepLen.in_units_of(unit.nanoseconds)/unit.nanoseconds)))],
    the conversion used for [opt['steps']] (simtools.py l.235) and for both
    reporter intervals (l.395, l.416). *)
Definition time_to_steps (t : Q) (stepLen : Q) (u : time_unit) : Z :=
  py_round (t / in_nanoseconds stepLen u).

(* ===================================================================== *)
(** ** Computations that may raise                                         *)
(* ===================================================================== *)

Inductive res (A : Type) :=
| Ok (a : A)
| Raise (e : exn).
Arguments Ok {A} a.
Arguments Raise {A} e.

#[global] Instance res_ret : MRet res := fun A a => Ok a.
#[global] Instance res_bind : MBind res := fun A B k c =>
  match c with Ok a => k a | Raise e => Raise e end.

(** [d[k]] *)
Definition getitem (d : gmap string pyval) (k : string) : res pyval :=
  match d !! k with
  | Some v => Ok v
  | None => Raise (KeyError k)
  end.

Definition as_float (v : pyval) : res Q :=
  match v with
  | PFloat q => Ok q
  | PInt z => Ok (inject_Z z)
  | PBool b => Ok (inject_Z (Z.b2z b))
  | _ => Raise (TypeError "unsupported operand type(s)")
  end.

Definition as_int (v : pyval) : res Z :=
  match v with
  | PInt z => Ok z
  | PBool b => Ok (Z.b2z b)
  | _ => Raise (TypeError "an integer is required")
  end.

Definition as_str (v : pyval) : res string :=
  match v with
  | PStr s => Ok s
  | _ => Raise (TypeError "must be str")
  end.

Definition as_quantity (v : pyval) : res (Q * time_unit) :=
  match v with
  | PQuantity q u => Ok (q, u)
  | _ => Raise (TypeError "object has no attribute in_units_of")
  end.

(* ===================================================================== *)
(** ** Reporting scheduler: [getReporters]                                 *)
(* ===================================================================== *)

Inductive report_target :=
| ToFile (name : string)
| ToStdout.

Inductive reporter :=
| StateDataReporter (target : report_target) (reportInterval : Z)
                    (totalSteps : option pyval)
| HDF5Reporter (file : string) (reportInterval : Z).

(** [getReporters], whose parameters are [totalSteps=None], [outfname=None]
    and the remaining keywords [opt].  The caller unpacks its whole option
    dictionary into the call: the keys [totalSteps] and [outfname] of the
    dictionary bind the two named parameters, the rest is [opt].  Building a
    reporter on a file name opens that file for writing ([fopen]). *)
Definition open_w (fopen : string -> option Z) (name : string) : res unit :=
  match fopen name with
  | None => Ok tt
  | Some errno => Raise (IOError errno)
  end.

Definition getReporters (fopen : string -> option Z) (kw : gmap string pyval)
  : res (list reporter) :=
  let opt := delete "outfname" (delete "totalSteps" kw) in
  totalSteps ← match kw !! "totalSteps" with
                 | None | Some PNone => getitem opt "steps"
                 | Some v => Ok v
                 end;
  outfname ← match kw !! "outfname" with
               | None | Some PNone => getitem opt "outfname"
               | Some v => Ok v
               end;
  ri ← getitem opt "reporter_interval";
  reporters ←
    (if py_truthy ri then
       r ← as_float ri;
       ts ← getitem opt "timestep";
       qu ← as_quantity ts;
       let reporter_steps := time_to_steps r (fst qu) (snd qu) in
       name ← as_str outfname;
       _ ← open_w fopen (name +:+ ".log");
       Ok [StateDataReporter (ToFile (name +:+ ".log")) reporter_steps None;
           StateDataReporter ToStdout reporter_steps (Some totalSteps)]
     else Ok []);
  ti ← getitem opt "trajectory_interval";
  if py_truthy ti then
    t ← as_float ti;
    ts ← getitem opt "timestep";
    qu ← as_quantity ts;
    let trajectory_steps := time_to_steps t (fst qu) (snd qu) in
    name ← as_str outfname;
    _ ← open_w fopen (name +:+ ".h5");
    Ok (reporters ++ [HDF5Reporter (name +:+ ".h5") trajectory_steps])%list
  else Ok reporters.

(** What each channel is expected to contribute, by its interval: the two
    reporters of the scalar log, and the reporter of the trajectory. *)
Definition log_channel (name : string) (steps : pyval) (q : Q) (u : time_unit)
    (ri : Q) : list reporter :=
  if Qeq_bool ri 0 then []
  else [StateDataReporter (ToFile (name +:+ ".log")) (time_to_steps ri q u) None;
        StateDataReporter ToStdout (time_to_steps ri q u) (Some steps)].

Definition trajectory_channel (name : string) (q : Q) (u : time_unit) (ti : Q)
  : list reporter :=
  if Qeq_bool ti 0 then []
  else [HDF5Reporter (name +:+ ".h5") (time_to_steps ti q u)].

(* ===================================================================== *)
(** ** The mutable world of one stage call                                 *)
(* ===================================================================== *)

Definition vec3 : Type := Q * Q * Q.

(** A ParmEd structure, reduced to what the stage reads and writes. *)
Record Structure := {
  s_topology : string;
  s_positions : list vec3;
  s_velocities : option (list vec3);
  s_box_vectors : option (vec3 * vec3 * vec3)
}.

(** An OEMol: title, SD data pairs in order, coordinates. *)
Record OEMol := {
  m_title : string;
  m_sd_data : list (string * string);
  m_coords : list vec3
}.

(** Modelled from the spec: [utils.MDData], whose source is not among the
    sources; the StructureProvider of the spec exposes the
    topology, the positions, the optional velocities, the optional box vectors
    and the parametrized-structure object itself (here its address). *)
Record MDData := {
  md_structure : loc;
  md_topology : string;
  md_positions : list vec3;
  md_velocities : option (list vec3);
  md_box : option (vec3 * vec3 * vec3)
}.

(** The final [State] that a context hands back. *)
Record mm_state := {
  st_positions : list vec3;
  st_velocities : list vec3;
  st_box : vec3 * vec3 * vec3
}.

Inductive velocity_seed :=
| NoVelocities
| GivenVelocities (v : list vec3)
| ThermalVelocities (temperature : Q).

(** What has been loaded into [simulation.context] when a run starts. *)
Record mm_context := {
  c_platform : string;
  c_properties : list (string * string);
  c_positions : list vec3;
  c_box : option (vec3 * vec3 * vec3);
  c_seed : velocity_seed;
  c_frozen : list nat;
  c_restrained : list nat
}.

Inductive mm_run :=
| RunStep (steps : Z)
| RunMinimize (maxIterations : Z).

(** Every call into OpenMM, in the order the stage makes them. *)
Inductive mm_call :=
| CreateSystem (nonbondedMethod : string) (cutoff : option Q)
               (constraints : string) (hmr : bool)
| LangevinIntegrator (temperature : Q) (stepLen : Q)
| MonteCarloBarostat (pressure temperature : Q) (frequency : Z)
| CustomExternalForce (weight : Q) (particles : list nat)
| SetParticleMass (idx : nat) (mass : Q)
| GetPlatformByName (name : string) (found : bool)
| NewSimulation (platform : string) (properties : list (string * string))
                (built : bool)
| SetPositions (xyz : list vec3)
| SetPeriodicBoxVectors
| SetVelocities (v : list vec3)
| SetVelocitiesToTemperature (temperature : Q)
| AppendReporter (r : reporter)
| StepCall (steps : Z)
| MinimizeOnReference
| MinimizeEnergy (maxIterations : Z)
| GetState (enforcePeriodicBox : bool).

Inductive log_level := LInfo | LWarn | LError.

(** A logger line: the message template and the values formatted into it. *)
Definition log_line : Type := log_level * string * list pyval.

(** What the stage cannot decide by itself: which platforms the OpenMM
    installation has, which contexts it can build, what a run returns, which
    atoms a mask selects, which files can be opened for writing. *)
Record OpenMM := {
  has_platform : string -> bool;
  builds : string -> list (string * string) -> bool;
  run : mm_context -> mm_run -> mm_state;
  minimize_reference : list vec3 -> list vec3;
  recenter : list vec3 -> vec3 * vec3 * vec3 -> list vec3;
  select_atoms : loc -> string -> list nat;
  open_for_writing : string -> option Z   (* [Some errno]: IOError *)
}.

(** The execution-environment probe. *)
Record Host := {
  in_orion : bool;
  CUDA_VISIBLE_DEVICES : option string
}.

Record world := {
  w_opt : gmap string pyval;          (* the dictionary [opt] *)
  w_structs : gmap loc Structure;     (* ParmEd structures, by address *)
  w_mols : gmap loc OEMol;            (* OEMols, by address *)
  w_log : list log_line;              (* [opt['Logger']], oldest first *)
  w_mm : list mm_call                 (* OpenMM calls, oldest first *)
}.

Definition M (A : Type) : Type := world -> res A * world.

#[global] Instance M_ret : MRet M := fun A a w => (Ok a, w).
#[global] Instance M_bind : MBind M := fun A B k c w =>
  match c w with
  | (Ok a, w') => k a w'
  | (Raise e, w') => (Raise e, w')
  end.

Definition raise {A} (e : exn) : M A := fun w => (Raise e, w).
Definition lift {A} (r : res A) : M A := fun w => (r, w).

Definition set_opt (f : gmap string pyval -> gmap string pyval) (w : world) : world :=
  {| w_opt := f (w_opt w); w_structs := w_structs w; w_mols := w_mols w;
     w_log := w_log w; w_mm := w_mm w |}.
Definition set_structs (f : gmap loc Structure -> gmap loc Structure) (w : world) : world :=
  {| w_opt := w_opt w; w_structs := f (w_structs w); w_mols := w_mols w;
     w_log := w_log w; w_mm := w_mm w |}.
Definition set_mols (f : gmap loc OEMol -> gmap loc OEMol) (w : world) : world :=
  {| w_opt := w_opt w; w_structs := w_structs w; w_mols := f (w_mols w);
     w_log := w_log w; w_mm := w_mm w |}.
Definition add_log (l : log_line) (w : world) : world :=
  {| w_opt := w_opt w; w_structs := w_structs w; w_mols := w_mols w;
     w_log := w_log w ++ [l]; w_mm := w_mm w |}.
Definition add_call (c : mm_call) (w : world) : world :=
  {| w_opt := w_opt w; w_structs := w_structs w; w_mols := w_mols w;
     w_log := w_log w; w_mm := w_mm w ++ [c] |}.

(** [opt[k]] *)
Definition opt_get (k : string) : M pyval := fun w => (getitem (w_opt w) k, w).
(** [opt[k] = v] *)
Definition opt_put (k : string) (v : pyval) : M unit :=
  fun w => (Ok tt, set_opt <[k := v]> w).
(** [opt] becomes [f opt] *)
Definition opt_modify (f : gmap string pyval -> gmap string pyval) : M unit :=
  fun w => (Ok tt, set_opt f w).
(** [k in opt] *)
Definition opt_has (k : string) : M bool :=
  fun w => (Ok (bool_decide (is_Some (w_opt w !! k))), w).
Definition log (lvl : log_level) (msg : string) (args : list pyval) : M unit :=
  fun w => (Ok tt, add_log (lvl, msg, args) w).
Definition call (c : mm_call) : M unit := fun w => (Ok tt, add_call c w).
Definition calls (cs : list mm_call) : M unit :=
  fun w => (Ok tt, foldl (fun w c => add_call c w) w cs).
Definition when (b : bool) (c : M unit) : M unit := if b then c else mret tt.

(* ===================================================================== *)
(** ** The stage body: [simulation] before decoration                      *)
(* ===================================================================== *)

Definition nl : string := String "010"%char EmptyString.

Definition sim_banner : string :=
  nl +:+ "-------------------------------- SIMULATION --------------------------------".

Definition is_md (simtype : pyval) : bool :=
  match simtype with
  | PStr s => bool_decide (s ∈ ["nvt"; "npt"])
  | _ => false
  end.

Definition is_str (v : pyval) (s : string) : bool :=
  match v with
  | PStr s' => String.eqb s' s
  | _ => false
  end.

Section Stage.
Context (mm : OpenMM) (host : Host).

Definition structure_at (l : loc) : M Structure := fun w =>
  match w_structs w !! l with
  | Some s => (Ok s, w)
  | None => (Raise (AttributeError "no such structure"), w)
  end.

Definition mol_at (v : pyval) : M loc :=
  match v with
  | PMol l => mret l
  | _ => raise (AttributeError "object is not a molecule")
  end.

(** simtools.py l.164-172: the platforms of [Auto], in the order of the
    list; the first one that [getPlatformByName] returns ends the loop. *)
Fixpoint auto_platform (names : list string) : M string :=
  match names with
  | [] => raise (UnboundLocalError "platform")
  | plt_name :: rest =>
      call (GetPlatformByName plt_name (has_platform mm plt_name));;
      if has_platform mm plt_name then mret plt_name
      else if String.eqb plt_name "Reference"
           then raise (ValueError "It was not possible to select any OpenMM Platform")
           else auto_platform rest
  end.

(** l.177-180: the properties of a CUDA or OpenCL context under [Auto]. *)
Definition auto_properties (precision : string) : M (list (string * string)) :=
  has_gpu ← opt_has "gpu_id";
  if has_gpu && bool_decide (is_Some (CUDA_VISIBLE_DEVICES host))
             && negb (in_orion host)
  then g ← opt_get "gpu_id";
       gpu_id ← lift (as_str g);
       mret [("Precision", precision); ("DeviceIndex", gpu_id)]
  else mret [("Precision", precision)].

(** l.174-191: the precisions of [Auto], in the order of the list. *)
Fixpoint auto_precision (platform : string) (precisions : list string)
  : M (list (string * string)) :=
  match precisions with
  | [] => raise (UnboundLocalError "simulation")
  | precision :: rest =>
      properties ← auto_properties precision;
      call (NewSimulation platform properties (builds mm platform properties));;
      if builds mm platform properties then mret properties
      else if String.eqb precision "double"
           then raise (ValueError "It was not possible to select any Precision for the selected Platform")
           else auto_precision platform rest
  end.

(** A context without properties (CPU or Reference). *)
Definition plain_simulation (platform : string) : M (list (string * string)) :=
  call (NewSimulation platform [] (builds mm platform []));;
  if builds mm platform [] then mret []
  else raise (OpenMMException "Error creating the context").

(** l.161-212: platform selection; the result stands for [simulation]. *)
Definition select_platform : M (string * list (string * string)) :=
  p ← opt_get "platform";
  if is_str p "Auto" then
    platform ← auto_platform ["CUDA"; "OpenCL"; "CPU"; "Reference"];
    if bool_decide (platform ∈ ["CUDA"; "OpenCL"]) then
      properties ← auto_precision platform ["mixed"; "single"; "double"];
      mret (platform, properties)
    else
      properties ← plain_simulation platform;
      mret (platform, properties)
  else
    name ← match p with
           | PStr name =>
               call (GetPlatformByName name (has_platform mm name));;
               if has_platform mm name then mret name
               else raise (ValueError "The selected platform is not supported")
           | _ => raise (ValueError "The selected platform is not supported")
           end;
    if bool_decide (name ∈ ["CUDA"; "OpenCL"]) then
      pr ← opt_get "cuda_opencl_precision";
      precision ← lift (as_str pr);
      let properties := [("Precision", precision)] in
      call (NewSimulation name properties (builds mm name properties));;
      if builds mm name properties then mret (name, properties)
      else raise (ValueError "It was not possible to set the precision for the platform")
    else
      properties ← plain_simulation name;
      mret (name, properties).

Definition update_structure (l : loc) (f : Structure -> Structure) : M unit :=
  fun w =>
    match w_structs w !! l with
    | Some s => (Ok tt, set_structs <[l := f s]> w)
    | None => (Raise (AttributeError "no such structure"), w)
    end.

Definition update_mol (l : loc) (f : OEMol -> OEMol) : M unit :=
  fun w =>
    match w_mols w !! l with
    | Some m => (Ok tt, set_mols <[l := f m]> w)
    | None => (Raise (AttributeError "no such molecule"), w)
    end.

Definition with_positions (xyz : list vec3) (s : Structure) : Structure :=
  {| s_topology := s_topology s; s_positions := xyz;
     s_velocities := s_velocities s; s_box_vectors := s_box_vectors s |}.
Definition with_velocities (v : list vec3) (s : Structure) : Structure :=
  {| s_topology := s_topology s; s_positions := s_positions s;
     s_velocities := Some v; s_box_vectors := s_box_vectors s |}.
Definition with_box (b : vec3 * vec3 * vec3) (s : Structure) : Structure :=
  {| s_topology := s_topology s; s_positions := s_positions s;
     s_velocities := s_velocities s; s_box_vectors := Some b |}.
Definition with_coords (xyz : list vec3) (m : OEMol) : OEMol :=
  {| m_title := m_title m; m_sd_data := m_sd_data m; m_coords := xyz |}.

(** [opt[k]] used as a number. *)
Definition opt_float (k : string) : M Q :=
  v ← opt_get k; lift (as_float v).

(** The atoms of [range(0, len(positions))] that a mask selects. *)
Definition masked (positions : list vec3) (sel : list nat) : list nat :=
  filter (λ idx, idx ∈ sel) (seq 0 (length positions)).

(** l.87-101: centering; the new coordinates go into the structure. *)
Definition center_system (mdData : MDData) : M (list vec3) :=
  center ← opt_get "center";
  if py_truthy center && bool_decide (is_Some (md_box mdData)) then
    log LInfo "Centering is On" [];;
    s ← structure_at (md_structure mdData);
    match s_box_vectors s with
    | None => raise (AttributeError "NoneType has no attribute in_units_of")
    | Some box_v =>
        let new_coords := recenter mm (s_positions s) box_v in
        update_structure (md_structure mdData) (with_positions new_coords);;
        mret new_coords
    end
  else mret (md_positions mdData).

(** l.104-112 *)
Definition create_system (mdData : MDData) : M unit :=
  match md_box mdData with
  | Some _ =>
      nb ← opt_get "nonbondedMethod";
      nonbondedMethod ← lift (as_str nb);
      nonbondedCutoff ← opt_float "nonbondedCutoff";
      cs ← opt_get "constraints";
      constraints ← lift (as_str cs);
      hmr ← opt_get "hmr";
      call (CreateSystem nonbondedMethod (Some nonbondedCutoff) constraints
                         (py_truthy hmr))
  | None =>
      cs ← opt_get "constraints";
      constraints ← lift (as_str cs);
      hmr ← opt_get "hmr";
      call (CreateSystem "NoCutoff" None constraints (py_truthy hmr))
  end.

(** l.125-147 *)
Definition apply_restraints (positions : list vec3) : M (list nat) :=
  r ← opt_get "restraints";
  if py_truthy r then
    wt ← opt_float "restraintWt";
    log LInfo "RESTRAINT mask applied to: {} Restraint weight: {}" [r; PFloat wt];;
    mol ← opt_get "molecule";
    l ← mol_at mol;
    mask ← lift (as_str r);
    let res_atom_set := select_atoms mm l mask in
    log LInfo "Number of restraint atoms: {}"
        [PInt (Z.of_nat (length res_atom_set))];;
    wt' ← opt_float "restraintWt";
    call (CustomExternalForce wt' (masked positions res_atom_set));;
    mret (masked positions res_atom_set)
  else mret [].

(** l.150-158 *)
Definition apply_freeze (positions : list vec3) : M (list nat) :=
  f ← opt_get "freeze";
  if py_truthy f then
    log LInfo "FREEZE mask applied to: {}" [f];;
    mol ← opt_get "molecule";
    l ← mol_at mol;
    mask ← lift (as_str f);
    let freeze_atom_set := select_atoms mm l mask in
    log LInfo "Number of frozen atoms: {}"
        [PInt (Z.of_nat (length freeze_atom_set))];;
    calls (map (fun idx => SetParticleMass idx 0)
               (masked positions freeze_atom_set));;
    mret (masked positions freeze_atom_set)
  else mret [].

(** [getReporters] applied to the unpacked [opt]. *)
Definition reporters_of_opt : M (list reporter) :=
  fun w => (getReporters (open_for_writing mm) (w_opt w), w).

(** l.224-239: velocities, step count and reporters of an NVT or NPT run. *)
Definition seed_and_schedule (velocities : option (list vec3)) (stepLen : Q)
  : M velocity_seed :=
  seed ← match velocities with
         | Some v =>
             log LInfo "RESTARTING simulation from a previous State" [];;
             call (SetVelocities v);;
             mret (GivenVelocities v)
         | None =>
             log LInfo "GENERATING a new starting State" [];;
             temperature ← opt_float "temperature";
             call (SetVelocitiesToTemperature temperature);;
             mret (ThermalVelocities temperature)
         end;
  time ← opt_float "time";
  opt_put "steps" (PInt (time_to_steps time stepLen picoseconds));;
  reps ← reporters_of_opt;
  calls (map AppendReporter reps);;
  mret seed.

(** l.267-299: the run of an NVT or NPT stage. *)
Definition run_md (ctx : mm_context) (box : option (vec3 * vec3 * vec3))
  : M mm_state :=
  simtype ← opt_get "SimType";
  time ← opt_get "time";
  steps ← opt_get "steps";
  temperature ← opt_get "temperature";
  (if is_str simtype "nvt" then
     log LInfo "Running time : {time} ns => {steps} steps of {SimType} at {temperature} K"
         [time; steps; simtype; temperature]
   else
     pressure ← opt_get "pressure";
     log LInfo "Running time : {time} ns => {steps} steps of {SimType} at {temperature} K pressure {pressure} atm"
         [time; steps; simtype; temperature; pressure]);;
  ti ← opt_get "trajectory_interval";
  (if py_truthy ti then
     t ← lift (as_float time);
     i ← lift (as_float ti);
     let total_frames := py_round (t / i) in
     log LInfo "Total trajectory frames : {}" [PInt total_frames]
   else mret tt);;
  n ← lift (as_int steps);
  call (StepCall n);;
  call (GetState (bool_decide (is_Some box)));;
  mret (run mm ctx (RunStep n)).

(** l.301-342: the two minimizations of a Minimize stage. *)
Definition run_min (ctx : mm_context) : M mm_state :=
  call (GetPlatformByName "Reference" (has_platform mm "Reference"));;
  (if has_platform mm "Reference" then mret tt
   else raise (OpenMMException "There is no registered Platform called Reference"));;
  _ ← opt_float "temperature";
  call (NewSimulation "Reference" [] (builds mm "Reference" []));;
  (if builds mm "Reference" [] then mret tt
   else raise (OpenMMException "Error creating the context"));;
  call MinimizeOnReference;;
  let reference_end := minimize_reference mm (c_positions ctx) in
  steps ← opt_get "steps";
  (if py_is_zero steps
   then log LInfo "Minimization steps: until convergence is found" []
   else log LInfo "Minimization steps: {steps}" [steps]);;
  call (SetPositions reference_end);;
  n ← lift (as_int steps);
  call (MinimizeEnergy n);;
  call (GetState false);;
  let ctx' := {| c_platform := c_platform ctx; c_properties := c_properties ctx;
                 c_positions := reference_end; c_box := c_box ctx;
                 c_seed := c_seed ctx; c_frozen := c_frozen ctx;
                 c_restrained := c_restrained ctx |} in
  let state := run mm ctx' (RunMinimize n) in
  log LInfo "Initial Energy" [];;
  log LInfo "Minimized Energy" [];;
  mret state.

(** [simulation(mdData, opt)] as written, before [@local_cluster].  The
    text added to [opt['str_logger']] is cut down to its banner; the values
    that the source formats into it are the arguments of the logger lines. *)
Definition simulation_body (mdData : MDData) : M unit :=
  let structure := md_structure mdData in
  let box := md_box mdData in
  (* l.78-84 *)
  hmr ← opt_get "hmr";
  let stepLen : Q := if py_truthy hmr then 4 # 1000 else 2 # 1000 in
  when (py_truthy hmr) (log LInfo "Hydrogen Mass reduction is On" []);;
  opt_put "timestep" (PQuantity stepLen picoseconds);;
  (* l.87-112 *)
  positions ← center_system mdData;
  create_system mdData;;
  (* l.115-122 *)
  temperature ← opt_float "temperature";
  call (LangevinIntegrator temperature stepLen);;
  simtype ← opt_get "SimType";
  (if is_str simtype "npt" then
     match box with
     | None => raise (ValueError "NPT simulation without box vector")
     | Some _ =>
         pressure ← opt_float "pressure";
         temperature' ← opt_float "temperature";
         call (MonteCarloBarostat pressure temperature' 25)
     end
   else mret tt);;
  (* l.125-158 *)
  restrained ← apply_restraints positions;
  frozen ← apply_freeze positions;
  (* l.161-219 *)
  sim ← select_platform;
  call (SetPositions positions);;
  when (bool_decide (is_Some box)) (call SetPeriodicBoxVectors);;
  (* l.224-239 *)
  simtype ← opt_get "SimType";
  seed ← (if is_md simtype
          then seed_and_schedule (md_velocities mdData) stepLen
          else mret NoVelocities);
  let ctx := {| c_platform := sim.1; c_properties := sim.2;
                c_positions := positions; c_box := box; c_seed := seed;
                c_frozen := frozen; c_restrained := restrained |} in
  (* l.242-265 *)
  ts ← opt_get "timestep";
  log LInfo "OpenMM Version : {}" [];;
  log LInfo "Platform in use : {}" [PStr sim.1];;
  (* l.267-342 *)
  simtype ← opt_get "SimType";
  state ← (if is_md simtype then run_md ctx box
           else if is_str simtype "min" then run_min ctx
           else raise (UnboundLocalError "state"));
  (* l.344-352 *)
  update_structure structure (with_positions (st_positions state));;
  when (bool_decide (is_Some box))
       (update_structure structure (with_box (st_box state)));;
  simtype ← opt_get "SimType";
  when (is_md simtype)
       (update_structure structure (with_velocities (st_velocities state)));;
  (* l.354-361 *)
  s ← structure_at structure;
  mol ← opt_get "molecule";
  l ← mol_at mol;
  update_mol l (with_coords (s_positions s));;
  old ← opt_get "str_logger";
  text ← lift (as_str old);
  opt_put "str_logger" (PStr (text +:+ sim_banner)).
End Stage.

(* ===================================================================== *)
(** ** The GPU lock arbiter: [local_cluster]                               *)
(* ===================================================================== *)

(** [s.split(',')] *)
Fixpoint split_comma (s : string) : list string :=
  match s with
  | EmptyString => [""]
  | String c rest =>
      if Ascii.eqb c ","%char then "" :: split_comma rest
      else match split_comma rest with
           | w :: ws => String c w :: ws
           | [] => [String c ""]
           end
  end.

(** [os.path.join('/tmp/', name)]: an absolute [name] replaces the prefix. *)
Definition tmp_join (name : string) : string :=
  match name with
  | String "/"%char _ => name
  | _ => "/tmp/" +:+ name
  end.

(** The lock file of a device (l.28). *)
Definition lock_file (gpu_id : string) : string := tmp_join (gpu_id +:+ ".txt").

Definition pid := nat.

(** The local variable [file] of the wrapper. *)
Inductive file_var :=
| Unbound
| Opened (fn : string)
| Closed (fn : string).

Inductive os_event :=
| OpenAppend (fn : string) (errno : option Z)
| FlockEx (fn : string) (granted : bool)
| WriteLine (fn : string) (args : list pyval)
| CallSim (gpu_id : string)
| Sleep (seconds : Q)
| FlockUn (fn : string)
| CloseFile (fn : string).

(** Where a job stands in the wrapper. *)
Inductive pc :=
| LoopHead                      (* l.23: about to pick, open and lock *)
| Locked (gpu_id : string)      (* l.31: the lock was granted *)
| Ran (gpu_id : string)         (* l.38: [sim] has returned *)
| Backoff                       (* l.43: in [time.sleep(0.1)] *)
| Direct                        (* l.51: no arbitration *)
| Returned
| Failed (e : exn).

Record job := {
  j_pc : pc;
  j_file : file_var;
  j_world : world;
  j_mdData : MDData;
  j_trace : list os_event
}.

(** What the operating system does around the wrapper: the error number
    that [flock] with [LOCK_NB] reports on a lock held elsewhere, and
    whether a lock file can be opened for appending. *)
Record Kernel := {
  flock_busy_errno : Z;
  open_lock_file : string -> option Z
}.

Definition with_pc (c : pc) (j : job) : job :=
  {| j_pc := c; j_file := j_file j; j_world := j_world j;
     j_mdData := j_mdData j; j_trace := j_trace j |}.
Definition with_file (f : file_var) (j : job) : job :=
  {| j_pc := j_pc j; j_file := f; j_world := j_world j;
     j_mdData := j_mdData j; j_trace := j_trace j |}.
Definition with_world (w : world) (j : job) : job :=
  {| j_pc := j_pc j; j_file := j_file j; j_world := w;
     j_mdData := j_mdData j; j_trace := j_trace j |}.
Definition traced (evs : list os_event) (j : job) : job :=
  {| j_pc := j_pc j; j_file := j_file j; j_world := j_world j;
     j_mdData := j_mdData j; j_trace := j_trace j ++ evs |}.

(** Closing a descriptor drops the lock that was taken through it, and
    only that one. *)
Definition release (self : pid) (fn : string) (locks : gmap string pid)
  : gmap string pid :=
  match locks !! fn with
  | Some owner => if decide (owner = self) then delete fn locks else locks
  | None => locks
  end.

(** [fcntl.flock(file, fcntl.LOCK_UN)] in an [except] clause: [fileno()] of
    a closed file raises. *)
Definition flock_un (file : file_var) : res string :=
  match file with
  | Opened fn => Ok fn
  | Closed _ => Raise (ValueError "I/O operation on closed file")
  | Unbound => Raise (UnboundLocalError "file")
  end.

Section LocalCluster.
Context (host : Host) (kernel : Kernel).
Context (sim : MDData -> M unit).

(** l.17 *)
Definition arbitrated : bool :=
  bool_decide (is_Some (CUDA_VISIBLE_DEVICES host)) && negb (in_orion host).

(** l.19 *)
Definition gpus_available_indexes : list string :=
  split_comma (default "" (CUDA_VISIBLE_DEVICES host)).

(** l.25: [gpus_available_indexes[opt['system_id'] % len(...)]] *)
Definition pick_gpu (opt : gmap string pyval) : res string :=
  v ← getitem opt "system_id";
  match v with
  | PInt _ | PBool _ =>
      z ← as_int v;
      match gpus_available_indexes
            !! Z.to_nat (z mod Z.of_nat (length gpus_available_indexes)) with
      | Some gpu_id => Ok gpu_id
      | None => Raise (IndexError "list index out of range")
      end
  | _ => Raise (TypeError "list indices must be integers")
  end.

(** l.41-49: the [except] clauses.  They run after the [with] block has
    closed the file.  Python 3: an exception has no [message]. *)
Definition handle (self : pid) (e : exn) (locks : gmap string pid) (j : job)
  : gmap string pid * job :=
  match e with
  | IOError errno =>
      if errno =? EACCES then
        (locks, with_pc Backoff j)
      else
        match flock_un (j_file j) with
        | Ok fn => (release self fn locks,
                    with_pc (Failed (ValueError "IO Error: Simulation Failed"))
                            (traced [FlockUn fn] j))
        | Raise e' => (locks, with_pc (Failed e') j)
        end
  | _ =>
      match flock_un (j_file j) with
      | Ok fn => (release self fn locks,
                  with_pc (Failed (AttributeError "exception has no attribute message"))
                          (traced [FlockUn fn] j))
      | Raise e' => (locks, with_pc (Failed e') j)
      end
  end.

(** Leaving the [with] block on an exception: the file is closed, which
    drops the lock if this job had it; then the [except] clauses. *)
Definition leave_with (self : pid) (fn : string) (e : exn)
    (locks : gmap string pid) (j : job) : gmap string pid * job :=
  handle self e (release self fn locks)
         (with_file (Closed fn) (traced [CloseFile fn] j)).

(** l.31-35: the audit line. *)
Definition audit_line (opt : gmap string pyval) (gpu_id : string)
  : res (list pyval) :=
  title ← getitem opt "system_title";
  id ← getitem opt "system_id";
  Ok ([title; id] ++ map PStr gpus_available_indexes ++ [PStr gpu_id])%list.

(** One move of a job, on the lock table it shares with the others. *)
Definition step_job (self : pid) (locks : gmap string pid) (j : job)
  : gmap string pid * job :=
  match j_pc j with
  | LoopHead =>
      match pick_gpu (w_opt (j_world j)) with
      | Raise e => (locks, with_pc (Failed e) j)
      | Ok gpu_id =>
          let fn := lock_file gpu_id in
          match open_lock_file kernel fn with
          | Some errno =>
              handle self (IOError errno) locks
                     (traced [OpenAppend fn (Some errno)] j)
          | None =>
              let j := with_file (Opened fn) (traced [OpenAppend fn None] j) in
              match locks !! fn with
              | None =>
                  (<[fn := self]> locks,
                   with_pc (Locked gpu_id) (traced [FlockEx fn true] j))
              | Some _ =>
                  leave_with self fn (IOError (flock_busy_errno kernel)) locks
                             (traced [FlockEx fn false] j)
              end
          end
      end
  | Locked gpu_id =>
      let fn := lock_file gpu_id in
      match audit_line (w_opt (j_world j)) gpu_id with
      | Raise e => leave_with self fn e locks j
      | Ok args =>
          let j := traced [WriteLine fn args; CallSim gpu_id] j in
          let w := set_opt <["gpu_id" := PStr gpu_id]> (j_world j) in
          match sim (j_mdData j) w with
          | (Ok _, w') => (locks, with_pc (Ran gpu_id) (with_world w' j))
          | (Raise e, w') => leave_with self fn e locks (with_world w' j)
          end
      end
  | Ran gpu_id =>
      let fn := lock_file gpu_id in
      (release self fn locks,
       with_pc Returned
               (with_file (Closed fn)
                          (traced [Sleep 2; FlockUn fn; CloseFile fn] j)))
  | Backoff => (locks, with_pc LoopHead (traced [Sleep (1 # 10)] j))
  | Direct =>
      match sim (j_mdData j) (j_world j) with
      | (Ok _, w') => (locks, with_pc Returned (with_world w' j))
      | (Raise e, w') => (locks, with_pc (Failed e) (with_world w' j))
      end
  | Returned | Failed _ => (locks, j)
  end.

(** Entering the wrapper (l.16-22, l.50). *)
Definition enter (mdData : MDData) (w : world) : job :=
  if arbitrated then
    {| j_pc := LoopHead; j_file := Unbound;
       j_world := add_log (LWarn, "LOCAL FLOE CLUSTER OPTION IN USE", []) w;
       j_mdData := mdData; j_trace := [] |}
  else
    {| j_pc := Direct; j_file := Unbound; j_world := w;
       j_mdData := mdData; j_trace := [] |}.

(** The jobs of one host and the lock table between them. *)
Record cluster := {
  cl_locks : gmap string pid;
  cl_jobs : gmap pid job
}.

(** Job [p] makes its next move. *)
Definition cluster_step (σ : cluster) (p : pid) : cluster :=
  match cl_jobs σ !! p with
  | None => σ
  | Some j =>
      let '(locks, j') := step_job p (cl_locks σ) j in
      {| cl_locks := locks; cl_jobs := <[p := j']> (cl_jobs σ) |}
  end.

(** A schedule is the order in which the jobs move. *)
Definition cluster_run (σ : cluster) (schedule : list pid) : cluster :=
  foldl cluster_step σ schedule.

(** The device that a job has a lease on. *)
Definition lease (j : job) : option string :=
  match j_pc j with
  | Locked gpu_id | Ran gpu_id => Some gpu_id
  | _ => None
  end.

(** The wrapper run by one job with nobody else on the host, for at most
    [fuel] moves. *)
Fixpoint run_alone (fuel : nat) (self : pid) (locks : gmap string pid) (j : job)
  : gmap string pid * job :=
  match fuel with
  | O => (locks, j)
  | S fuel =>
      match j_pc j with
      | Returned | Failed _ => (locks, j)
      | _ => let '(locks', j') := step_job self locks j in
             run_alone fuel self locks' j'
      end
  end.
End LocalCluster.

(** [simtools.simulation]: the stage body under [@local_cluster], called by
    one job while the lock table is [locks].  [None]: the call has not
    returned after [fuel] moves of the wrapper. *)
Definition simulation (mm : OpenMM) (host : Host) (kernel : Kernel)
    (fuel : nat) (self : pid) (locks : gmap string pid)
    (mdData : MDData) (w : world) : option (res unit * world) :=
  let j := (run_alone host kernel (simulation_body mm host) fuel self locks
                      (enter host mdData w)).2 in
  match j_pc j with
  | Returned => Some (Ok tt, j_world j)
  | Failed e => Some (Raise e, j_world j)
  | _ => None
  end.

(* ===================================================================== *)
(** ** Records and the stage cubes                                         *)
(* ===================================================================== *)

(** Modelled from the spec: the fields of a data record hold values.  The
    record classes of [Standards] are built on [OERecord] and on the
    [ParmedData] field type of [Standards/utils.py], neither of which is among
    the sources; the spec has each stage record own its system
    snapshot exclusively, so [set_value] stores a copy of the object it is
    given and [get_value] hands out a fresh object. *)
Record MDSystemRecord := {
  f_topology : OEMol;
  f_structure : Structure
}.

Record MDStageRecord := {
  f_stage_name : string;
  f_log_data : string;
  f_md_system : MDSystemRecord;
  f_trajectory : string
}.

Record OERecord := {
  f_primary_molecule : option OEMol;
  f_id : option Z;
  f_md_stages : option (list MDStageRecord)
}.

Inductive cube_kind := MinimizeCube | NvtCube | NptCube.

Definition sim_type (k : cube_kind) : string :=
  match k with MinimizeCube => "min" | NvtCube => "nvt" | NptCube => "npt" end.

(** [MDStageNames] *)
Definition stage_name_of (k : cube_kind) : string :=
  match k with
  | MinimizeCube => "MINIMIZATION"
  | NvtCube => "NVT"
  | NptCube => "NPT"
  end.

(** The SD tags that may override a cube parameter (cubes.py l.180, l.402,
    l.662). *)
Definition override_tags (k : cube_kind) : list string :=
  match k with
  | MinimizeCube | NvtCube => ["temperature"]
  | NptCube => ["temperature"; "pressure"]
  end.

(** [begin]: the parameters of the cube plus its simulation type. *)
Definition begin (k : cube_kind) (args : gmap string pyval) : gmap string pyval :=
  <["SimType" := PStr (sim_type k)]> args.

(** What one [process] call works on: the world, the record it was handed
    (an object that [set_value] changes), and the two output ports. *)
Record cube_state := {
  cs_world : world;
  cs_record : OERecord;
  cs_success : list OERecord;
  cs_failure : list OERecord
}.

(** A cube computation: may raise, and may never come back from the stage
    call ([None]). *)
Definition C (A : Type) : Type := cube_state -> option (res A * cube_state).

#[global] Instance C_ret : MRet C := fun A a σ => Some (Ok a, σ).
#[global] Instance C_bind : MBind C := fun A B k c σ =>
  match c σ with
  | Some (Ok a, σ') => k a σ'
  | Some (Raise e, σ') => Some (Raise e, σ')
  | None => None
  end.

Definition with_cs_world (w : world) (σ : cube_state) : cube_state :=
  {| cs_world := w; cs_record := cs_record σ;
     cs_success := cs_success σ; cs_failure := cs_failure σ |}.
Definition with_cs_record (r : OERecord) (σ : cube_state) : cube_state :=
  {| cs_world := cs_world σ; cs_record := r;
     cs_success := cs_success σ; cs_failure := cs_failure σ |}.

(** A stage-level computation inside a cube computation. *)
Definition in_world {A} (c : M A) : C A := fun σ =>
  let '(r, w) := c (cs_world σ) in Some (r, with_cs_world w σ).
(** A call that may not return. *)
Definition in_world_partial {A} (c : world -> option (res A * world)) : C A :=
  fun σ => match c (cs_world σ) with
           | Some (r, w) => Some (r, with_cs_world w σ)
           | None => None
           end.
Definition craise {A} (e : exn) : C A := fun σ => Some (Raise e, σ).
Definition the_record : C OERecord := fun σ => Some (Ok (cs_record σ), σ).
Definition set_record (f : OERecord -> OERecord) : C unit :=
  fun σ => Some (Ok tt, with_cs_record (f (cs_record σ)) σ).
(** [self.success.emit(record)] and [self.failure.emit(record)] *)
Definition emit_success : C unit := fun σ =>
  Some (Ok tt, {| cs_world := cs_world σ; cs_record := cs_record σ;
                  cs_success := cs_success σ ++ [cs_record σ];
                  cs_failure := cs_failure σ |}).
Definition emit_failure : C unit := fun σ =>
  Some (Ok tt, {| cs_world := cs_world σ; cs_record := cs_record σ;
                  cs_success := cs_success σ;
                  cs_failure := cs_failure σ ++ [cs_record σ] |}).
(** [try: c except: h] with a bare [except] *)
Definition try_except (c : C unit) (h : C unit) : C unit := fun σ =>
  match c σ with
  | Some (Raise _, σ') => h σ'
  | other => other
  end.

(** A fresh object on the heap. *)
Definition new_struct (s : Structure) : M loc := fun w =>
  let l := fresh (dom (w_structs w)) in (Ok l, set_structs <[l := s]> w).
Definition new_mol (m : OEMol) : M loc := fun w =>
  let l := fresh (dom (w_mols w)) in (Ok l, set_mols <[l := m]> w).
Definition mol_value (l : loc) : M OEMol := fun w =>
  match w_mols w !! l with
  | Some m => (Ok m, w)
  | None => (Raise (AttributeError "no such molecule"), w)
  end.
Definition struct_value (l : loc) : M Structure := fun w =>
  match w_structs w !! l with
  | Some s => (Ok s, w)
  | None => (Raise (AttributeError "no such structure"), w)
  end.

(** Modelled from the spec: [utils.MDData(parmed_structure)], see [MDData]. *)
Definition MDData_of (l : loc) : M MDData :=
  s ← struct_value l;
  mret {| md_structure := l; md_topology := s_topology s;
          md_positions := s_positions s; md_velocities := s_velocities s;
          md_box := s_box_vectors s |}.

Definition cube_banner : string := "------------CUBE PARAMETERS----------".

(** [str(v)] for the values that name an output file. *)
Definition py_str (v : pyval) : string :=
  match v with
  | PStr s => s
  | PInt z => pretty z
  | _ => ""
  end.

Section Cubes.
(** The builtin [float] on a string ([None]: it raises [ValueError]);
    [simtools.simulation] as this job sees it; [utils.upload]; the text of
    a file written by a reporter. *)
Context (float_of_string : string -> option Q).
Context (stage_call : MDData -> world -> option (res unit * world)).
Context (upload : string -> string) (read_text : string -> string).

(** l.180-181: the dictionary comprehension over the SD data pairs. *)
Definition sd_pairs (tags : list string) (sd : list (string * string))
  : gmap string pyval :=
  foldl (λ d p, if bool_decide (p.1 ∈ tags) then <[p.1 := PStr p.2]> d else d)
        ∅ sd.

(** l.184-187: [try: new_args[k] = float(new_args[k])  except: pass] *)
Definition try_float (v : pyval) : pyval :=
  match v with
  | PStr s => match float_of_string s with
              | Some q => PFloat q
              | None => v
              end
  | _ => v
  end.

(** l.180-189: the parameters after the SD tags of the system have been
    looked at. *)
Definition sd_overrides (k : cube_kind) (system : OEMol)
    (opt : gmap string pyval) : gmap string pyval :=
  let new_args := sd_pairs (override_tags k) (m_sd_data system) in
  if bool_decide (new_args = ∅) then opt
  else (try_float <$> new_args) ∪ opt.

Definition update_parameters (k : cube_kind) (system : loc) : M unit :=
  m ← mol_value system;
  let new_args := sd_pairs (override_tags k) (m_sd_data m) in
  if bool_decide (new_args = ∅) then mret tt
  else
    log LInfo "Updating parameters for molecule: {}" [PStr (m_title m)];;
    opt_modify (sd_overrides k m).

(** l.413, l.675 *)
Definition set_outfname (self_opt : gmap string pyval) (system_id : pyval)
  : M unit :=
  suffix ← lift (getitem self_opt "suffix");
  opt_put "outfname" (PStr (py_str system_id +:+ "-" +:+ py_str suffix)).

(** l.425-437, l.687-698: the trajectory handle and the reporter log. *)
Definition collect_output : M string :=
  ti ← opt_get "trajectory_interval";
  outfname ← opt_get "outfname";
  let lf := if py_truthy ti then upload (py_str outfname +:+ ".h5") else "" in
  ri ← opt_get "reporter_interval";
  (if py_truthy ri then
     old ← opt_get "str_logger";
     text ← lift (as_str old);
     opt_put "str_logger"
             (PStr (text +:+ nl +:+ read_text (py_str outfname +:+ ".log")))
   else mret tt);;
  mret lf.

(** The body of the [try] block of [process], for the three stage cubes.
    The lines added to [str_logger] for each parameter and the optional
    tar upload (l.440-453) are left out: they do not reach the record. *)
Definition process_try (k : cube_kind) (self_opt : gmap string pyval) : C unit :=
  in_world (opt_modify (fun _ => self_opt));;
  let str_logger := cube_banner in
  record ← the_record;
  match f_primary_molecule record with
  | None =>
      in_world (log LWarn "Missing molecule '{}' field" []);;
      emit_failure
  | Some primary =>
      system ← in_world (new_mol primary);
      system_id ← match f_id record with
                  | None =>
                      in_world (log LWarn "Missing molecule ID '{}' field" []);;
                      mret (PStr (m_title primary))
                  | Some z => mret (PInt z)
                  end;
      match f_md_stages record with
      | None =>
          in_world (log LWarn "Missing '{}' field" []);;
          emit_failure
      | Some _ => mret tt
      end;;
      md_stages ← match f_md_stages record with
                  | Some stages => mret stages
                  | None => craise (TypeError "NoneType object is not subscriptable")
                  end;
      md_stage_record ← match last md_stages with
                        | Some r => mret r
                        | None => craise (IndexError "list index out of range")
                        end;
      let md_system_record := f_md_system md_stage_record in
      system ← in_world (new_mol (f_topology md_system_record));
      parmed_structure ← in_world (new_struct (f_structure md_system_record));
      in_world (update_parameters k system);;
      match k with
      | MinimizeCube => mret tt
      | _ => in_world (set_outfname self_opt system_id)
      end;;
      mdData ← in_world (MDData_of parmed_structure);
      in_world (opt_put "molecule" (PMol system));;
      in_world (opt_put "str_logger" (PStr str_logger));;
      in_world (log LInfo "START SIMULATION: {}" [system_id]);;
      in_world_partial (stage_call mdData);;
      lf ← match k with
           | MinimizeCube => mret ""
           | _ => in_world collect_output
           end;
      m ← in_world (mol_value system);
      set_record (fun r => {| f_primary_molecule := Some m; f_id := f_id r;
                              f_md_stages := f_md_stages r |});;
      logv ← in_world (opt_get "str_logger");
      m' ← in_world (mol_value system);
      s ← in_world (struct_value (md_structure mdData));
      let md_stage_record :=
        {| f_stage_name := stage_name_of k; f_log_data := py_str logv;
           f_md_system := {| f_topology := m'; f_structure := s |};
           f_trajectory := lf |} in
      set_record (fun r => {| f_primary_molecule := f_primary_molecule r;
                              f_id := f_id r;
                              f_md_stages := Some (md_stages ++ [md_stage_record])%list |});;
      emit_success
  end.

(** [process(self, record, port)] of [OpenMMminimizeCube], [OpenMMNvtCube]
    and [OpenMMNptCube]. *)
Definition process (k : cube_kind) (self_opt : gmap string pyval) : C unit :=
  try_except (process_try k self_opt)
             (in_world (log LError "traceback" []);; emit_failure).
End Cubes.

(* ===================================================================== *)
(** ** Concrete hosts, installations and inputs                            *)
(* ===================================================================== *)

Definition origin : vec3 := (0, 0, 0)%Q.
Definition unit_box : vec3 * vec3 * vec3 :=
  ((1, 0, 0), (0, 1, 0), (0, 0, 1))%Q.

(** A run that moves every atom by one along x and leaves the box alone. *)
Definition shift_run (ctx : mm_context) (r : mm_run) : mm_state :=
  {| st_positions := map (fun p => (p.1.1 + 1, p.1.2, p.2)%Q) (c_positions ctx);
     st_velocities := map (fun _ => origin) (c_positions ctx);
     st_box := default unit_box (c_box ctx) |}.

(** An installation with the platforms [platforms], where every context can
    be built and the files outside [readonly] can be written. *)
Definition installation (platforms : list string) (readonly : list string) : OpenMM :=
  {| has_platform := fun name => bool_decide (name ∈ platforms);
     builds := fun _ _ => true;
     run := shift_run;
     minimize_reference := fun xyz => xyz;
     recenter := fun xyz _ => xyz;
     select_atoms := fun _ _ => [];
     open_for_writing := fun name =>
       if bool_decide (name ∈ readonly) then Some EACCES else None |}.

Definition reference_only : OpenMM := installation ["Reference"] [].

(** The managed cluster and a local host with two visible devices. *)
Definition orion : Host := {| in_orion := true; CUDA_VISIBLE_DEVICES := None |}.
Definition two_gpus : Host :=
  {| in_orion := false; CUDA_VISIBLE_DEVICES := Some "0,1" |}.

(** [flock(2)] answers a held lock under [LOCK_NB] with [EWOULDBLOCK], which
    is [EAGAIN]; an emulation over [fcntl(2)] may answer [EACCES]. *)
Definition flock_kernel : Kernel :=
  {| flock_busy_errno := EAGAIN; open_lock_file := fun _ => None |}.
Definition fcntl_kernel : Kernel :=
  {| flock_busy_errno := EACCES; open_lock_file := fun _ => None |}.

Definition water : Structure :=
  {| s_topology := "HOH"; s_positions := [origin; (1, 0, 0)%Q; (0, 1, 0)%Q];
     s_velocities := None; s_box_vectors := Some unit_box |}.

Definition water_mol (sd : list (string * string)) : OEMol :=
  {| m_title := "water"; m_sd_data := sd; m_coords := s_positions water |}.

(** The defaults of the NVT cube with a trajectory every 0.5, after [begin]. *)
Definition nvt_args : gmap string pyval :=
  begin NvtCube
    (list_to_map
       [("temperature", PFloat 300); ("time", PFloat 10);
        ("restraints", PStr ""); ("restraintWt", PFloat 2);
        ("freeze", PStr ""); ("nonbondedMethod", PStr "PME");
        ("nonbondedCutoff", PInt 10); ("constraints", PStr "HBonds");
        ("trajectory_interval", PFloat (1 # 2));
        ("reporter_interval", PFloat 0); ("suffix", PStr "nvt");
        ("upload_ui", PBool false); ("center", PBool false);
        ("verbose", PBool true); ("platform", PStr "Auto");
        ("cuda_opencl_precision", PStr "single"); ("hmr", PBool false)]).

Definition empty_world : world :=
  {| w_opt := ∅; w_structs := ∅; w_mols := ∅; w_log := []; w_mm := [] |}.

(** The world in which [process] calls the stage for [water]: its structure
    at address 0, its molecule at address 0. *)
Definition nvt_world : world :=
  {| w_opt := <["str_logger" := PStr cube_banner]>
              (<["molecule" := PMol 0%nat]>
               (<["outfname" := PStr "1-nvt"]> nvt_args));
     w_structs := {[ 0%nat := water ]};
     w_mols := {[ 0%nat := water_mol [] ]};
     w_log := []; w_mm := [] |}.

Definition water_data : MDData :=
  {| md_structure := 0%nat; md_topology := "HOH";
     md_positions := s_positions water; md_velocities := None;
     md_box := Some unit_box |}.

(* ===================================================================== *)
(** ** Notions that the properties are stated with                         *)
(* ===================================================================== *)

(** The order in which [Auto] asks for the platforms, and the first of
    them that the installation has. *)
Definition auto_order : list string := ["CUDA"; "OpenCL"; "CPU"; "Reference"].

Definition first_available (mm : OpenMM) (names : list string) : option string :=
  head (filter (λ name, has_platform mm name = true) names).

(** The names that a search through [names] asks for: all of them up to
    the first that is there. *)
Fixpoint asked (mm : OpenMM) (names : list string) : list string :=
  match names with
  | [] => []
  | name :: rest => name :: (if has_platform mm name then [] else asked mm rest)
  end.

(** The plain decimal literals of the grammar of [float]: a sign, digits,
    one point.  (Exponents, [inf], [nan], underscores and blanks are the rest
    of that grammar.) *)
Definition digit_of (c : ascii) : option Z :=
  let n := Z.of_nat (nat_of_ascii c) in
  if (48 <=? n) && (n <=? 57) then Some (n - 48) else None.

Fixpoint decimal (s : string) (num : Z) (scale : positive) (seen_dot : bool)
    (ndigits : nat) : option Q :=
  match s with
  | EmptyString => if Nat.eqb ndigits 0 then None else Some (Qred (num # scale))
  | String c rest =>
      match digit_of c with
      | Some d =>
          decimal rest (10 * num + d) (if seen_dot then 10 * scale else scale)%positive
                  seen_dot (S ndigits)
      | None =>
          if Ascii.eqb c "."%char && negb seen_dot
          then decimal rest num scale true ndigits
          else None
      end
  end.

Definition decimal_float (s : string) : option Q :=
  match s with
  | String "-"%char rest => Qopp <$> decimal rest 0 1 false 0
  | String "+"%char rest => decimal rest 0 1 false 0
  | _ => decimal s 0 1 false 0
  end.

(** A record with no field at all, and the state in which a cube is handed
    a record. *)
Definition bare_record : OERecord :=
  {| f_primary_molecule := None; f_id := None; f_md_stages := None |}.

Definition cube_start (r : OERecord) : cube_state :=
  {| cs_world := empty_world; cs_record := r; cs_success := []; cs_failure := [] |}.

(** The stage call of a job with process number 7 on the managed cluster,
    with the Reference platform only. *)
Definition orion_call (mdData : MDData) (w : world) : option (res unit * world) :=
  simulation reference_only orion flock_kernel 8 7%nat ∅ mdData w.

(** A record that carries a molecule and nothing else. *)
Definition molecule_only : OERecord :=
  {| f_primary_molecule := Some (water_mol []); f_id := Some 1;
     f_md_stages := None |}.

(** Weakest preconditions of cube computations, for the runs that come
    back: [wpC c σ Q] when every outcome of [c] from [σ] satisfies [Q]. *)
Definition wpC {A} (c : C A) (σ : cube_state)
    (Q : res A → cube_state → Prop) : Prop :=
  ∀ r σ', c σ = Some (r, σ') → Q r σ'.

(** How the history of the record can stand after a [process] call that
    started from [σ] with the history [stages]: as it was, with nothing new
    on the success port; or longer by one record of this cube, and emitted. *)
Definition history_kept (stages : list MDStageRecord) (σ σ' : cube_state) : Prop :=
  f_md_stages (cs_record σ') = Some stages ∧ cs_success σ' = cs_success σ.

Definition history_extended (k : cube_kind) (stages : list MDStageRecord)
    (σ σ' : cube_state) : Prop :=
  ∃ new, f_md_stages (cs_record σ') = Some (stages ++ [new])%list
         ∧ f_stage_name new = stage_name_of k
         ∧ cs_success σ' = (cs_success σ ++ [cs_record σ'])%list.

(** A record as the setup leaves it: the molecule and one SETUP stage
    holding the water structure. *)
Definition setup_stage (sd : list (string * string)) : MDStageRecord :=
  {| f_stage_name := "SETUP"; f_log_data := "";
     f_md_system := {| f_topology := water_mol sd; f_structure := water |};
     f_trajectory := "" |}.

Definition after_setup (sd : list (string * string)) : OERecord :=
  {| f_primary_molecule := Some (water_mol sd); f_id := Some 1;
     f_md_stages := Some [setup_stage sd] |}.

(** Whoever has a lease on a device owns the lock of its file. *)
Definition lock_inv (locks : gmap string pid) (jobs : gmap pid job) : Prop :=
  ∀ p j gpu_id,
    jobs !! p = Some j → lease j = Some gpu_id →
    locks !! lock_file gpu_id = Some p.

(** [except IOError as e] with [e.errno == errno.EACCES] *)
Definition is_permission_error (e : exn) : bool :=
  match e with
  | IOError errno => errno =? EACCES
  | _ => false
  end.

(** The world of the NVT job for system number [id] on a local host. *)
Definition local_world (id : Z) (log_every : Q) : world :=
  set_opt (λ opt, <["system_id" := PInt id]>
                   (<["system_title" := PStr "water"]>
                    (<["reporter_interval" := PFloat log_every]> opt)))
          nvt_world.

(** Two jobs, for the systems 0 and 2, entering the wrapper on the host
    with the devices 0 and 1: both are sent to device 0. *)
Definition two_jobs : cluster :=
  {| cl_locks := ∅;
     cl_jobs := {[ 0%nat := enter two_gpus water_data (local_world 0 0);
                   1%nat := enter two_gpus water_data (local_world 2 0) ]} |}.

(** An installation on which the log file of the job cannot be written. *)
Definition readonly_log : OpenMM := installation ["Reference"] ["1-nvt.log"].

(** The job for system 0 once it has the lock of device 0, with a scalar
    log every [log_every]. *)
Definition holding_job (w : world) : job :=
  with_pc (Locked "0") (with_file (Opened "/tmp/0.txt")
                          (enter two_gpus water_data w)).

(** An NPT job on a system without a box. *)
Definition vacuum_data : MDData :=
  {| md_structure := 0%nat; md_topology := "HOH";
     md_positions := s_positions water; md_velocities := None;
     md_box := None |}.

Definition npt_world : world :=
  set_opt (λ opt, <["SimType" := PStr "npt"]> (<["pressure" := PFloat 1]> opt))
          (local_world 0 0).

(** How often the stage was called in a trace. *)
Definition is_sim_call (ev : os_event) : bool :=
  match ev with CallSim _ => true | _ => false end.

Definition sim_calls (evs : list os_event) : nat :=
  length (List.filter is_sim_call evs).

(** The calls that set velocities, and those of them made so far. *)
Definition is_seed_call (c : mm_call) : bool :=
  match c with
  | SetVelocities _ | SetVelocitiesToTemperature _ => true
  | _ => false
  end.

Definition seed_calls (w : world) : list mm_call :=
  List.filter is_seed_call (w_mm w).

(** [seeded added w0 w1]: since [w0] the velocity calls [added] were made, and
    the simulation type and the temperature of [opt] are as in [w0]. *)
Definition seeded (added : list mm_call) (w0 w1 : world) : Prop :=
  seed_calls w1 = (seed_calls w0 ++ added)%list
  ∧ w_opt w1 !! "SimType" = w_opt w0 !! "SimType"
  ∧ w_opt w1 !! "temperature" = w_opt w0 !! "temperature".

(** A computation that makes no velocity call and keeps these two keys. *)
Definition quiet {A} (c : M A) : Prop :=
  ∀ added w0 w, seeded added w0 w → seeded added w0 (c w).2.

(** Whether [opt['SimType']] is one of [nvt] and [npt]. *)
Definition md_stage (w : world) : bool :=
  match w_opt w !! "SimType" with
  | Some v => is_md v
  | None => false
  end.

(** The velocity calls that a stage may add: none; the one that loads the
    velocities of the input; or, without such velocities, the one that draws
    them at the temperature of [opt]. *)
Definition seed_shape (velocities : option (list vec3)) (temperature : option pyval)
    (added : list mm_call) : Prop :=
  added = []
  ∨ (∃ v, velocities = Some v ∧ added = [SetVelocities v])
  ∨ (velocities = None
     ∧ ∃ t T, temperature = Some t ∧ as_float t = Ok T
              ∧ added = [SetVelocitiesToTemperature T]).

Definition seeding_outcome (mdData : MDData) (w0 : world) (r : res unit) (w' : world) : Prop :=
  ∃ added,
    seed_calls w' = (seed_calls w0 ++ added)%list
    ∧ seed_shape (md_velocities mdData) (w_opt w0 !! "temperature") added
    ∧ (md_stage w0 = false → added = [])
    ∧ (md_stage w0 = true → r = Ok tt → added ≠ []).

(** [post x Q]: the outcome [x] of a computation satisfies [Q]. *)
Definition post {A} (x : res A * world) (Q : res A → world → Prop) : Prop :=
  Q x.1 x.2.

(** The water structure with velocities from an earlier run, and the
    Minimize world. *)
Definition restart_data : MDData :=
  {| md_structure := 0%nat; md_topology := "HOH";
     md_positions := s_positions water;
     md_velocities := Some [origin; origin; origin];
     md_box := Some unit_box |}.

Definition min_world : world :=
  set_opt (λ opt, <["SimType" := PStr "min"]> (<["steps" := PInt 0]> opt))
          nvt_world.

(** The NVT cube on the managed cluster, handed the record that the setup
    left for a system with the SD data [sd]. *)
Definition nvt_run (sd : list (string * string)) : option (res unit * cube_state) :=
  process decimal_float orion_call id (fun _ => "") NvtCube nvt_args
          (cube_start (after_setup sd)).

(** The two jobs after job 0 has moved once and job 1 twice, on a kernel
    that answers a busy lock with [EACCES]. *)
Definition two_jobs_later : cluster :=
  cluster_run two_gpus fcntl_kernel (simulation_body reference_only two_gpus)
              two_jobs [0%nat; 1%nat; 1%nat].

(* ===================================================================== *)
(** ** Further notions of the lock arbiter                                 *)
(* ===================================================================== *)

(** Every lock of the table belongs to a job that has the lease on the
    device of that file. *)
Definition locks_owned (locks : gmap string pid) (jobs : gmap pid job) : Prop :=
  ∀ fn p,
    locks !! fn = Some p →
    ∃ j gpu_id, jobs !! p = Some j ∧ lease j = Some gpu_id
                ∧ lock_file gpu_id = fn.

(** The NVT cube on the host with two visible devices, handed the record
    that the setup left; [vars(self.args)] has no [system_id]. *)
Definition local_nvt_run : option (res unit * cube_state) :=
  process decimal_float
          (simulation reference_only two_gpus flock_kernel 8 0%nat ∅)
          id (fun _ => "") NvtCube nvt_args (cube_start (after_setup [])).

(** A record whose list of stages is empty. *)
Definition no_stage_yet : OERecord :=
  {| f_primary_molecule := Some (water_mol []); f_id := Some 1;
     f_md_stages := Some [] |}.


(* ===================================================================== *)
(** ** What a stage may touch                                              *)
(* ===================================================================== *)

(** A footprint: the keys of [opt] that may be assigned, the OpenMM calls
    that may be made, and the structures and molecules that may be written. *)
Record footprint := {
  fp_keys : list string;
  fp_calls : mm_call → bool;
  fp_structs : list loc;
  fp_mols : list loc
}.

(** [within fp w0 w]: the world [w] differs from [w0] by no more than the
    footprint allows. *)
Definition within (fp : footprint) (w0 w : world) : Prop :=
  (∀ k, k ∉ fp_keys fp → w_opt w !! k = w_opt w0 !! k)
  ∧ (∃ added, w_mm w = (w_mm w0 ++ added)%list
              ∧ forallb (fp_calls fp) added = true)
  ∧ (∀ l, l ∉ fp_structs fp → w_structs w !! l = w_structs w0 !! l)
  ∧ (∀ l, l ∉ fp_mols fp → w_mols w !! l = w_mols w0 !! l).

(** A computation that stays within the footprint, counted from [w0]. *)
Definition stays {A} (fp : footprint) (w0 : world) (c : M A) : Prop :=
  ∀ w, within fp w0 w → within fp w0 (c w).2.

(** The keys that a stage assigns. *)
Definition stage_keys : list string := ["timestep"; "steps"; "str_logger"].

(** The address of [opt['molecule']]. *)
Definition mol_locs (w : world) : list loc :=
  match w_opt w !! "molecule" with
  | Some (PMol l) => [l]
  | _ => []
  end.

Definition any_call (c : mm_call) : bool := true.

(** The footprint of a stage on the data [mdData]: the three keys, any call,
    the structure of [mdData] and the molecules [mols]. *)
Definition stage_footprint (mdData : MDData) (mols : list loc) : footprint :=
  {| fp_keys := stage_keys; fp_calls := any_call;
     fp_structs := [md_structure mdData]; fp_mols := mols |}.

(** A context that is not bound to a device. *)
Definition no_device_index (c : mm_call) : bool :=
  match c with
  | NewSimulation _ properties _ =>
      bool_decide ("DeviceIndex" ∉ properties.*1)
  | _ => true
  end.


(** The calls that do not integrate: no velocities, no reporter, no step. *)
Definition static_call (c : mm_call) : bool :=
  match c with
  | SetVelocities _ | SetVelocitiesToTemperature _ | AppendReporter _
  | StepCall _ | MonteCarloBarostat _ _ _ => false
  | _ => true
  end.


Definition min_footprint (mdData : MDData) (w : world) : footprint :=
  {| fp_keys := ["timestep"; "str_logger"]; fp_calls := static_call;
     fp_structs := [md_structure mdData]; fp_mols := mol_locs w |}.

Definition unpinned_footprint (mdData : MDData) (w : world) : footprint :=
  {| fp_keys := stage_keys; fp_calls := no_device_index;
     fp_structs := [md_structure mdData]; fp_mols := mol_locs w |}.

(** An installation with CUDA and Reference, and the NVT world of a job
    that holds the lease on device 1 and asks for CUDA by name. *)
Definition cuda_installation : OpenMM := installation ["CUDA"; "Reference"] [].

Definition leased_world (platform : string) : world :=
  set_opt (λ opt, <["gpu_id" := PStr "1"]> (<["platform" := PStr platform]> opt))
          nvt_world.

(** What is true of a stage on [mdData], started in [w0], that has run to
    its end with the world [w']: the molecule of [opt] has the positions of
    the structure as its coordinates. *)
Definition coordinates_follow (mdData : MDData) (w0 : world)
    (r : res unit) (w' : world) : Prop :=
  r = Ok tt →
  ∃ l m0 s,
    w_opt w0 !! "molecule" = Some (PMol l)
    ∧ w_mols w0 !! l = Some m0
    ∧ w_structs w' !! md_structure mdData = Some s
    ∧ w_mols w' !! l = Some (with_coords (s_positions s) m0).

(** The names that a search tries: those up to the first one that is
    accepted, and that one. *)
Fixpoint tried (ok : string → bool) (names : list string) : list string :=
  match names with
  | [] => []
  | name :: rest => name :: (if ok name then [] else tried ok rest)
  end.

(** The precisions of a CUDA or OpenCL context under [Auto], and the
    properties of a context of precision [precision] on the device [g]. *)
Definition precision_order : list string := ["mixed"; "single"; "double"].

Definition on_device (g : string) (precision : string) : list (string * string) :=
  [("Precision", precision); ("DeviceIndex", g)].

(* ===================================================================== *)
(** ** What a [process] call puts on the ports                             *)
(* ===================================================================== *)

(** Since [σ], nothing was emitted; one record was emitted, on one port. *)
Definition emitted_none (σ σ' : cube_state) : Prop :=
  cs_success σ' = cs_success σ ∧ cs_failure σ' = cs_failure σ.

Definition emitted_once (σ σ' : cube_state) : Prop :=
  (cs_success σ' = (cs_success σ ++ [cs_record σ'])%list
   ∧ cs_failure σ' = cs_failure σ)
  ∨ (cs_success σ' = cs_success σ
     ∧ cs_failure σ' = (cs_failure σ ++ [cs_record σ'])%list).

(* ===================================================================== *)
(** ** The steps of a run                                                  *)
(* ===================================================================== *)

(** The calls of [simulation.step], and those made so far. *)
Definition is_step_call (c : mm_call) : bool :=
  match c with StepCall _ => true | _ => false end.

Definition not_step_call (c : mm_call) : bool := negb (is_step_call c).

Definition step_calls (w : world) : list mm_call :=
  List.filter is_step_call (w_mm w).

(** The footprints of the stage before the step count is assigned, and
    from then on. *)
Definition before_seeding (mdData : MDData) : footprint :=
  {| fp_keys := ["timestep"]; fp_calls := not_step_call;
     fp_structs := [md_structure mdData]; fp_mols := [] |}.

Definition after_seeding (mdData : MDData) (w : world) : footprint :=
  {| fp_keys := ["str_logger"]; fp_calls := not_step_call;
     fp_structs := [md_structure mdData]; fp_mols := mol_locs w |}.

(** What is true of an NVT or NPT stage, started in [w0], that has run to
    its end with the world [w']: the step count of [opt] is the duration of
    [opt] over the timestep, and the stage has made one call of
    [simulation.step], with that count. *)
Definition steps_as_announced (w0 : world) (r : res unit) (w' : world) : Prop :=
  r = Ok tt →
  ∃ hmr time T,
    w_opt w0 !! "hmr" = Some hmr
    ∧ w_opt w0 !! "time" = Some time
    ∧ as_float time = Ok T
    ∧ let stepLen : Q := if py_truthy hmr then 4 # 1000 else 2 # 1000 in
      let n := time_to_steps T stepLen picoseconds in
      w_opt w' !! "steps" = Some (PInt n)
      ∧ step_calls w' = (step_calls w0 ++ [StepCall n])%list.

(* ===================================================================== *)
(** * Properties                                                            *)
(* ===================================================================== *)

(** ** Reporting scheduler *)

Section ReporterFacts.
Context (fopen : string -> option Z) (kw : gmap string pyval).
Context (name : string) (steps : pyval) (q : Q) (u : time_unit).
Hypothesis no_totalSteps : kw !! "totalSteps" = None.
Hypothesis has_outfname : kw !! "outfname" = Some (PStr name).
Hypothesis has_steps : kw !! "steps" = Some steps.
Hypothesis has_timestep : kw !! "timestep" = Some (PQuantity q u).

Let opt := delete "outfname" (delete "totalSteps" kw).

Lemma opt_lookup (k : string) :
  k ≠ "outfname" → k ≠ "totalSteps" → getitem opt k = getitem kw k.
Proof.
  intros H1 H2. unfold getitem, opt.
  by rewrite !lookup_delete_ne.
Qed.

Lemma getReporters_eq (ri ti : Q) :
  kw !! "reporter_interval" = Some (PFloat ri) →
  kw !! "trajectory_interval" = Some (PFloat ti) →
  (Qeq_bool ri 0 = false → fopen (name +:+ ".log") = None) →
  (Qeq_bool ti 0 = false → fopen (name +:+ ".h5") = None) →
  getReporters fopen kw
  = Ok (log_channel name steps q u ri ++ trajectory_channel name q u ti)%list.
Proof.
  intros Hri Hti Hlog Hh5.
  unfold getReporters. fold opt.
  rewrite no_totalSteps, has_outfname.
  rewrite !opt_lookup by done.
  unfold getitem. rewrite has_steps, Hri, Hti, has_timestep. cbn.
  unfold log_channel, trajectory_channel, open_w.
  destruct (Qeq_bool ri 0) eqn:Eri; cbn.
  - destruct (Qeq_bool ti 0) eqn:Eti; cbn; [done|].
    by rewrite Hh5.
  - rewrite Hlog by done. cbn.
    destruct (Qeq_bool ti 0) eqn:Eti; cbn; [done|].
    by rewrite Hh5.
Qed.
End ReporterFacts.

(** C9.  Each reporting channel is switched by its own interval: with a zero
    interval the channel gets no reporter (so no file is opened for it, even
    one that could not be written), with a non-zero interval it gets its
    reporters, whatever the interval of the other channel is. *)
Theorem zero_interval_disables_channel
    (fopen : string -> option Z) (kw : gmap string pyval)
    (name : string) (steps : pyval) (q : Q) (u : time_unit) (ri ti : Q) :
  kw !! "totalSteps" = None →
  kw !! "outfname" = Some (PStr name) →
  kw !! "steps" = Some steps →
  kw !! "timestep" = Some (PQuantity q u) →
  kw !! "reporter_interval" = Some (PFloat ri) →
  kw !! "trajectory_interval" = Some (PFloat ti) →
  (Qeq_bool ri 0 = false → fopen (name +:+ ".log") = None) →
  (Qeq_bool ti 0 = false → fopen (name +:+ ".h5") = None) →
  ∃ logs trajectory,
    getReporters fopen kw = Ok (logs ++ trajectory)%list
    ∧ logs = (if Qeq_bool ri 0 then []
              else [StateDataReporter (ToFile (name +:+ ".log"))
                                      (time_to_steps ri q u) None;
                    StateDataReporter ToStdout (time_to_steps ri q u)
                                      (Some steps)])
    ∧ trajectory = (if Qeq_bool ti 0 then []
                    else [HDF5Reporter (name +:+ ".h5") (time_to_steps ti q u)]).
Proof.
  intros H1 H2 H3 H4 H5 H6 H7 H8.
  exists (log_channel name steps q u ri), (trajectory_channel name q u ti).
  split; [|done].
  by apply getReporters_eq.
Qed.

(** The NVT defaults with a trajectory every 0.5 and no scalar log: one
    trajectory reporter and nothing else, although the log file could not
    have been written. *)
Lemma zero_interval_disables_channel_witness :
  ∃ logs trajectory,
    getReporters (fun f => if String.eqb f "1-nvt.log" then Some EACCES else None)
                 (<["steps" := PInt 5000000]>
                  (<["timestep" := PQuantity (2 # 1000) picoseconds]>
                   (w_opt nvt_world)))
    = Ok (logs ++ trajectory)%list
    ∧ logs = []
    ∧ trajectory = [HDF5Reporter "1-nvt.h5" 250000].
Proof.
  apply (zero_interval_disables_channel
           (fun f => if String.eqb f "1-nvt.log" then Some EACCES else None)
           (<["steps" := PInt 5000000]>
            (<["timestep" := PQuantity (2 # 1000) picoseconds]>
             (w_opt nvt_world)))
           "1-nvt" (PInt 5000000) (2 # 1000) picoseconds 0 (1 # 2));
    try (vm_compute; reflexivity).
  - intros H. vm_compute in H. discriminate.
Defined.

(** ** Step count *)

Lemma in_nanoseconds_ps (q : Q) : (in_nanoseconds q picoseconds == q / 1000)%Q.
Proof.
  unfold in_nanoseconds, div_unit, in_units_of. cbn.
  rewrite !Qred_correct. field.
Qed.

(** C1.  The stage cube under its documented defaults: a run of 10.0 with a
    timestep of 0.002 ps and a trajectory interval of 0.5.  The duration and
    the interval are divided by the timestep in nanoseconds, so the stage
    integrates 5 000 000 steps and samples every 250 000, not 5000 and 250;
    the announced number of frames is 20. *)
Theorem steps_of_default_nvt_run :
  let out := simulation_body reference_only orion water_data nvt_world in
  out.1 = Ok tt
  ∧ w_opt out.2 !! "timestep" = Some (PQuantity (2 # 1000) picoseconds)
  ∧ w_opt out.2 !! "steps" = Some (PInt 5000000)
  ∧ w_mm out.2
    = [CreateSystem "PME" (Some 10%Q) "HBonds" false;
       LangevinIntegrator 300 (2 # 1000);
       GetPlatformByName "CUDA" false; GetPlatformByName "OpenCL" false;
       GetPlatformByName "CPU" false; GetPlatformByName "Reference" true;
       NewSimulation "Reference" [] true;
       SetPositions (s_positions water); SetPeriodicBoxVectors;
       SetVelocitiesToTemperature 300;
       AppendReporter (HDF5Reporter "1-nvt.h5" 250000);
       StepCall 5000000; GetState true]
  ∧ last (w_log out.2)
    = Some (LInfo, "Total trajectory frames : {}", [PInt 20]).
Proof.
  cbv zeta. repeat split; vm_compute; reflexivity.
Qed.

(** The same conversion on its own, for both timesteps. *)
Example steps_for_both_timesteps :
  time_to_steps 10 (2 # 1000) picoseconds = 5000000
  ∧ time_to_steps 10 (4 # 1000) picoseconds = 2500000
  ∧ time_to_steps (1 # 2) (2 # 1000) picoseconds = 250000.
Proof. repeat split; vm_compute; reflexivity. Qed.

(** ** Platform negotiation *)

Lemma M_bind_unfold {A B} (c : M A) (k : A → M B) (w : world) :
  (c ≫= k) w = match c w with
               | (Ok a, w') => k a w'
               | (Raise e, w') => (Raise e, w')
               end.
Proof. reflexivity. Qed.

(** The search of [Auto] ends on the first platform that is there, having
    asked for the ones before it in order. *)
Lemma auto_platform_first (mm : OpenMM) (w : world) :
  auto_platform mm auto_order w
  = (match first_available mm auto_order with
     | Some p => Ok p
     | None => Raise (ValueError "It was not possible to select any OpenMM Platform")
     end,
     foldl (fun w c => add_call c w) w
           (map (λ n, GetPlatformByName n (has_platform mm n))
                (asked mm auto_order))).
Proof.
  unfold first_available, auto_order. cbn -[has_platform].
  rewrite !M_bind_unfold. cbn -[has_platform].
  unfold filter. cbn -[has_platform].
  destruct (has_platform mm "CUDA") eqn:E1; cbn -[has_platform].
  { rewrite decide_True by done. done. }
  rewrite decide_False by done.
  rewrite !M_bind_unfold. cbn -[has_platform].
  destruct (has_platform mm "OpenCL") eqn:E2; cbn -[has_platform].
  { rewrite decide_True by done. done. }
  rewrite decide_False by done.
  rewrite !M_bind_unfold. cbn -[has_platform].
  destruct (has_platform mm "CPU") eqn:E3; cbn -[has_platform].
  { rewrite decide_True by done. done. }
  rewrite decide_False by done.
  rewrite !M_bind_unfold. cbn -[has_platform].
  destruct (has_platform mm "Reference") eqn:E4; cbn -[has_platform].
  { rewrite decide_True by done. done. }
  rewrite decide_False by done. done.
Qed.

Lemma w_mm_calls (cs : list mm_call) (w : world) :
  w_mm (foldl (fun w c => add_call c w) w cs) = (w_mm w ++ cs)%list.
Proof.
  revert w. induction cs as [|c cs IH]; intros w; cbn.
  - by rewrite app_nil_r.
  - rewrite IH. cbn. by rewrite <- app_assoc.
Qed.

Lemma select_platform_auto (mm : OpenMM) (host : Host) (w : world) :
  w_opt w !! "platform" = Some (PStr "Auto") →
  select_platform mm host w
  = let w1 := (auto_platform mm auto_order w).2 in
    match first_available mm auto_order with
    | None => (Raise (ValueError "It was not possible to select any OpenMM Platform"), w1)
    | Some platform =>
        if bool_decide (platform ∈ ["CUDA"; "OpenCL"]) then
          match auto_precision mm host platform ["mixed"; "single"; "double"] w1 with
          | (Ok properties, w2) => (Ok (platform, properties), w2)
          | (Raise e, w2) => (Raise e, w2)
          end
        else
          match plain_simulation mm platform w1 with
          | (Ok properties, w2) => (Ok (platform, properties), w2)
          | (Raise e, w2) => (Raise e, w2)
          end
    end.
Proof.
  intros Hp. unfold select_platform.
  rewrite M_bind_unfold. unfold opt_get at 1, getitem. rewrite Hp.
  cbv beta iota. change (is_str (PStr "Auto") "Auto") with true. cbv iota.
  rewrite M_bind_unfold. fold auto_order.
  rewrite auto_platform_first. cbn [snd].
  destruct (first_available mm auto_order) as [platform|]; [|done].
  destruct (bool_decide (platform ∈ ["CUDA"; "OpenCL"])).
  - rewrite M_bind_unfold.
    by destruct (auto_precision _ _ _ _ _) as [[?|?] ?].
  - rewrite M_bind_unfold.
    by destruct (plain_simulation _ _ _) as [[?|?] ?].
Qed.

(** C7.  Under [Auto] the platforms are asked for in the order CUDA, OpenCL,
    CPU, Reference and the first one that is there is the one selected; when
    none is there the negotiation raises its [ValueError]; when Reference is
    the first one there, the negotiation always ends on it. *)
Theorem auto_selects_first_available (mm : OpenMM) (host : Host) (w : world) :
  w_opt w !! "platform" = Some (PStr "Auto") →
  let search := auto_platform mm ["CUDA"; "OpenCL"; "CPU"; "Reference"] w in
  let out := select_platform mm host w in
  search.1 = match first_available mm auto_order with
             | Some p => Ok p
             | None => Raise (ValueError "It was not possible to select any OpenMM Platform")
             end
  ∧ w_mm search.2
    = (w_mm w ++ map (λ n, GetPlatformByName n (has_platform mm n))
                     (asked mm auto_order))%list
  ∧ (first_available mm auto_order = None →
     out.1 = Raise (ValueError "It was not possible to select any OpenMM Platform"))
  ∧ (∀ sim, out.1 = Ok sim → first_available mm auto_order = Some sim.1)
  ∧ (first_available mm auto_order = Some "Reference" →
     builds mm "Reference" [] = true →
     out.1 = Ok ("Reference", [])).
Proof.
  intros Hp search out. subst search out. fold auto_order.
  rewrite (select_platform_auto mm host w Hp).
  rewrite auto_platform_first. cbn [fst snd]. rewrite w_mm_calls.
  repeat split.
  - intros ->. done.
  - intros sim. cbv zeta.
    destruct (first_available mm auto_order) as [p|]; [|done].
    destruct (bool_decide (p ∈ ["CUDA"; "OpenCL"])).
    + destruct (auto_precision _ _ _ _ _) as [[?|?] ?]; cbn; [|done].
      by intros [= <-].
    + destruct (plain_simulation _ _ _) as [[?|?] ?]; cbn; [|done].
      by intros [= <-].
  - intros -> Hb. cbv zeta.
    rewrite bool_decide_false by (by vm_compute; intros H; inversion H as [|? ? ? H']; inversion H' as [|? ? ? H'']; inversion H'').
    unfold plain_simulation. rewrite M_bind_unfold. cbn. by rewrite Hb.
Qed.

(** A host whose installation has the Reference platform only: the four
    platforms are asked for and Reference is selected. *)
Lemma auto_selects_first_available_witness :
  let search := auto_platform reference_only ["CUDA"; "OpenCL"; "CPU"; "Reference"]
                              nvt_world in
  let out := select_platform reference_only orion nvt_world in
  search.1 = Ok "Reference"
  ∧ w_mm search.2
    = [GetPlatformByName "CUDA" false; GetPlatformByName "OpenCL" false;
       GetPlatformByName "CPU" false; GetPlatformByName "Reference" true]
  ∧ (first_available reference_only auto_order = None →
     out.1 = Raise (ValueError "It was not possible to select any OpenMM Platform"))
  ∧ (∀ sim, out.1 = Ok sim → first_available reference_only auto_order = Some sim.1)
  ∧ (first_available reference_only auto_order = Some "Reference" →
     builds reference_only "Reference" [] = true →
     out.1 = Ok ("Reference", [])).
Proof.
  apply (auto_selects_first_available reference_only orion nvt_world).
  vm_compute. reflexivity.
Defined.

(** ** The stage cubes *)

Lemma C_bind_unfold {A B} (c : C A) (k : A → C B) (σ : cube_state) :
  (c ≫= k) σ = match c σ with
               | Some (Ok a, σ') => k a σ'
               | Some (Raise e, σ') => Some (Raise e, σ')
               | None => None
               end.
Proof. reflexivity. Qed.

(** A record without a primary molecule is emitted on the failure port once,
    by the first check, which returns. *)
Lemma no_molecule_emitted_once :
  f_md_stages bare_record = None
  ∧ ∃ σ', process decimal_float orion_call id (fun _ => "") MinimizeCube
                  (begin MinimizeCube ∅) (cube_start bare_record)
          = Some (Ok tt, σ')
          ∧ cs_failure σ' = [bare_record]
          ∧ cs_failure σ' ≠ [bare_record; bare_record]
          ∧ cs_success σ' = [].
Proof.
  split; [done|]. eexists. split; [vm_compute; reflexivity|]. cbn. done.
Qed.

(** C10.  A record that has a primary molecule and no MD-stages field is
    emitted twice on the failure port, first by the check of the field and
    then by the exception handler, and never on the success port. *)
Theorem missing_stages_emitted_twice
    (float_of_string : string → option Q)
    (stage_call : MDData → world → option (res unit * world))
    (upload read_text : string → string)
    (k : cube_kind) (self_opt : gmap string pyval) (σ : cube_state)
    (mol : OEMol) :
  f_primary_molecule (cs_record σ) = Some mol →
  f_md_stages (cs_record σ) = None →
  ∃ σ', process float_of_string stage_call upload read_text k self_opt σ
        = Some (Ok tt, σ')
        ∧ cs_failure σ' = (cs_failure σ ++ [cs_record σ; cs_record σ])%list
        ∧ cs_success σ' = cs_success σ
        ∧ cs_record σ' = cs_record σ.
Proof.
  intros Hmol Hst. destruct σ as [w r succ fail]. cbn in Hmol, Hst.
  unfold process, try_except, process_try.
  repeat (rewrite C_bind_unfold; cbn). rewrite Hmol.
  repeat (rewrite C_bind_unfold; cbn).
  destruct (f_id r); repeat (rewrite C_bind_unfold; cbn); rewrite Hst;
    repeat (rewrite C_bind_unfold; cbn);
    eexists; (split; [reflexivity|]); cbn; by rewrite <- app_assoc.
Qed.

(** A record with a molecule, an identifier and no MD-stages field, handed
    to the NVT cube. *)
Lemma missing_stages_emitted_twice_witness :
  ∃ σ', process decimal_float orion_call id (fun _ => "") NvtCube nvt_args
                (cube_start molecule_only)
        = Some (Ok tt, σ')
        ∧ cs_failure σ' = [molecule_only; molecule_only]
        ∧ cs_success σ' = []
        ∧ cs_record σ' = molecule_only.
Proof.
  apply (missing_stages_emitted_twice decimal_float orion_call id (fun _ => "")
           NvtCube nvt_args (cube_start molecule_only) (water_mol []));
    reflexivity.
Defined.

(** *** Rules for [wpC] *)

Lemma wpC_bind {A B} (c : C A) (k : A → C B) σ (Q : res B → cube_state → Prop) :
  wpC c σ (λ r σ1, match r with
                   | Ok a => wpC (k a) σ1 Q
                   | Raise e => Q (Raise e) σ1
                   end) →
  wpC (c ≫= k) σ Q.
Proof.
  intros Hc r σ'. rewrite C_bind_unfold.
  destruct (c σ) as [[[a|e] σ1]|] eqn:E; [| |done].
  - intros Hk. exact (Hc _ _ E _ _ Hk).
  - intros [= <- <-]. exact (Hc _ _ E).
Qed.

Lemma wpC_in_world {A} (c : M A) σ (Q : res A → cube_state → Prop) :
  (∀ r w', Q r (with_cs_world w' σ)) → wpC (in_world c) σ Q.
Proof.
  intros H r σ'. unfold in_world. destruct (c (cs_world σ)) as [r1 w1].
  intros [= <- <-]. apply H.
Qed.

Lemma wpC_in_world_partial {A} (c : world → option (res A * world)) σ
    (Q : res A → cube_state → Prop) :
  (∀ r w', Q r (with_cs_world w' σ)) → wpC (in_world_partial c) σ Q.
Proof.
  intros H r σ'. unfold in_world_partial.
  destruct (c (cs_world σ)) as [[r1 w1]|]; [|done].
  intros [= <- <-]. apply H.
Qed.

Lemma wpC_mret {A} (a : A) σ (Q : res A → cube_state → Prop) :
  Q (Ok a) σ → wpC (mret a) σ Q.
Proof. intros H r σ' [= <- <-]. exact H. Qed.

Lemma wpC_craise {A} (e : exn) σ (Q : res A → cube_state → Prop) :
  Q (Raise e) σ → wpC (craise e) σ Q.
Proof. intros H r σ' [= <- <-]. exact H. Qed.

Lemma wpC_the_record σ (Q : res OERecord → cube_state → Prop) :
  Q (Ok (cs_record σ)) σ → wpC the_record σ Q.
Proof. intros H r σ' [= <- <-]. exact H. Qed.

Lemma wpC_set_record f σ (Q : res unit → cube_state → Prop) :
  Q (Ok tt) (with_cs_record (f (cs_record σ)) σ) → wpC (set_record f) σ Q.
Proof. intros H r σ' [= <- <-]. exact H. Qed.

Lemma wpC_seq_in_world {A B} (c : M A) (k : A → C B) σ
    (Q : res B → cube_state → Prop) :
  (∀ a w', wpC (k a) (with_cs_world w' σ) Q) →
  (∀ e w', Q (Raise e) (with_cs_world w' σ)) →
  wpC (in_world c ≫= k) σ Q.
Proof.
  intros Hk He. apply wpC_bind, wpC_in_world. intros [a|e] w'; auto.
Qed.

Lemma wpC_emit_success σ (Q : res unit → cube_state → Prop) :
  Q (Ok tt) {| cs_world := cs_world σ; cs_record := cs_record σ;
               cs_success := cs_success σ ++ [cs_record σ];
               cs_failure := cs_failure σ |} →
  wpC emit_success σ Q.
Proof. intros H r σ' [= <- <-]. exact H. Qed.

Lemma wpC_emit_failure σ (Q : res unit → cube_state → Prop) :
  Q (Ok tt) {| cs_world := cs_world σ; cs_record := cs_record σ;
               cs_success := cs_success σ;
               cs_failure := cs_failure σ ++ [cs_record σ] |} →
  wpC emit_failure σ Q.
Proof. intros H r σ' [= <- <-]. exact H. Qed.

Lemma wpC_try_except (c h : C unit) σ (Q : res unit → cube_state → Prop) :
  wpC c σ (λ r σ1, match r with
                   | Ok a => Q (Ok a) σ1
                   | Raise _ => wpC h σ1 Q
                   end) →
  wpC (try_except c h) σ Q.
Proof.
  intros Hc r σ'. unfold try_except.
  destruct (c σ) as [[[a|e] σ1]|] eqn:E; [| |done].
  - intros [= <- <-]. exact (Hc _ _ E).
  - intros Hh. exact (Hc _ _ E _ _ Hh).
Qed.

Ltac wpc :=
  lazymatch goal with
  | |- wpC (in_world _ ≫= _) _ _ =>
      apply wpC_seq_in_world; [intros ? ?|intros ? ?]
  | |- wpC (in_world_partial _ ≫= _) _ _ =>
      apply wpC_bind, wpC_in_world_partial; intros [?|?] ?
  | |- wpC (_ ≫= _) _ _ => apply wpC_bind
  | |- wpC (in_world _) _ _ => apply wpC_in_world; intros ? ?
  | |- wpC (mret _) _ _ => apply wpC_mret
  | |- wpC (craise _) _ _ => apply wpC_craise
  | |- wpC the_record _ _ => apply wpC_the_record
  | |- wpC (set_record _) _ _ => apply wpC_set_record
  | |- wpC emit_success _ _ => apply wpC_emit_success
  | |- wpC emit_failure _ _ => apply wpC_emit_failure
  end.

Section History.
Context (float_of_string : string → option Q).
Context (stage_call : MDData → world → option (res unit * world)).
Context (upload read_text : string → string).
Context (k : cube_kind) (self_opt : gmap string pyval).
Context (σ : cube_state) (stages : list MDStageRecord).
Hypothesis history : f_md_stages (cs_record σ) = Some stages.

Lemma process_try_history :
  wpC (process_try float_of_string stage_call upload read_text k self_opt) σ
      (λ r σ', match r with
               | Ok _ => history_kept stages σ σ' ∨ history_extended k stages σ σ'
               | Raise _ => history_kept stages σ σ'
               end).
Proof.
  unfold process_try.
  wpc; [|done].
  wpc. wpc. cbn.
  destruct (f_primary_molecule (cs_record σ)) as [primary|].
  2:{ wpc; [|done]. wpc. left. done. }
  wpc; [|done].
  wpc.
  assert (Hid : ∀ w1 (Q : res pyval → cube_state → Prop),
             (∀ v w2, Q (Ok v) (with_cs_world w2 σ)) →
             (∀ e w2, Q (Raise e) (with_cs_world w2 σ)) →
             wpC match f_id (cs_record σ) with
                 | Some z => mret (PInt z)
                 | None =>
                     in_world (log LWarn "Missing molecule ID '{}' field" [])
                     ≫= λ _ : (), mret (PStr (m_title primary))
                 end (with_cs_world w1 σ) Q).
  { intros w1 Q HQ HE. destruct (f_id (cs_record σ)).
    - wpc. apply HQ.
    - wpc; [|apply HE]. wpc. apply HQ. }
  apply Hid; [|done]. intros system_id w2.
  rewrite history.
  wpc. wpc. wpc. wpc. cbn.
  wpc.
  destruct (last stages) as [md_stage_record|]; [|wpc; done].
  wpc. wpc; [|done]. wpc; [|done]. wpc; [|done].
  wpc.
  assert (Hout : ∀ w1 (Q : res unit → cube_state → Prop),
             (∀ v w2, Q v (with_cs_world w2 σ)) →
             wpC match k with
                 | MinimizeCube => mret ()
                 | _ => in_world (set_outfname self_opt system_id)
                 end (with_cs_world w1 σ) Q).
  { intros w1 Q HQ. destruct k; wpc; apply HQ. }
  apply Hout. intros [[]|?] w6; [|done].
  wpc; [|done]. wpc; [|done]. wpc; [|done]. wpc; [|done].
  wpc; [|done].
  wpc.
  assert (Hlf : ∀ w1 (Q : res string → cube_state → Prop),
             (∀ v w2, Q v (with_cs_world w2 σ)) →
             wpC match k with
                 | MinimizeCube => mret ""
                 | _ => in_world (collect_output upload read_text)
                 end (with_cs_world w1 σ) Q).
  { intros w1 Q HQ. destruct k; wpc; apply HQ. }
  apply Hlf. intros [lf|?] w12; [|done].
  wpc; [|done].
  wpc. wpc. cbn.
  wpc; [|by rewrite history].
  wpc; [|by rewrite history].
  wpc; [|by rewrite history].
  wpc. wpc. wpc. cbn.
  right. eexists. split; [reflexivity|]. split; [reflexivity|]. reflexivity.
Qed.
End History.

(** C3.  A [process] call that comes back leaves the history of the record
    either as it was or longer by one record of this cube; in both cases
    every stage record that was in the history is still there, at its place
    and unchanged, whatever the stage call wrote into the structure and the
    molecule it was given. *)
Theorem stage_history_append_only
    (float_of_string : string → option Q)
    (stage_call : MDData → world → option (res unit * world))
    (upload read_text : string → string)
    (k : cube_kind) (self_opt : gmap string pyval)
    (σ σ' : cube_state) (r : res unit) (stages : list MDStageRecord) :
  f_md_stages (cs_record σ) = Some stages →
  process float_of_string stage_call upload read_text k self_opt σ
  = Some (r, σ') →
  (history_kept stages σ σ' ∨ history_extended k stages σ σ')
  ∧ ∀ i old, stages !! i = Some old →
             ∃ stages', f_md_stages (cs_record σ') = Some stages'
                        ∧ stages' !! i = Some old.
Proof.
  intros Hst Hrun.
  assert (H : history_kept stages σ σ' ∨ history_extended k stages σ σ').
  { revert r σ' Hrun.
    change (wpC (process float_of_string stage_call upload read_text k self_opt) σ
                (λ _ σ', history_kept stages σ σ' ∨ history_extended k stages σ σ')).
    unfold process. apply wpC_try_except.
    intros r σ1 Htry.
    pose proof (process_try_history float_of_string stage_call upload read_text
                  k self_opt σ stages Hst r σ1 Htry) as Hspec.
    destruct r as [[]|e]; [exact Hspec|].
    destruct Hspec as [H1 H2].
    wpc; [|by left]. wpc. left. split; cbn; done. }
  split; [exact H|].
  intros i old Hi.
  destruct H as [[H _]|(new & H & _)]; rewrite H; eexists; split; try reflexivity.
  - exact Hi.
  - by apply lookup_app_l_Some.
Qed.

(** The NVT cube on a record that the setup left: the call comes back, and
    the SETUP record is in place after it. *)
Lemma stage_history_append_only_witness :
  bool_decide (is_Some (nvt_run [])) = true
  ∧ ∀ r σ',
      nvt_run [] = Some (r, σ') →
      (history_kept [setup_stage []] (cube_start (after_setup [])) σ'
       ∨ history_extended NvtCube [setup_stage []] (cube_start (after_setup [])) σ')
      ∧ ∀ i old, [setup_stage []] !! i = Some old →
                 ∃ stages', f_md_stages (cs_record σ') = Some stages'
                            ∧ stages' !! i = Some old.
Proof.
  split; [vm_compute; reflexivity|].
  intros r σ' Hrun.
  apply (stage_history_append_only decimal_float orion_call id (fun _ => "")
           NvtCube nvt_args (cube_start (after_setup [])) σ' r [setup_stage []]).
  - reflexivity.
  - exact Hrun.
Defined.

(** The same run in full: the NVT record is appended with the structure that
    the run moved, the SETUP record still holds the structure it had. *)
Example nvt_after_setup :
  let stages := (λ x, default [] (f_md_stages (cs_record x.2))) <$> nvt_run [] in
  fst <$> nvt_run [] = Some (Ok tt)
  ∧ (λ x, (length (cs_success x.2), length (cs_failure x.2))) <$> nvt_run []
    = Some (1%nat, 0%nat)
  ∧ map f_stage_name <$> stages = Some ["SETUP"; "NVT"]
  ∧ (λ l, l !! 0%nat) <$> stages = Some (Some (setup_stage []))
  ∧ map (λ s, s_positions (f_structure (f_md_system s))) <$> stages
    = Some [[(0, 0, 0)%Q; (1, 0, 0)%Q; (0, 1, 0)%Q];
            [(1, 0, 0)%Q; (2, 0, 0)%Q; (1, 1, 0)%Q]].
Proof. cbv zeta. repeat split; vm_compute; reflexivity. Qed.

(** *** Overrides from the SD tags *)

Lemma sd_pairs_single (tags : list string) (tag value : string) :
  tag ∈ tags → sd_pairs tags [(tag, value)] = {[ tag := PStr value ]}.
Proof.
  intros Hin. unfold sd_pairs. cbn.
  rewrite bool_decide_true by done. apply insert_empty.
Qed.

(** C6.  An SD value of an overridable tag that [float] cannot parse is
    not left out: it stays in the new arguments as the string it is, and the
    update puts that string in the place of the parameter of the cube. *)
Theorem unparseable_override_replaces_parameter
    (float_of_string : string → option Q) (k : cube_kind) (system : OEMol)
    (opt : gmap string pyval) (tag value : string) :
  tag ∈ override_tags k →
  m_sd_data system = [(tag, value)] →
  float_of_string value = None →
  sd_overrides float_of_string k system opt !! tag = Some (PStr value).
Proof.
  intros Hin Hsd Hnone. unfold sd_overrides.
  rewrite Hsd, (sd_pairs_single _ _ _ Hin).
  rewrite bool_decide_false by apply insert_non_empty.
  rewrite map_fmap_singleton. cbn. rewrite Hnone.
  apply lookup_union_Some_l, lookup_singleton_eq.
Qed.

(** The NVT cube at 300 K and a system tagged [temperature = abc]: the
    temperature handed to the stage is the string. *)
Lemma unparseable_override_replaces_parameter_witness :
  nvt_args !! "temperature" = Some (PFloat 300)
  ∧ sd_overrides decimal_float NvtCube (water_mol [("temperature", "abc")]) nvt_args
    !! "temperature" = Some (PStr "abc").
Proof.
  split; [vm_compute; reflexivity|].
  apply (unparseable_override_replaces_parameter decimal_float NvtCube
           (water_mol [("temperature", "abc")]) nvt_args "temperature" "abc").
  - vm_compute. left.
  - reflexivity.
  - vm_compute. reflexivity.
Defined.

(** With that tag the record of the run above ends on the failure port: the
    stage raises on the temperature it is handed. *)
Example unparseable_override_fails_the_job :
  let out := nvt_run [("temperature", "abc")] in
  fst <$> out = Some (Ok tt)
  ∧ (λ x, w_opt (cs_world x.2) !! "temperature") <$> out = Some (Some (PStr "abc"))
  ∧ (λ x, cs_success x.2) <$> out = Some []
  ∧ (λ x, cs_failure x.2) <$> out = Some [after_setup [("temperature", "abc")]].
Proof. cbv zeta. repeat split; vm_compute; reflexivity. Qed.

(** A value that parses does override the parameter, as a number. *)
Example parseable_override :
  decimal_float "310.5" = Some (621 # 2)
  ∧ sd_overrides decimal_float NvtCube (water_mol [("temperature", "310.5")]) nvt_args
    !! "temperature" = Some (PFloat (621 # 2)).
Proof. split; vm_compute; reflexivity. Qed.

(** ** The lock arbiter *)

Section ArbiterFacts.
Context (host : Host) (kernel : Kernel) (sim : MDData → M unit).

Lemma release_other (self q : pid) (fn fn' : string) (locks : gmap string pid) :
  q ≠ self → locks !! fn' = Some q → release self fn locks !! fn' = Some q.
Proof.
  intros Hq Hl. unfold release.
  destruct (locks !! fn) as [owner|] eqn:E; [|done].
  destruct (decide (owner = self)) as [->|]; [|done].
  rewrite lookup_delete_ne; [done|].
  intros ->. congruence.
Qed.

Lemma release_own (self : pid) (fn : string) (locks : gmap string pid) :
  locks !! fn = Some self → release self fn locks !! fn = None.
Proof.
  intros Hl. unfold release. rewrite Hl.
  rewrite decide_True by done. apply lookup_delete_eq.
Qed.

Lemma release_free (self : pid) (fn fn' : string) (locks : gmap string pid) :
  locks !! fn' = None → release self fn locks !! fn' = None.
Proof.
  intros Hl. unfold release.
  destruct (locks !! fn) as [owner|] eqn:E; [|done].
  destruct (decide (owner = self)); [|done].
  destruct (decide (fn = fn')) as [->|]; [apply lookup_delete_eq|].
  by rewrite lookup_delete_ne.
Qed.

(** The [except] clauses never leave the job with a lease, and never touch
    the lock of another job. *)
Lemma handle_no_lease (self : pid) (e : exn) locks (j : job) :
  lease (handle self e locks j).2 = None.
Proof.
  unfold handle.
  destruct e as [| | | | | | |errno]; try (destruct (flock_un (j_file j)); done).
  destruct (errno =? EACCES); [done|].
  destruct (flock_un (j_file j)); done.
Qed.

Lemma handle_other (self q : pid) (e : exn) locks (j : job) (fn : string) :
  q ≠ self → locks !! fn = Some q → (handle self e locks j).1 !! fn = Some q.
Proof.
  intros Hq Hl. unfold handle.
  destruct e as [| | | | | | |errno];
    try (destruct (flock_un (j_file j)); cbn; [by apply release_other|done]).
  destruct (errno =? EACCES); [done|].
  destruct (flock_un (j_file j)); cbn; [by apply release_other|done].
Qed.

Lemma leave_with_no_lease (self : pid) (fn : string) (e : exn) locks (j : job) :
  lease (leave_with self fn e locks j).2 = None.
Proof. apply handle_no_lease. Qed.

Lemma leave_with_other (self q : pid) (fn fn' : string) (e : exn) locks (j : job) :
  q ≠ self → locks !! fn' = Some q →
  (leave_with self fn e locks j).1 !! fn' = Some q.
Proof.
  intros Hq Hl. unfold leave_with. apply handle_other; [done|].
  by apply release_other.
Qed.

(** A move of one job leaves the locks of the others alone. *)
Lemma step_job_other (self q : pid) locks (j : job) (fn : string) :
  q ≠ self → locks !! fn = Some q →
  (step_job host kernel sim self locks j).1 !! fn = Some q.
Proof.
  intros Hq Hl. unfold step_job.
  destruct (j_pc j) as [|gpu_id|gpu_id| | | |e]; try done.
  - destruct (pick_gpu host (w_opt (j_world j))) as [gpu_id|e]; [|done].
    destruct (open_lock_file kernel (lock_file gpu_id)).
    { by apply handle_other. }
    destruct (locks !! lock_file gpu_id) as [owner|] eqn:E.
    { by apply leave_with_other. }
    cbn. rewrite lookup_insert_ne; [done|]. intros <-. congruence.
  - destruct (audit_line host (w_opt (j_world j)) gpu_id) as [args|e].
    2:{ by apply leave_with_other. }
    destruct (sim _ _) as [[[]|e] w']; [done|].
    by apply leave_with_other.
  - cbn. by apply release_other.
  - by destruct (sim _ _) as [[[]|e] w'].
Qed.

(** A job that has a lease after its move owns the lock of the device. *)
Lemma step_job_lease (self : pid) locks (j : job) (gpu_id : string) :
  (∀ g, lease j = Some g → locks !! lock_file g = Some self) →
  lease (step_job host kernel sim self locks j).2 = Some gpu_id →
  (step_job host kernel sim self locks j).1 !! lock_file gpu_id = Some self.
Proof.
  intros Hown. unfold step_job.
  destruct (j_pc j) as [|g|g| | | |e] eqn:Epc; try done.
  - destruct (pick_gpu host (w_opt (j_world j))) as [g|e]; [|done].
    destruct (open_lock_file kernel (lock_file g)).
    { by rewrite handle_no_lease. }
    destruct (locks !! lock_file g) as [owner|] eqn:E.
    { by rewrite leave_with_no_lease. }
    cbn. intros [= <-]. apply lookup_insert_eq.
  - destruct (audit_line host (w_opt (j_world j)) g) as [args|e].
    2:{ by rewrite leave_with_no_lease. }
    destruct (sim _ _) as [[[]|e] w'].
    + cbn. intros [= <-]. apply Hown. unfold lease. by rewrite Epc.
    + by rewrite leave_with_no_lease.
  - by destruct (sim _ _) as [[[]|e] w'].
  - cbn. unfold lease. by rewrite Epc.
  - cbn. unfold lease. by rewrite Epc.
Qed.

Lemma cluster_step_inv (σ : cluster) (p : pid) :
  lock_inv (cl_locks σ) (cl_jobs σ) →
  lock_inv (cl_locks (cluster_step host kernel sim σ p))
           (cl_jobs (cluster_step host kernel sim σ p)).
Proof.
  intros Hinv. unfold cluster_step.
  destruct (cl_jobs σ !! p) as [j|] eqn:Ej; [|done].
  destruct (step_job host kernel sim p (cl_locks σ) j) as [locks j'] eqn:Es.
  cbn. intros q jq g Hq Hlease.
  destruct (decide (q = p)) as [->|Hne].
  - rewrite lookup_insert_eq in Hq. injection Hq as <-.
    change locks with (locks, j').1. rewrite <- Es.
    apply step_job_lease.
    + intros g' Hg'. by apply (Hinv p j g').
    + by rewrite Es.
  - rewrite lookup_insert_ne in Hq by done.
    change locks with (locks, j').1. rewrite <- Es.
    apply step_job_other; [done|].
    by apply (Hinv q jq g).
Qed.

Lemma cluster_run_inv (schedule : list pid) (σ : cluster) :
  lock_inv (cl_locks σ) (cl_jobs σ) →
  lock_inv (cl_locks (cluster_run host kernel sim σ schedule))
           (cl_jobs (cluster_run host kernel sim σ schedule)).
Proof.
  revert σ. induction schedule as [|p schedule IH]; intros σ Hinv; [done|].
  cbn. apply IH. by apply cluster_step_inv.
Qed.
End ArbiterFacts.

(** C2.  Started from jobs of which none has a lease, and whatever the order
    in which the jobs move, two jobs that have a lease on the same device
    are one and the same job. *)
Theorem no_two_leases_on_a_device
    (host : Host) (kernel : Kernel) (sim : MDData → M unit)
    (σ : cluster) (schedule : list pid)
    (p q : pid) (jp jq : job) (gpu_id : string) :
  (∀ p j, cl_jobs σ !! p = Some j → lease j = None) →
  cl_jobs (cluster_run host kernel sim σ schedule) !! p = Some jp →
  cl_jobs (cluster_run host kernel sim σ schedule) !! q = Some jq →
  lease jp = Some gpu_id →
  lease jq = Some gpu_id →
  p = q.
Proof.
  intros Hinit Hp Hq Hlp Hlq.
  assert (Hinv : lock_inv (cl_locks σ) (cl_jobs σ)).
  { intros p' j' g Hj Hl. rewrite (Hinit p' j' Hj) in Hl. done. }
  apply (cluster_run_inv host kernel sim schedule) in Hinv.
  pose proof (Hinv p jp gpu_id Hp Hlp) as H1.
  pose proof (Hinv q jq gpu_id Hq Hlq) as H2.
  congruence.
Qed.

(** The jobs for the systems 0 and 2 on two devices, job 0 moving first and
    job 1 twice after it: job 0 has the lease on device 0 and is the only
    one to have it. *)
Lemma no_two_leases_on_a_device_witness :
  lease <$> cl_jobs two_jobs_later !! 0%nat = Some (Some "0")
  ∧ ∀ q jq, cl_jobs two_jobs_later !! q = Some jq → lease jq = Some "0" → 0%nat = q.
Proof.
  assert (H0 : lease <$> cl_jobs two_jobs_later !! 0%nat = Some (Some "0"))
    by (vm_compute; reflexivity).
  split; [exact H0|].
  intros q jq Hq Hlq.
  destruct (cl_jobs two_jobs_later !! 0%nat) as [j0|] eqn:E0; [|discriminate].
  injection H0 as H0.
  apply (no_two_leases_on_a_device two_gpus fcntl_kernel
           (simulation_body reference_only two_gpus) two_jobs
           [0%nat; 1%nat; 1%nat] 0%nat q j0 jq "0"); try assumption.
  intros p j Hj. unfold two_jobs in Hj. cbn [cl_jobs] in Hj.
  destruct (decide (p = 0%nat)) as [->|].
  { rewrite lookup_insert_eq in Hj. injection Hj as <-. reflexivity. }
  rewrite lookup_insert_ne in Hj by done.
  destruct (decide (p = 1%nat)) as [->|].
  { rewrite lookup_singleton_eq in Hj. injection Hj as <-. reflexivity. }
  rewrite lookup_singleton_ne in Hj by done. discriminate.
Defined.

Section Contention.
Context (host : Host) (kernel : Kernel) (sim : MDData → M unit).
Context (self owner : pid) (locks : gmap string pid) (j : job) (gpu_id : string).
Hypothesis at_loop_head : j_pc j = LoopHead.
Hypothesis picked : pick_gpu host (w_opt (j_world j)) = Ok gpu_id.
Hypothesis opens : open_lock_file kernel (lock_file gpu_id) = None.
Hypothesis held : locks !! lock_file gpu_id = Some owner.
Hypothesis by_another : owner ≠ self.

Lemma release_held : release self (lock_file gpu_id) locks = locks.
Proof. unfold release. rewrite held. by rewrite decide_False. Qed.

Lemma busy_lock_sleeps :
  flock_busy_errno kernel = EACCES →
  step_job host kernel sim self locks j
  = (locks,
     with_pc Backoff
       (with_file (Closed (lock_file gpu_id))
          (traced [CloseFile (lock_file gpu_id)]
             (traced [FlockEx (lock_file gpu_id) false]
                (with_file (Opened (lock_file gpu_id))
                   (traced [OpenAppend (lock_file gpu_id) None] j)))))).
Proof.
  intros Herr.
  unfold step_job. rewrite at_loop_head, picked, opens, held.
  unfold leave_with, handle.
  rewrite release_held. by rewrite Herr.
Qed.

(** When the busy lock is reported as [EACCES], the job sleeps for a tenth
    of a second and comes back to the head of the loop, where it picks the
    same device again. *)
Lemma busy_lock_backs_off :
  flock_busy_errno kernel = EACCES →
  let back := step_job host kernel sim self locks j in
  let again := step_job host kernel sim self back.1 back.2 in
  back.1 = locks
  ∧ j_pc back.2 = Backoff
  ∧ again.1 = locks
  ∧ j_pc again.2 = LoopHead
  ∧ j_trace again.2
    = (j_trace j ++ [OpenAppend (lock_file gpu_id) None;
                     FlockEx (lock_file gpu_id) false;
                     CloseFile (lock_file gpu_id); Sleep (1 # 10)])%list
  ∧ pick_gpu host (w_opt (j_world again.2)) = Ok gpu_id.
Proof.
  intros Herr. cbv zeta. rewrite (busy_lock_sleeps Herr). cbn.
  repeat split; try done.
  by rewrite <- !app_assoc.
Qed.

Lemma busy_lock_raises :
  flock_busy_errno kernel ≠ EACCES →
  step_job host kernel sim self locks j
  = (locks,
     with_pc (Failed (ValueError "I/O operation on closed file"))
       (with_file (Closed (lock_file gpu_id))
          (traced [CloseFile (lock_file gpu_id)]
             (traced [FlockEx (lock_file gpu_id) false]
                (with_file (Opened (lock_file gpu_id))
                   (traced [OpenAppend (lock_file gpu_id) None] j)))))).
Proof.
  intros Herr.
  unfold step_job. rewrite at_loop_head, picked, opens, held.
  unfold leave_with, handle.
  rewrite release_held.
  destruct (flock_busy_errno kernel =? EACCES) eqn:E; [|done].
  apply Z.eqb_eq in E. done.
Qed.
End Contention.

(** C4.  A job at the head of the loop whose device is locked by another
    process, on a host where the busy lock is reported with an error number
    other than [EACCES] (as [flock] does, with [EAGAIN]): the job does not
    sleep and does not retry; it fails with the [ValueError] that unlocking
    the closed lock file raises, and the lock table is as it was. *)
Theorem busy_lock_fails_the_job
    (host : Host) (kernel : Kernel) (sim : MDData → M unit)
    (self owner : pid) (locks : gmap string pid) (j : job) (gpu_id : string) :
  j_pc j = LoopHead →
  pick_gpu host (w_opt (j_world j)) = Ok gpu_id →
  open_lock_file kernel (lock_file gpu_id) = None →
  locks !! lock_file gpu_id = Some owner →
  owner ≠ self →
  flock_busy_errno kernel ≠ EACCES →
  let out := step_job host kernel sim self locks j in
  out.1 = locks
  ∧ j_pc out.2 = Failed (ValueError "I/O operation on closed file")
  ∧ j_trace out.2
    = (j_trace j ++ [OpenAppend (lock_file gpu_id) None;
                     FlockEx (lock_file gpu_id) false;
                     CloseFile (lock_file gpu_id)])%list.
Proof.
  intros H1 H2 H3 H4 H5 H6. cbv zeta.
  rewrite (busy_lock_raises host kernel sim self owner locks j gpu_id) by done.
  cbn. repeat split. by rewrite <- !app_assoc.
Qed.

(** The job for system 2 while the job for system 0 has device 0, under
    [flock]. *)
Lemma busy_lock_fails_the_job_witness :
  let out := step_job two_gpus flock_kernel (simulation_body reference_only two_gpus)
               1%nat {[ "/tmp/0.txt" := 0%nat ]}
               (enter two_gpus water_data (local_world 2 0)) in
  out.1 = {[ "/tmp/0.txt" := 0%nat ]}
  ∧ j_pc out.2 = Failed (ValueError "I/O operation on closed file")
  ∧ j_trace out.2
    = [OpenAppend "/tmp/0.txt" None; FlockEx "/tmp/0.txt" false;
       CloseFile "/tmp/0.txt"].
Proof.
  apply (busy_lock_fails_the_job two_gpus flock_kernel
           (simulation_body reference_only two_gpus) 1%nat 0%nat
           {[ "/tmp/0.txt" := 0%nat ]}
           (enter two_gpus water_data (local_world 2 0)) "0");
    try (vm_compute; reflexivity); vm_compute; discriminate.
Defined.

(** The two jobs of the scenario under [flock]: the second one fails as
    soon as it meets the lock of the first.  Under a kernel that answers
    [EACCES] it waits, takes the device when the first has left, and runs. *)
Example second_job_under_flock :
  (j_pc <$> cl_jobs (cluster_run two_gpus flock_kernel
                       (simulation_body reference_only two_gpus) two_jobs
                       [0%nat; 1%nat]) !! 1%nat)
  = Some (Failed (ValueError "I/O operation on closed file")).
Proof. vm_compute. reflexivity. Qed.

Example second_job_under_fcntl :
  let moves (schedule : list pid) :=
    j_pc <$> cl_jobs (cluster_run two_gpus fcntl_kernel
                        (simulation_body reference_only two_gpus) two_jobs
                        schedule) !! 1%nat in
  moves [0%nat; 1%nat] = Some Backoff
  ∧ moves [0%nat; 1%nat; 1%nat; 1%nat] = Some Backoff
  ∧ moves [0%nat; 1%nat; 1%nat; 0%nat; 0%nat; 1%nat] = Some (Locked "0")
  ∧ moves [0%nat; 1%nat; 1%nat; 0%nat; 0%nat; 1%nat; 1%nat; 1%nat] = Some Returned.
Proof. cbv zeta. repeat split; vm_compute; reflexivity. Qed.

(** C5.  A job that has the lock of its device and whose stage raises: the
    [with] block closes the lock file, which frees the device; after that,
    an [IOError] with [EACCES] is taken for a busy lock (the job backs off
    and will run the stage again, nothing is raised), and for every other
    exception the unlocking of the closed file raises its own [ValueError]
    before the [Simulation Failed] error is built. *)
Theorem stage_error_is_not_rewrapped
    (host : Host) (kernel : Kernel) (sim : MDData → M unit)
    (self : pid) (locks : gmap string pid) (j : job) (gpu_id : string)
    (args : list pyval) (e : exn) :
  j_pc j = Locked gpu_id →
  audit_line host (w_opt (j_world j)) gpu_id = Ok args →
  locks !! lock_file gpu_id = Some self →
  (sim (j_mdData j) (set_opt <["gpu_id" := PStr gpu_id]> (j_world j))).1
  = Raise e →
  let out := step_job host kernel sim self locks j in
  out.1 !! lock_file gpu_id = None
  ∧ j_file out.2 = Closed (lock_file gpu_id)
  ∧ j_pc out.2 = (if is_permission_error e then Backoff
                  else Failed (ValueError "I/O operation on closed file")).
Proof.
  intros Hpc Haudit Hlock Hsim. cbv zeta.
  unfold step_job. rewrite Hpc, Haudit. cbn.
  destruct (sim _ _) as [r w'] eqn:Es. cbn in Hsim. subst r.
  unfold leave_with, handle.
  destruct e as [| | | | | | |errno]; cbn;
    try (split; [by apply release_own|done]).
  destruct (errno =? EACCES); cbn; (split; [by apply release_own|done]).
Qed.

(** The job for system 0 on a host where its log file cannot be written:
    the stage raises the [IOError] of the reporter, and the job backs off. *)
Lemma stage_error_is_not_rewrapped_witness :
  let out := step_job two_gpus flock_kernel (simulation_body readonly_log two_gpus)
               0%nat {[ "/tmp/0.txt" := 0%nat ]}
               (holding_job (local_world 0 (1 # 2))) in
  out.1 !! "/tmp/0.txt" = None
  ∧ j_file out.2 = Closed "/tmp/0.txt"
  ∧ j_pc out.2 = Backoff.
Proof.
  apply (stage_error_is_not_rewrapped two_gpus flock_kernel
           (simulation_body readonly_log two_gpus) 0%nat
           {[ "/tmp/0.txt" := 0%nat ]}
           (holding_job (local_world 0 (1 # 2))) "0"
           [PStr "water"; PInt 0; PStr "0"; PStr "1"; PStr "0"]
           (IOError EACCES)).
  - reflexivity.
  - vm_compute. reflexivity.
  - reflexivity.
  - vm_compute. reflexivity.
Defined.

(** That job alone on the host: after twelve moves of the wrapper the call
    has not come back, and the stage has been started four times. *)
Example unwritable_log_reruns_the_stage :
  simulation readonly_log two_gpus flock_kernel 12 0%nat ∅ water_data
             (local_world 0 (1 # 2)) = None
  ∧ sim_calls (j_trace (run_alone two_gpus flock_kernel
                          (simulation_body readonly_log two_gpus) 12 0%nat ∅
                          (enter two_gpus water_data (local_world 0 (1 # 2)))).2)
    = 4%nat.
Proof. split; vm_compute; reflexivity. Qed.

(** An NPT job on a system without a box: the stage raises its
    [ValueError], and what reaches the caller is the [ValueError] of the
    closed file. *)
Example npt_without_box_under_the_arbiter :
  (simulation_body reference_only two_gpus vacuum_data npt_world).1
  = Raise (ValueError "NPT simulation without box vector")
  ∧ (λ o, fst <$> o)
      (simulation reference_only two_gpus flock_kernel 12 0%nat ∅ vacuum_data
                  npt_world)
    = Some (Raise (ValueError "I/O operation on closed file")).
Proof. split; vm_compute; reflexivity. Qed.

(** ** Velocity seeding *)
Lemma quiet_bind {A B} (c : M A) (k : A → M B) :
  quiet c → (∀ a, quiet (k a)) → quiet (c ≫= k).
Proof.
  intros Hc Hk added w0 w Hw. rewrite M_bind_unfold.
  specialize (Hc added w0 w Hw).
  destruct (c w) as [[a|e] w1]; cbn in Hc; [|exact Hc].
  by apply Hk.
Qed.

Lemma quiet_mret {A} (a : A) : quiet (mret a).
Proof. by intros added w0 w Hw. Qed.
Lemma quiet_raise {A} (e : exn) : quiet (@raise A e).
Proof. by intros added w0 w Hw. Qed.
Lemma quiet_lift {A} (r : res A) : quiet (lift r).
Proof. by intros added w0 w Hw. Qed.
Lemma quiet_opt_get k : quiet (opt_get k).
Proof. by intros added w0 w Hw. Qed.
Lemma quiet_opt_has k : quiet (opt_has k).
Proof. by intros added w0 w Hw. Qed.
Lemma quiet_log l m a : quiet (log l m a).
Proof. by intros added w0 w Hw. Qed.
Lemma quiet_opt_put k v :
  k ≠ "SimType" → k ≠ "temperature" → quiet (opt_put k v).
Proof.
  intros Hk Hk' added w0 w (H1 & H2 & H3). split; [exact H1|].
  cbn. by rewrite !lookup_insert_ne.
Qed.
Lemma quiet_call c : is_seed_call c = false → quiet (call c).
Proof.
  intros Hc added w0 w (H1 & H2). split; [|exact H2].
  unfold seed_calls in *. cbn. rewrite List.filter_app. cbn. rewrite Hc.
  by rewrite app_nil_r.
Qed.
Lemma quiet_calls cs : forallb (λ c, negb (is_seed_call c)) cs = true → quiet (calls cs).
Proof.
  intros Hcs added w0 w (H1 & H2). split.
  - unfold seed_calls in *. unfold calls. cbn. rewrite w_mm_calls.
    rewrite List.filter_app.
    assert (E : List.filter is_seed_call cs = []).
    { clear -Hcs. induction cs as [|c cs IH]; [done|]. cbn in *.
      apply andb_prop in Hcs as [Hc Hcs']. apply negb_true_iff in Hc. rewrite Hc. auto. }
    rewrite E. by rewrite app_nil_r.
  - unfold calls. cbn.
    clear -H2. revert w H2. induction cs as [|c cs IH]; intros w H2; [done|].
    cbn. by apply IH.
Qed.
Lemma quiet_structure_at l : quiet (structure_at l).
Proof. intros added w0 w Hw. unfold structure_at. by destruct (w_structs w !! l). Qed.
Lemma quiet_update_structure l f : quiet (update_structure l f).
Proof. intros added w0 w Hw. unfold update_structure. by destruct (w_structs w !! l). Qed.
Lemma quiet_update_mol l f : quiet (update_mol l f).
Proof. intros added w0 w Hw. unfold update_mol. by destruct (w_mols w !! l). Qed.

Ltac quiet_step :=
  lazymatch goal with
  | |- quiet (_ ≫= _) => apply quiet_bind; [|intros ?]
  | |- quiet (mret _) => apply quiet_mret
  | |- quiet (raise _) => apply quiet_raise
  | |- quiet (lift _) => apply quiet_lift
  | |- quiet (opt_get _) => apply quiet_opt_get
  | |- quiet (opt_has _) => apply quiet_opt_has
  | |- quiet (log _ _ _) => apply quiet_log
  | |- quiet (opt_put _ _) => apply quiet_opt_put; done
  | |- quiet (call _) => apply quiet_call; reflexivity
  | |- quiet (structure_at _) => apply quiet_structure_at
  | |- quiet (update_structure _ _) => apply quiet_update_structure
  | |- quiet (update_mol _ _) => apply quiet_update_mol
  | |- quiet (when ?b _) => unfold when; destruct b
  | |- quiet (if ?b then _ else _) => destruct b
  | |- quiet (match ?x with _ => _ end) => destruct x
  | |- quiet (let _ := _ in _) => cbv zeta
  end.
Ltac quiet_solve := repeat quiet_step.

Section QuietStage.
Context (mm : OpenMM) (host : Host).
Lemma quiet_mol_at v : quiet (mol_at v).
Proof. unfold mol_at. quiet_solve. Qed.
Lemma quiet_opt_float k : quiet (opt_float k).
Proof. unfold opt_float. quiet_solve. Qed.
Lemma quiet_center md : quiet (center_system mm md).
Proof. unfold center_system. quiet_solve. Qed.
Lemma quiet_create md : quiet (create_system md).
Proof. unfold create_system. repeat first [apply quiet_opt_float | quiet_step]. Qed.

Ltac quiet_more :=
  first [ apply quiet_opt_float | apply quiet_mol_at | quiet_step ].
Lemma quiet_restraints p : quiet (apply_restraints mm p).
Proof. unfold apply_restraints. repeat quiet_more. Qed.
Lemma quiet_freeze p : quiet (apply_freeze mm p).
Proof.
  unfold apply_freeze. repeat quiet_more.
  apply quiet_calls. induction (masked _ _); [done|]. cbn. done.
Qed.
Lemma quiet_auto_platform names : quiet (auto_platform mm names).
Proof. induction names as [|n names IH]; cbn; repeat quiet_more. exact IH. Qed.
Lemma quiet_auto_properties p : quiet (auto_properties host p).
Proof. unfold auto_properties. repeat quiet_more. Qed.
Lemma quiet_auto_precision p l : quiet (auto_precision mm host p l).
Proof.
  induction l as [|n l IH]; cbn; repeat first [apply quiet_auto_properties | quiet_more]. exact IH.
Qed.
Lemma quiet_plain p : quiet (plain_simulation mm p).
Proof. unfold plain_simulation. repeat quiet_more. Qed.
Lemma quiet_select : quiet (select_platform mm host).
Proof.
  unfold select_platform.
  repeat first [apply quiet_auto_platform | apply quiet_auto_precision | apply quiet_plain | quiet_more].
Qed.
Lemma quiet_run_md ctx box : quiet (run_md mm ctx box).
Proof. unfold run_md. repeat quiet_more. Qed.
Lemma quiet_run_min ctx : quiet (run_min mm ctx).
Proof. unfold run_min. repeat quiet_more. Qed.
End QuietStage.
Section Seeding.
Context (mm : OpenMM) (host : Host).

Lemma seeded_refl w : seeded [] w w.
Proof. split; [by rewrite app_nil_r|done]. Qed.

Lemma post_bind_quiet {A B} (c : M A) (k : A → M B) added w0 w
    (Q : res B → world → Prop) :
  quiet c → seeded added w0 w →
  (∀ a w1, seeded added w0 w1 → post (k a w1) Q) →
  (∀ e w1, seeded added w0 w1 → Q (Raise e) w1) →
  post ((c ≫= k) w) Q.
Proof.
  intros Hc Hw Hk He. rewrite M_bind_unfold.
  specialize (Hc added w0 w Hw).
  destruct (c w) as [[a|e] w1]; cbn in Hc.
  - by apply Hk.
  - by apply He.
Qed.

Lemma post_bind_opt_get {B} key (k : pyval → M B) w (Q : res B → world → Prop) :
  (∀ v, w_opt w !! key = Some v → post (k v w) Q) →
  (w_opt w !! key = None → Q (Raise (KeyError key)) w) →
  post ((opt_get key ≫= k) w) Q.
Proof.
  intros Hk He. rewrite M_bind_unfold. unfold opt_get, getitem.
  destruct (w_opt w !! key) as [v|]; [by apply Hk|by apply He].
Qed.

Lemma post_quiet {A} (c : M A) added w0 w (Q : res A → world → Prop) :
  quiet c → seeded added w0 w →
  (∀ r w1, seeded added w0 w1 → Q r w1) →
  post (c w) Q.
Proof. intros Hc Hw HQ. apply HQ. by apply Hc. Qed.

Lemma seeded_seed_call c added w0 w :
  is_seed_call c = true → seeded added w0 w →
  seeded (added ++ [c]) w0 (add_call c w).
Proof.
  intros Hc (H1 & H2). split; [|exact H2].
  unfold seed_calls in *. cbn. rewrite List.filter_app, H1. cbn. rewrite Hc.
  by rewrite app_assoc.
Qed.

Lemma quiet_reporters : quiet (reporters_of_opt mm).
Proof. by intros added w0 w Hw. Qed.

Lemma reporters_not_seed (reps : list reporter) :
  forallb (λ c, negb (is_seed_call c)) (map AppendReporter reps) = true.
Proof. induction reps as [|r rs IH]; [done|]. cbn. exact IH. Qed.

Lemma quiet_schedule (stepLen : Q) (seed : velocity_seed) :
  quiet (time ← opt_float "time";
         opt_put "steps" (PInt (time_to_steps time stepLen picoseconds));;
         reps ← reporters_of_opt mm;
         calls (map AppendReporter reps);;
         mret seed).
Proof.
  repeat first [apply quiet_opt_float | apply quiet_reporters
               | apply quiet_calls, reporters_not_seed | quiet_step].
Qed.

Lemma opt_float_eq (k : string) (w : world) :
  opt_float k w
  = (match w_opt w !! k with
     | Some v => as_float v
     | None => Raise (KeyError k)
     end, w).
Proof.
  unfold opt_float. rewrite M_bind_unfold. unfold opt_get, getitem.
  by destruct (w_opt w !! k).
Qed.

(** What the seeding adds. *)
Lemma seed_and_schedule_spec velocities stepLen added w0 w :
  seeded added w0 w →
  ∃ more,
    seeded (added ++ more) w0 (seed_and_schedule mm velocities stepLen w).2
    ∧ seed_shape velocities (w_opt w0 !! "temperature") more
    ∧ (∀ s, (seed_and_schedule mm velocities stepLen w).1 = Ok s → more ≠ []).
Proof.
  intros Hw. unfold seed_and_schedule.
  destruct velocities as [v|].
  - exists [SetVelocities v]. rewrite M_bind_unfold.
    rewrite (M_bind_unfold (log _ _ _)). cbn [log].
    rewrite (M_bind_unfold (call _)). cbn [call].
    cbn [mret M_ret].
    split; [|split; [right; left; eauto|done]].
    apply quiet_schedule. apply seeded_seed_call; [done|].
    by apply (quiet_log LInfo _ []).
  - rewrite M_bind_unfold.
    rewrite (M_bind_unfold (log _ _ _)). cbn [log].
    rewrite (M_bind_unfold (opt_float _)).
    pose proof (quiet_log LInfo "GENERATING a new starting State" [] added w0 w Hw)
      as Hlog. cbn [log snd] in Hlog.
    rewrite (opt_float_eq "temperature"). cbn [w_opt add_log].
    destruct Hw as (_ & _ & Htemp). rewrite Htemp.
    destruct (w_opt w0 !! "temperature") as [t|] eqn:Et.
    2:{ exists []. rewrite app_nil_r. split; [exact Hlog|].
        split; [by left|]. intros s. cbn. discriminate. }
    destruct (as_float t) as [T|e] eqn:ET.
    + rewrite (M_bind_unfold (call _)). cbn [call]. cbn [mret M_ret].
      exists [SetVelocitiesToTemperature T].
      split; [|split; [right; right; split; [done|]; by exists t, T|done]].
      apply quiet_schedule. by apply seeded_seed_call.
    + exists []. rewrite app_nil_r. split; [exact Hlog|]. split; [by left|].
      intros s. cbn. discriminate.
Qed.
End Seeding.

Ltac quiet_all :=
  repeat first
    [ apply quiet_opt_float | apply quiet_mol_at | apply quiet_center
    | apply quiet_create | apply quiet_restraints | apply quiet_freeze
    | apply quiet_select | apply quiet_run_md | apply quiet_run_min
    | quiet_step ].

Section Body.
Context (mm : OpenMM) (host : Host) (mdData : MDData) (w0 : world).

Lemma outcome_intro added r w1 :
  seeded added w0 w1 →
  seed_shape (md_velocities mdData) (w_opt w0 !! "temperature") added →
  (md_stage w0 = false → added = []) →
  (md_stage w0 = true → r = Ok tt → added ≠ []) →
  seeding_outcome mdData w0 r w1.
Proof. intros [H1 _] H2 H3 H4. by exists added. Qed.

Lemma outcome_early e w1 :
  seeded [] w0 w1 → seeding_outcome mdData w0 (Raise e) w1.
Proof.
  intros H. apply (outcome_intro []); [done|by left|done|]. intros _. discriminate.
Qed.

Ltac early :=
  lazymatch goal with
  | Hw : seeded [] _ _ |- _ =>
      eapply post_bind_quiet;
      [ solve [quiet_all] | exact Hw
      | clear Hw; intros ? ? Hw
      | clear Hw; intros ? ? Hw; by apply outcome_early ]
  end.

Lemma body_seeding :
  post (simulation_body mm host mdData w0) (seeding_outcome mdData w0).
Proof.
  unfold simulation_body. cbv zeta.
  pose proof (seeded_refl w0) as Hw.
  do 14 early.
  apply post_bind_opt_get; [|intros _; by apply outcome_early].
  intros simtype Hst.
  assert (Hmd : md_stage w0 = is_md simtype).
  { unfold md_stage. destruct Hw as (_ & <- & _). by rewrite Hst. }
  destruct (is_md simtype) eqn:Emd.
  - (* an NVT or NPT stage *)
    rewrite M_bind_unfold.
    lazymatch goal with
    | |- context [seed_and_schedule mm ?v ?s ?w] =>
        destruct (seed_and_schedule_spec mm v s [] w0 w Hw)
          as (more & Hmore & Hshape & Hne);
        destruct (seed_and_schedule mm v s w) as [[seed|e] wseed]
    end; cbn [app fst snd] in *.
    2:{ apply (outcome_intro more); try done. congruence. }
    assert (Hmore' : more ≠ []) by (by apply (Hne seed)).
    eapply post_quiet; [|exact Hmore|].
    { quiet_all. }
    intros r wend Hend. apply (outcome_intro more); try done. congruence.
  - (* a Minimize stage *)
    eapply post_quiet; [|exact Hw|].
    { quiet_all. }
    intros r wend Hend. apply (outcome_intro []); try done; [by left|congruence].
Qed.
End Body.

(** C8.  The velocity calls that a stage adds to those made before it: an
    NVT or NPT stage adds at most one, which is the loading of the input
    velocities when the input has them and the draw at the temperature of
    [opt] when it has none, and adds exactly that one when it runs to its
    end; a stage of another type adds none. *)
Theorem velocity_seeding_is_exclusive
    (mm : OpenMM) (host : Host) (mdData : MDData) (w : world) :
  let out := simulation_body mm host mdData w in
  ∃ added,
    seed_calls out.2 = (seed_calls w ++ added)%list
    ∧ (added = []
       ∨ (∃ v, md_velocities mdData = Some v ∧ added = [SetVelocities v])
       ∨ (md_velocities mdData = None
          ∧ ∃ t T, w_opt w !! "temperature" = Some t ∧ as_float t = Ok T
                   ∧ added = [SetVelocitiesToTemperature T]))
    ∧ (md_stage w = false → added = [])
    ∧ (md_stage w = true → out.1 = Ok tt → added ≠ []).
Proof. exact (body_seeding mm host mdData w). Qed.

(** The three cases on the water system: a fresh NVT run, an NVT run from
    earlier velocities, a minimization. *)
Example seeding_of_three_runs :
  seed_calls (simulation_body reference_only orion water_data nvt_world).2
  = [SetVelocitiesToTemperature 300]
  ∧ seed_calls (simulation_body reference_only orion restart_data nvt_world).2
    = [SetVelocities [origin; origin; origin]]
  ∧ (simulation_body reference_only orion restart_data min_world).1 = Ok tt
  ∧ seed_calls (simulation_body reference_only orion restart_data min_world).2 = [].
Proof. repeat split; vm_compute; reflexivity. Qed.

(* ===================================================================== *)
(** * Further properties                                                    *)
(* ===================================================================== *)

(** ** The lock arbiter: device choice *)

Lemma split_comma_nonempty (s : string) : split_comma s ≠ [].
Proof.
  destruct s as [|c rest]; cbn; [done|].
  destruct (Ascii.eqb c ","); [done|].
  by destruct (split_comma rest).
Qed.

(** X1.  The device of a job is [devices[system_id mod n]]: for an integer
    identifier it is always one of the visible devices (the index is never
    out of range, also for a negative identifier), and identifiers that
    differ by a multiple of the number of devices get the same device. *)
Theorem pick_gpu_in_range (host : Host) (opt opt' : gmap string pyval) (z k : Z) :
  opt !! "system_id" = Some (PInt z) →
  opt' !! "system_id"
  = Some (PInt (z + k * Z.of_nat (length (gpus_available_indexes host)))) →
  ∃ gpu_id,
    pick_gpu host opt = Ok gpu_id
    ∧ gpu_id ∈ gpus_available_indexes host
    ∧ gpus_available_indexes host
      !! Z.to_nat (z mod Z.of_nat (length (gpus_available_indexes host)))
      = Some gpu_id
    ∧ pick_gpu host opt' = Ok gpu_id.
Proof.
  intros Hz Hz'. unfold pick_gpu, getitem. rewrite Hz, Hz'. cbn.
  set (gpus := gpus_available_indexes host).
  assert (Hlen : (0 < length gpus)%nat).
  { pose proof (split_comma_nonempty (default "" (CUDA_VISIBLE_DEVICES host))) as H.
    unfold gpus, gpus_available_indexes. destruct (split_comma _); [done|]. cbn. lia. }
  rewrite Z.mod_add by lia.
  assert (Hi : (Z.to_nat (z mod Z.of_nat (length gpus)) < length gpus)%nat).
  { pose proof (Z.mod_pos_bound z (Z.of_nat (length gpus))). lia. }
  destruct (lookup_lt_is_Some_2 gpus _ Hi) as [g Hg].
  exists g. rewrite Hg. repeat split; try done.
  by apply list_elem_of_lookup_2 with (i := Z.to_nat (z mod Z.of_nat (length gpus))).
Qed.

Lemma pick_gpu_in_range_witness :
  ∃ gpu_id,
    pick_gpu two_gpus {[ "system_id" := PInt (-3) ]} = Ok gpu_id
    ∧ gpu_id ∈ gpus_available_indexes two_gpus
    ∧ gpus_available_indexes two_gpus
      !! Z.to_nat ((-3) mod Z.of_nat (length (gpus_available_indexes two_gpus)))
      = Some gpu_id
    ∧ pick_gpu two_gpus {[ "system_id" := PInt 5 ]} = Ok gpu_id.
Proof.
  apply (pick_gpu_in_range two_gpus {[ "system_id" := PInt (-3) ]}
           {[ "system_id" := PInt 5 ]} (-3) 4); reflexivity.
Defined.

(** ** The lock arbiter: a job on its own *)

(** X2.  Without a list of visible devices, or on the managed cluster, the
    wrapper is the wrapped function: one call of it, with its outcome as the
    outcome of the job, no lock file opened and the lock table untouched. *)
Theorem arbiter_bypassed
    (host : Host) (kernel : Kernel) (sim : MDData → M unit)
    (fuel : nat) (self : pid) (locks : gmap string pid)
    (mdData : MDData) (w : world) :
  arbitrated host = false →
  let out := run_alone host kernel sim (S fuel) self locks (enter host mdData w) in
  out.1 = locks
  ∧ j_trace out.2 = []
  ∧ j_world out.2 = (sim mdData w).2
  ∧ j_pc out.2 = match (sim mdData w).1 with
                 | Ok _ => Returned
                 | Raise e => Failed e
                 end.
Proof.
  intros Harb. cbv zeta. unfold enter. rewrite Harb.
  cbn [run_alone j_pc step_job j_mdData j_world].
  destruct (sim mdData w) as [[[]|e] w']; cbn [fst snd];
    destruct fuel; cbn; done.
Qed.

Lemma arbiter_bypassed_witness :
  let out := run_alone orion flock_kernel (simulation_body reference_only orion)
               1 7%nat {[ "/tmp/0.txt" := 3%nat ]}
               (enter orion water_data nvt_world) in
  out.1 = {[ "/tmp/0.txt" := 3%nat ]}
  ∧ j_trace out.2 = []
  ∧ j_world out.2 = (simulation_body reference_only orion water_data nvt_world).2
  ∧ j_pc out.2
    = match (simulation_body reference_only orion water_data nvt_world).1 with
      | Ok _ => Returned
      | Raise e => Failed e
      end.
Proof.
  apply (arbiter_bypassed orion flock_kernel (simulation_body reference_only orion)
           0 7%nat {[ "/tmp/0.txt" := 3%nat ]} water_data nvt_world).
  reflexivity.
Defined.

Section OneJob.
Context (host : Host) (kernel : Kernel) (sim : MDData → M unit).
Context (self : pid) (locks : gmap string pid) (j : job) (gpu_id : string).

Lemma run_alone_step (fuel : nat) :
  j_pc j ≠ Returned → (∀ e, j_pc j ≠ Failed e) →
  run_alone host kernel sim (S fuel) self locks j
  = run_alone host kernel sim fuel self
      (step_job host kernel sim self locks j).1
      (step_job host kernel sim self locks j).2.
Proof.
  intros H1 H2. cbn [run_alone].
  destruct (j_pc j) eqn:E; try done;
    try (by destruct (step_job host kernel sim self locks j)).
  by destruct (H2 e).
Qed.

Lemma run_alone_done (fuel : nat) :
  j_pc j = Returned → run_alone host kernel sim fuel self locks j = (locks, j).
Proof. intros H. destruct fuel; cbn [run_alone]; [done|]. by rewrite H. Qed.

(** The head of the loop with the device free. *)
Lemma step_grant :
  j_pc j = LoopHead →
  pick_gpu host (w_opt (j_world j)) = Ok gpu_id →
  open_lock_file kernel (lock_file gpu_id) = None →
  locks !! lock_file gpu_id = None →
  step_job host kernel sim self locks j
  = (<[lock_file gpu_id := self]> locks,
     with_pc (Locked gpu_id)
       (traced [FlockEx (lock_file gpu_id) true]
          (with_file (Opened (lock_file gpu_id))
             (traced [OpenAppend (lock_file gpu_id) None] j)))).
Proof.
  intros Hpc Hpick Hopen Hfree. unfold step_job.
  by rewrite Hpc, Hpick, Hopen, Hfree.
Qed.

(** The body of the [with] block when the stage returns. *)
Lemma step_stage_returns (args : list pyval) :
  j_pc j = Locked gpu_id →
  audit_line host (w_opt (j_world j)) gpu_id = Ok args →
  (sim (j_mdData j) (set_opt <["gpu_id" := PStr gpu_id]> (j_world j))).1 = Ok tt →
  step_job host kernel sim self locks j
  = (locks,
     with_pc (Ran gpu_id)
       (with_world (sim (j_mdData j)
                        (set_opt <["gpu_id" := PStr gpu_id]> (j_world j))).2
          (traced [WriteLine (lock_file gpu_id) args; CallSim gpu_id] j))).
Proof.
  intros Hpc Haudit Hsim. unfold step_job. rewrite Hpc, Haudit.
  cbn [traced j_world j_mdData].
  destruct (sim _ _) as [r w'] eqn:Es. cbn in Hsim. by subst r.
Qed.

(** The end of the [with] block after the stage. *)
Lemma step_unlock :
  j_pc j = Ran gpu_id →
  step_job host kernel sim self locks j
  = (release self (lock_file gpu_id) locks,
     with_pc Returned
       (with_file (Closed (lock_file gpu_id))
          (traced [Sleep 2; FlockUn (lock_file gpu_id);
                   CloseFile (lock_file gpu_id)] j))).
Proof. intros Hpc. unfold step_job. by rewrite Hpc. Qed.
End OneJob.

(** X3.  A job that finds its device free and whose stage returns: three moves
    take it through the wrapper.  It opens and locks the file of its device,
    writes the audit line, runs the stage with [opt['gpu_id']] set to the
    device, sleeps two seconds, unlocks and closes; the lock table is then as
    it was before. *)
Theorem free_device_is_leased_and_released
    (host : Host) (kernel : Kernel) (sim : MDData → M unit)
    (fuel : nat) (self : pid) (locks : gmap string pid)
    (mdData : MDData) (w : world) (gpu_id : string) (args : list pyval) :
  arbitrated host = true →
  pick_gpu host (w_opt w) = Ok gpu_id →
  audit_line host (w_opt w) gpu_id = Ok args →
  open_lock_file kernel (lock_file gpu_id) = None →
  locks !! lock_file gpu_id = None →
  let w1 := set_opt <["gpu_id" := PStr gpu_id]>
              (add_log (LWarn, "LOCAL FLOE CLUSTER OPTION IN USE", []) w) in
  (sim mdData w1).1 = Ok tt →
  let out := run_alone host kernel sim (3 + fuel) self locks (enter host mdData w) in
  out.1 = locks
  ∧ j_pc out.2 = Returned
  ∧ j_world out.2 = (sim mdData w1).2
  ∧ j_trace out.2
    = [OpenAppend (lock_file gpu_id) None; FlockEx (lock_file gpu_id) true;
       WriteLine (lock_file gpu_id) args; CallSim gpu_id;
       Sleep 2; FlockUn (lock_file gpu_id); CloseFile (lock_file gpu_id)].
Proof.
  intros Harb Hpick Haudit Hopen Hfree w1 Hsim. cbv zeta.
  unfold enter. rewrite Harb.
  change (3 + fuel)%nat with (S (S (S fuel))).
  rewrite run_alone_step by done.
  rewrite (step_grant host kernel sim self locks _ gpu_id) by done.
  cbn [fst snd].
  rewrite run_alone_step by done.
  rewrite (step_stage_returns host kernel sim self _ _ gpu_id args) by done.
  cbn [fst snd].
  rewrite run_alone_step by done.
  rewrite (step_unlock host kernel sim self _ _ gpu_id) by done.
  cbn [fst snd].
  assert (Hrel : release self (lock_file gpu_id) (<[lock_file gpu_id := self]> locks)
                 = locks).
  { unfold release. rewrite lookup_insert_eq. rewrite decide_True by done.
    rewrite delete_insert_eq. by apply delete_id. }
  rewrite Hrel.
  rewrite run_alone_done by done. done.
Qed.

(** The job for system 0 alone on the host with two devices. *)
Lemma free_device_is_leased_and_released_witness :
  let out := run_alone two_gpus flock_kernel (simulation_body reference_only two_gpus)
               (3 + 0) 0%nat ∅ (enter two_gpus water_data (local_world 0 0)) in
  out.1 = ∅
  ∧ j_pc out.2 = Returned
  ∧ j_world out.2
    = (simulation_body reference_only two_gpus water_data
         (set_opt <["gpu_id" := PStr "0"]>
            (add_log (LWarn, "LOCAL FLOE CLUSTER OPTION IN USE", [])
                     (local_world 0 0)))).2
  ∧ j_trace out.2
    = [OpenAppend "/tmp/0.txt" None; FlockEx "/tmp/0.txt" true;
       WriteLine "/tmp/0.txt" [PStr "water"; PInt 0; PStr "0"; PStr "1"; PStr "0"];
       CallSim "0"; Sleep 2; FlockUn "/tmp/0.txt"; CloseFile "/tmp/0.txt"].
Proof.
  apply (free_device_is_leased_and_released two_gpus flock_kernel
           (simulation_body reference_only two_gpus) 0 0%nat ∅ water_data
           (local_world 0 0) "0"
           [PStr "water"; PInt 0; PStr "0"; PStr "1"; PStr "0"]);
    vm_compute; reflexivity.
Defined.

(** ** The lock arbiter: no lock is left behind *)

Section NoStaleLock.
Context (host : Host) (kernel : Kernel) (sim : MDData → M unit).

Lemma release_from (self q : pid) (fn fn' : string) (locks : gmap string pid) :
  release self fn locks !! fn' = Some q → locks !! fn' = Some q.
Proof.
  unfold release. destruct (locks !! fn) as [owner|] eqn:E; [|done].
  destruct (decide (owner = self)); [|done].
  destruct (decide (fn = fn')) as [->|].
  - by rewrite lookup_delete_eq.
  - by rewrite lookup_delete_ne.
Qed.

Lemma release_not_own (self : pid) (fn : string) (locks : gmap string pid) :
  release self fn locks !! fn ≠ Some self.
Proof.
  unfold release. destruct (locks !! fn) as [owner|] eqn:E.
  - destruct (decide (owner = self)) as [->|].
    + by rewrite lookup_delete_eq.
    + rewrite E. congruence.
  - by rewrite E.
Qed.

Lemma handle_from (self q : pid) (e : exn) locks (j : job) (fn : string) :
  (handle self e locks j).1 !! fn = Some q → locks !! fn = Some q.
Proof.
  unfold handle.
  destruct e as [| | | | | | |errno];
    try (destruct (flock_un (j_file j)); cbn; [apply release_from|done]).
  destruct (errno =? EACCES); [done|].
  destruct (flock_un (j_file j)); cbn; [apply release_from|done].
Qed.

Lemma leave_with_from (self q : pid) (fn fn' : string) (e : exn) locks (j : job) :
  (leave_with self fn e locks j).1 !! fn' = Some q → locks !! fn' = Some q.
Proof.
  unfold leave_with. intros H. apply handle_from in H. by apply release_from in H.
Qed.

Lemma leave_with_not_own (self : pid) (fn : string) (e : exn) locks (j : job) :
  (leave_with self fn e locks j).1 !! fn ≠ Some self.
Proof.
  unfold leave_with. intros H. apply handle_from in H.
  by apply release_not_own in H.
Qed.

(** A move of a job gives no lock to another job. *)
Lemma step_job_from (self q : pid) locks (j : job) (fn : string) :
  q ≠ self →
  (step_job host kernel sim self locks j).1 !! fn = Some q →
  locks !! fn = Some q.
Proof.
  intros Hq. unfold step_job.
  destruct (j_pc j) as [|gpu_id|gpu_id| | | |e]; try done.
  - destruct (pick_gpu host (w_opt (j_world j))) as [gpu_id|e]; [|done].
    destruct (open_lock_file kernel (lock_file gpu_id)).
    { apply handle_from. }
    destruct (locks !! lock_file gpu_id) as [owner|] eqn:E.
    { apply leave_with_from. }
    cbn. destruct (decide (lock_file gpu_id = fn)) as [->|].
    + rewrite lookup_insert_eq. congruence.
    + by rewrite lookup_insert_ne.
  - destruct (audit_line host (w_opt (j_world j)) gpu_id) as [args|e].
    2:{ apply leave_with_from. }
    destruct (sim _ _) as [[[]|e] w']; [done|]. apply leave_with_from.
  - cbn. apply release_from.
  - by destruct (sim _ _) as [[[]|e] w'].
Qed.

(** The locks that a job owns after its move are those of its lease. *)
Lemma step_job_owned (self : pid) locks (j : job) (fn : string) :
  (∀ fn', locks !! fn' = Some self →
          ∃ g, lease j = Some g ∧ lock_file g = fn') →
  (step_job host kernel sim self locks j).1 !! fn = Some self →
  ∃ g, lease (step_job host kernel sim self locks j).2 = Some g
       ∧ lock_file g = fn.
Proof.
  intros Hown. unfold step_job.
  destruct (j_pc j) as [|gpu_id|gpu_id| | | |e] eqn:Epc.
  - assert (Hnone : ∀ fn', locks !! fn' ≠ Some self).
    { intros fn' H. destruct (Hown fn' H) as (g & Hg & _).
      unfold lease in Hg. by rewrite Epc in Hg. }
    destruct (pick_gpu host (w_opt (j_world j))) as [gpu_id|e];
      [|intros H; by destruct (Hnone fn)].
    destruct (open_lock_file kernel (lock_file gpu_id)).
    { intros H. apply handle_from in H. by destruct (Hnone fn). }
    destruct (locks !! lock_file gpu_id) as [owner|] eqn:E.
    { intros H. apply leave_with_from in H. by destruct (Hnone fn). }
    cbn. destruct (decide (lock_file gpu_id = fn)) as [<-|].
    + intros _. by exists gpu_id.
    + rewrite lookup_insert_ne by done. intros H. by destruct (Hnone fn).
  - assert (Hfn : ∀ fn', locks !! fn' = Some self → fn' = lock_file gpu_id).
    { intros fn' H. destruct (Hown fn' H) as (g & Hg & <-).
      unfold lease in Hg. rewrite Epc in Hg. by injection Hg as <-. }
    destruct (audit_line host (w_opt (j_world j)) gpu_id) as [args|e].
    2:{ intros H. pose proof (leave_with_from _ _ _ _ _ _ _ H) as H'.
        rewrite (Hfn fn H') in H. by apply leave_with_not_own in H. }
    destruct (sim _ _) as [[[]|e] w'].
    + cbn. intros H. exists gpu_id. split; [done|]. symmetry. by apply Hfn.
    + intros H. pose proof (leave_with_from _ _ _ _ _ _ _ H) as H'.
      rewrite (Hfn fn H') in H. by apply leave_with_not_own in H.
  - assert (Hfn : ∀ fn', locks !! fn' = Some self → fn' = lock_file gpu_id).
    { intros fn' H. destruct (Hown fn' H) as (g & Hg & <-).
      unfold lease in Hg. rewrite Epc in Hg. by injection Hg as <-. }
    cbn. intros H. pose proof (release_from _ _ _ _ _ H) as H'.
    rewrite (Hfn fn H') in H. by apply release_not_own in H.
  - cbn. intros H. destruct (Hown fn H) as (g & Hg & _).
    unfold lease in Hg. by rewrite Epc in Hg.
  - destruct (sim _ _) as [[[]|e] w']; cbn; intros H;
      destruct (Hown fn H) as (g & Hg & _);
      unfold lease in Hg; by rewrite Epc in Hg.
  - cbn. intros H. destruct (Hown fn H) as (g & Hg & _).
    unfold lease in Hg. by rewrite Epc in Hg.
  - cbn. intros H. destruct (Hown fn H) as (g & Hg & _).
    unfold lease in Hg. by rewrite Epc in Hg.
Qed.

Lemma cluster_step_owned (σ : cluster) (p : pid) :
  locks_owned (cl_locks σ) (cl_jobs σ) →
  locks_owned (cl_locks (cluster_step host kernel sim σ p))
              (cl_jobs (cluster_step host kernel sim σ p)).
Proof.
  intros Hinv. unfold cluster_step.
  destruct (cl_jobs σ !! p) as [j|] eqn:Ej; [|done].
  destruct (step_job host kernel sim p (cl_locks σ) j) as [locks j'] eqn:Es.
  cbn. intros fn q Hq.
  destruct (decide (q = p)) as [->|Hne].
  - exists j'. rewrite lookup_insert_eq.
    assert (H : ∃ g, lease (step_job host kernel sim p (cl_locks σ) j).2 = Some g
                     ∧ lock_file g = fn).
    { apply step_job_owned.
      - intros fn' H'. destruct (Hinv fn' p H') as (j0 & g & Hj0 & Hl & Hf).
        rewrite Ej in Hj0. injection Hj0 as <-. by exists g.
      - by rewrite Es. }
    rewrite Es in H. destruct H as (g & Hg & Hf). by exists g.
  - assert (H : cl_locks σ !! fn = Some q).
    { apply (step_job_from p q (cl_locks σ) j fn Hne). by rewrite Es. }
    destruct (Hinv fn q H) as (jq & g & Hjq & Hl & Hf).
    exists jq, g. by rewrite lookup_insert_ne.
Qed.

Lemma cluster_run_owned (schedule : list pid) (σ : cluster) :
  locks_owned (cl_locks σ) (cl_jobs σ) →
  locks_owned (cl_locks (cluster_run host kernel sim σ schedule))
              (cl_jobs (cluster_run host kernel sim σ schedule)).
Proof.
  revert σ. induction schedule as [|p schedule IH]; intros σ Hinv; [done|].
  cbn. apply IH. by apply cluster_step_owned.
Qed.
End NoStaleLock.

(** X4.  Started with an empty lock table, and whatever the order in which the
    jobs move, a lock in the table belongs to a job that is inside its
    [with] block on that device: once a job has returned or failed, it holds
    no lock, whichever way it left the wrapper. *)
Theorem no_lock_without_lease
    (host : Host) (kernel : Kernel) (sim : MDData → M unit)
    (σ : cluster) (schedule : list pid) (fn : string) (p : pid) :
  cl_locks σ = ∅ →
  cl_locks (cluster_run host kernel sim σ schedule) !! fn = Some p →
  ∃ j gpu_id,
    cl_jobs (cluster_run host kernel sim σ schedule) !! p = Some j
    ∧ j_pc j ∈ [Locked gpu_id; Ran gpu_id]
    ∧ lock_file gpu_id = fn.
Proof.
  intros Hempty Hlock.
  assert (Hinv : locks_owned (cl_locks σ) (cl_jobs σ)).
  { intros fn' q H. by rewrite Hempty in H. }
  apply (cluster_run_owned host kernel sim schedule) in Hinv.
  destruct (Hinv fn p Hlock) as (j & g & Hj & Hl & Hf).
  exists j, g. split; [done|]. split; [|done].
  unfold lease in Hl. destruct (j_pc j); try done; injection Hl as ->.
  - left.
  - right. left.
Qed.

(** The two jobs of the scenario after job 0 has taken device 0. *)
Lemma no_lock_without_lease_witness :
  ∃ j gpu_id,
    cl_jobs (cluster_run two_gpus fcntl_kernel
               (simulation_body reference_only two_gpus) two_jobs
               [0%nat; 1%nat; 1%nat]) !! 0%nat = Some j
    ∧ j_pc j ∈ [Locked gpu_id; Ran gpu_id]
    ∧ lock_file gpu_id = "/tmp/0.txt".
Proof.
  apply (no_lock_without_lease two_gpus fcntl_kernel
           (simulation_body reference_only two_gpus) two_jobs
           [0%nat; 1%nat; 1%nat] "/tmp/0.txt" 0%nat).
  - reflexivity.
  - vm_compute. reflexivity.
Defined.

(** ** The lock arbiter: waiting for a held device *)

Section Waiting.
Context (host : Host) (kernel : Kernel) (sim : MDData → M unit).
Context (self owner : pid) (locks : gmap string pid) (gpu_id : string).
Hypothesis opens : open_lock_file kernel (lock_file gpu_id) = None.
Hypothesis held : locks !! lock_file gpu_id = Some owner.
Hypothesis by_another : owner ≠ self.
Hypothesis busy_is_EACCES : flock_busy_errno kernel = EACCES.

Lemma one_round (j : job) (fuel : nat) :
  j_pc j = LoopHead →
  pick_gpu host (w_opt (j_world j)) = Ok gpu_id →
  run_alone host kernel sim (S (S fuel)) self locks j
  = run_alone host kernel sim fuel self locks
      (with_pc LoopHead
         (traced [OpenAppend (lock_file gpu_id) None;
                  FlockEx (lock_file gpu_id) false;
                  CloseFile (lock_file gpu_id); Sleep (1 # 10)]
            (with_file (Closed (lock_file gpu_id)) j))).
Proof.
  intros Hpc Hpick.
  rewrite run_alone_step by (rewrite Hpc; done).
  rewrite (busy_lock_sleeps host kernel sim self owner locks j gpu_id)
    by done.
  cbn [fst snd].
  rewrite run_alone_step by done.
  assert (Hb : ∀ j', j_pc j' = Backoff →
               step_job host kernel sim self locks j'
               = (locks, with_pc LoopHead (traced [Sleep (1 # 10)] j'))).
  { intros j' H. unfold step_job. by rewrite H. }
  rewrite Hb by done. cbn [fst snd].
  f_equal. destruct j as [pc0 file0 world0 data0 trace0].
  cbv [with_pc traced with_file j_pc j_file j_world j_mdData j_trace].
  by rewrite <- !app_assoc.
Qed.
End Waiting.

(** X5.  The wrapper has no bound on its wait: a job whose device is locked by
    another process, on a kernel that reports the busy lock as [EACCES], is
    back at the head of the loop after every round of open, failed lock,
    close and a sleep of a tenth of a second, with the same world and the
    same device, for as many rounds as the lock is held; the lock table is
    not touched and the stage is not started. *)
Theorem held_device_is_waited_for
    (host : Host) (kernel : Kernel) (sim : MDData → M unit)
    (self owner : pid) (locks : gmap string pid) (gpu_id : string)
    (rounds : nat) (j : job) :
  open_lock_file kernel (lock_file gpu_id) = None →
  locks !! lock_file gpu_id = Some owner →
  owner ≠ self →
  flock_busy_errno kernel = EACCES →
  j_pc j = LoopHead →
  pick_gpu host (w_opt (j_world j)) = Ok gpu_id →
  let out := run_alone host kernel sim (2 * rounds) self locks j in
  out.1 = locks
  ∧ j_pc out.2 = LoopHead
  ∧ j_world out.2 = j_world j
  ∧ j_trace out.2
    = (j_trace j
       ++ concat (replicate rounds
                    [OpenAppend (lock_file gpu_id) None;
                     FlockEx (lock_file gpu_id) false;
                     CloseFile (lock_file gpu_id); Sleep (1 # 10)]))%list.
Proof.
  intros Hopen Hheld Hother Herr. cbv zeta.
  revert j. induction rounds as [|n IH]; intros j Hpc Hpick.
  - cbn. by rewrite app_nil_r.
  - replace (2 * S n)%nat with (S (S (2 * n))) by lia.
    rewrite (one_round host kernel sim self owner locks gpu_id) by done.
    destruct (IH (with_pc LoopHead
                    (traced [OpenAppend (lock_file gpu_id) None;
                             FlockEx (lock_file gpu_id) false;
                             CloseFile (lock_file gpu_id); Sleep (1 # 10)]
                       (with_file (Closed (lock_file gpu_id)) j))))
      as (H1 & H2 & H3 & H4); [done|done|].
    rewrite H1, H2, H3, H4. repeat split; try done.
    cbn [replicate concat]. cbn [j_trace with_pc traced with_file].
    by rewrite <- !app_assoc.
Qed.

(** The job for system 2 that meets the lock of the job for system 0, on a
    kernel that answers [EACCES], for five rounds. *)
Lemma held_device_is_waited_for_witness :
  let j := enter two_gpus water_data (local_world 2 0) in
  let out := run_alone two_gpus fcntl_kernel (simulation_body reference_only two_gpus)
               (2 * 5) 1%nat {[ "/tmp/0.txt" := 0%nat ]} j in
  out.1 = {[ "/tmp/0.txt" := 0%nat ]}
  ∧ j_pc out.2 = LoopHead
  ∧ j_world out.2 = j_world j
  ∧ j_trace out.2
    = (j_trace j
       ++ concat (replicate 5
                    [OpenAppend (lock_file "0") None;
                     FlockEx (lock_file "0") false;
                     CloseFile (lock_file "0"); Sleep (1 # 10)]))%list.
Proof.
  apply (held_device_is_waited_for two_gpus fcntl_kernel
           (simulation_body reference_only two_gpus) 1%nat 0%nat
           {[ "/tmp/0.txt" := 0%nat ]} "0" 5
           (enter two_gpus water_data (local_world 2 0)));
    try (vm_compute; reflexivity).
  vm_compute. discriminate.
Defined.

(** ** The stage cubes behind the arbiter *)

Lemma sd_pairs_other (tags : list string) (sd : list (string * string))
    (key : string) :
  key ∉ tags → sd_pairs tags sd !! key = None.
Proof.
  intros Hkey. unfold sd_pairs.
  assert (H : ∀ d : gmap string pyval, d !! key = None →
              foldl (λ d p, if bool_decide (p.1 ∈ tags)
                            then <[p.1 := PStr p.2]> d else d) d sd !! key = None).
  { induction sd as [|[tag value] sd IH]; intros d Hd; [done|].
    cbn [foldl]. apply IH. cbn.
    destruct (bool_decide (tag ∈ tags)) eqn:E; [|done].
    apply bool_decide_eq_true in E.
    rewrite lookup_insert_ne; [done|]. intros ->. done. }
  by apply H.
Qed.

(** X6.  The update of the parameters from the SD data of the system changes
    the overridable keys only ([temperature], and [pressure] for the NPT
    cube): every other key of [opt] keeps its value, whatever the tags and
    values of the SD data are. *)
Theorem sd_overrides_other
    (float_of_string : string → option Q) (k : cube_kind) (system : OEMol)
    (opt : gmap string pyval) (key : string) :
  key ∉ override_tags k →
  sd_overrides float_of_string k system opt !! key = opt !! key.
Proof.
  intros Hkey. unfold sd_overrides.
  destruct (bool_decide _); [done|].
  rewrite lookup_union_r; [done|].
  rewrite lookup_fmap. by rewrite sd_pairs_other.
Qed.

(** The NVT cube and a system tagged with a pressure and a temperature. *)
Lemma sd_overrides_other_witness :
  sd_overrides decimal_float NvtCube
               (water_mol [("pressure", "2.0"); ("temperature", "310")]) nvt_args
    !! "pressure"
  = nvt_args !! "pressure".
Proof.
  apply (sd_overrides_other decimal_float NvtCube
           (water_mol [("pressure", "2.0"); ("temperature", "310")]) nvt_args
           "pressure").
  apply (bool_decide_unpack _). vm_compute. exact I.
Defined.

(** The wrapper on an option dictionary without [system_id]: the device
    cannot be picked, and the [KeyError] leaves the wrapper at once. *)
Lemma simulation_without_system_id
    (mm : OpenMM) (host : Host) (kernel : Kernel) (fuel : nat) (self : pid)
    (locks : gmap string pid) (mdData : MDData) (w : world) :
  arbitrated host = true →
  w_opt w !! "system_id" = None →
  simulation mm host kernel (S fuel) self locks mdData w
  = Some (Raise (KeyError "system_id"),
          add_log (LWarn, "LOCAL FLOE CLUSTER OPTION IN USE", []) w).
Proof.
  intros Harb Hid. unfold simulation, enter. rewrite Harb.
  cbn [run_alone j_pc step_job j_world w_opt add_log].
  unfold pick_gpu, getitem. rewrite Hid. cbn.
  destruct fuel; cbn; done.
Qed.

Section BehindTheArbiter.
Context (float_of_string : string → option Q).
Context (mm : OpenMM) (host : Host) (kernel : Kernel).
Context (fuel : nat) (self : pid) (locks : gmap string pid).
Context (upload read_text : string → string).
Context (k : cube_kind) (self_opt : gmap string pyval) (σ : cube_state).
Hypothesis local_host : arbitrated host = true.
Hypothesis no_system_id : self_opt !! "system_id" = None.

Let no_id (σ1 : cube_state) : Prop :=
  w_opt (cs_world σ1) !! "system_id" = None
  ∧ cs_success σ1 = cs_success σ.

Let quiet_end {A} (r : res A) (σ1 : cube_state) : Prop :=
  cs_success σ1 = cs_success σ.

Lemma wpC_no_id {A B} (c : M A) (kont : A → C B) σ1
    (Q : res B → cube_state → Prop) :
  (∀ w, w_opt w !! "system_id" = None → w_opt (c w).2 !! "system_id" = None) →
  no_id σ1 →
  (∀ a σ2, no_id σ2 → wpC (kont a) σ2 Q) →
  (∀ e σ2, no_id σ2 → Q (Raise e) σ2) →
  wpC (in_world c ≫= kont) σ1 Q.
Proof.
  intros Hc [H1 H2] Hk He r σ'. rewrite C_bind_unfold. unfold in_world.
  specialize (Hc (cs_world σ1) H1).
  destruct (c (cs_world σ1)) as [[a|e] w1]; cbn in Hc.
  - apply Hk. by split.
  - intros [= <- <-]. apply He. by split.
Qed.

Lemma wpC_no_id_last {A} (c : M A) σ1 (Q : res A → cube_state → Prop) :
  (∀ w, w_opt w !! "system_id" = None → w_opt (c w).2 !! "system_id" = None) →
  no_id σ1 →
  (∀ r σ2, no_id σ2 → Q r σ2) →
  wpC (in_world c) σ1 Q.
Proof.
  intros Hc [H1 H2] HQ r σ'. unfold in_world.
  specialize (Hc (cs_world σ1) H1).
  destruct (c (cs_world σ1)) as [r1 w1]. intros [= <- <-]. apply HQ. by split.
Qed.

Lemma wpC_opt_modify {B} (f : gmap string pyval → gmap string pyval)
    (kont : unit → C B) σ1 (Q : res B → cube_state → Prop) :
  wpC (kont tt) (with_cs_world (set_opt f (cs_world σ1)) σ1) Q →
  wpC (in_world (opt_modify f) ≫= kont) σ1 Q.
Proof. intros H r σ'. rewrite C_bind_unfold. apply H. Qed.

Lemma update_parameters_no_id (system : loc) (w : world) :
  w_opt w !! "system_id" = None →
  w_opt (update_parameters float_of_string k system w).2 !! "system_id" = None.
Proof.
  intros Hw. unfold update_parameters. rewrite M_bind_unfold. unfold mol_value.
  destruct (w_mols w !! system) as [m|]; [|done].
  destruct (bool_decide _); [done|].
  rewrite M_bind_unfold. cbn.
  rewrite sd_overrides_other; [done|].
  destruct k; cbn; rewrite ?elem_of_cons, elem_of_nil;
    intros H; repeat destruct H as [H|H]; done.
Qed.

Lemma set_outfname_no_id (system_id : pyval) (w : world) :
  w_opt w !! "system_id" = None →
  w_opt (set_outfname self_opt system_id w).2 !! "system_id" = None.
Proof.
  intros Hw. unfold set_outfname. rewrite M_bind_unfold. unfold lift.
  destruct (getitem self_opt "suffix"); [|done].
  cbn. by rewrite lookup_insert_ne.
Qed.

Lemma MDData_of_no_id (l : loc) (w : world) :
  w_opt w !! "system_id" = None →
  w_opt (MDData_of l w).2 !! "system_id" = None.
Proof.
  intros Hw. unfold MDData_of. rewrite M_bind_unfold. unfold struct_value.
  by destruct (w_structs w !! l).
Qed.

Lemma process_try_behind_the_arbiter :
  wpC (process_try float_of_string
         (simulation mm host kernel (S fuel) self locks) upload read_text
         k self_opt) σ quiet_end.
Proof.
  unfold process_try.
  (* opt = dict(self.opt) *)
  apply wpC_opt_modify.
  assert (H0 : no_id (with_cs_world (set_opt (λ _, self_opt) (cs_world σ)) σ)).
  { split; [exact no_system_id|done]. }
  wpc. wpc. cbn [cs_record with_cs_world].
  destruct (f_primary_molecule (cs_record σ)) as [primary|].
  2:{ wpc; [|done]. wpc. done. }
  apply (wpC_no_id (new_mol primary)); [done|exact H0| |by intros ? ? [_ ?]].
  intros system0 σ1 H1.
  wpc.
  assert (Hid : ∀ (Q : res pyval → cube_state → Prop),
             (∀ v σ2, no_id σ2 → Q (Ok v) σ2) →
             (∀ e σ2, no_id σ2 → Q (Raise e) σ2) →
             wpC match f_id (cs_record σ) with
                 | Some z => mret (PInt z)
                 | None =>
                     in_world (log LWarn "Missing molecule ID '{}' field" [])
                     ≫= λ _ : (), mret (PStr (m_title primary))
                 end σ1 Q).
  { intros Q HQ HE. destruct (f_id (cs_record σ)).
    - wpc. by apply HQ.
    - apply (wpC_no_id (log _ _ _)); [done|exact H1| |exact HE].
      intros _ σ2 H2. wpc. by apply HQ. }
  apply Hid; [|by intros ? ? [_ ?]]. intros system_id σ2 H2.
  wpc.
  assert (Hst : ∀ (Q : res unit → cube_state → Prop),
             (∀ σ3, no_id σ3 → Q (Ok tt) σ3) →
             (∀ e σ3, no_id σ3 → Q (Raise e) σ3) →
             wpC match f_md_stages (cs_record σ) with
                 | Some _ => mret ()
                 | None =>
                     in_world (log LWarn "Missing '{}' field" [])
                     ≫= λ _ : (), emit_failure
                 end σ2 Q).
  { intros Q HQ HE. destruct (f_md_stages (cs_record σ)).
    - wpc. by apply HQ.
    - apply (wpC_no_id (log _ _ _)); [done|exact H2| |exact HE].
      intros _ σ3 [H3 H3']. wpc. apply HQ. by split. }
  apply Hst; [|by intros ? ? [_ ?]]. intros σ3 H3.
  wpc.
  destruct (f_md_stages (cs_record σ)) as [stages|]; [|wpc; by destruct H3].
  wpc. wpc.
  destruct (last stages) as [md_stage_record|]; [|wpc; by destruct H3].
  wpc.
  apply (wpC_no_id (new_mol _)); [done|exact H3| |by intros ? ? [_ ?]].
  intros system σ4 H4.
  apply (wpC_no_id (new_struct _)); [done|exact H4| |by intros ? ? [_ ?]].
  intros parmed_structure σ5 H5.
  apply (wpC_no_id (update_parameters _ _ _));
    [apply update_parameters_no_id|exact H5| |by intros ? ? [_ ?]].
  intros _ σ6 H6.
  wpc.
  assert (Hout : ∀ (Q : res unit → cube_state → Prop),
             (∀ σ7, no_id σ7 → Q (Ok tt) σ7) →
             (∀ e σ7, no_id σ7 → Q (Raise e) σ7) →
             wpC match k with
                 | MinimizeCube => mret ()
                 | _ => in_world (set_outfname self_opt system_id)
                 end σ6 Q).
  { intros Q HQ HE.
    destruct k; [wpc; by apply HQ| |];
      (apply wpC_no_id_last; [apply set_outfname_no_id|exact H6|]);
      intros [[]|e] σ7 H7; auto. }
  apply Hout; [|by intros ? ? [_ ?]]. intros σ7 H7.
  apply (wpC_no_id (MDData_of _)); [apply MDData_of_no_id|exact H7| |by intros ? ? [_ ?]].
  intros mdData σ8 H8.
  apply (wpC_no_id (opt_put _ _)).
  { intros w Hw. cbn. by rewrite lookup_insert_ne. }
  { exact H8. }
  2:{ by intros ? ? [_ ?]. }
  intros _ σ9 H9.
  apply (wpC_no_id (opt_put _ _)).
  { intros w Hw. cbn. by rewrite lookup_insert_ne. }
  { exact H9. }
  2:{ by intros ? ? [_ ?]. }
  intros _ σ10 H10.
  apply (wpC_no_id (log _ _ _)); [done|exact H10| |by intros ? ? [_ ?]].
  intros _ σ11 [H11 H11'].
  (* the stage call *)
  intros r σ'. rewrite C_bind_unfold. unfold in_world_partial.
  rewrite (simulation_without_system_id mm host kernel fuel self locks mdData
             (cs_world σ11) local_host H11).
  intros [= <- <-]. exact H11'.
Qed.
End BehindTheArbiter.

(** X7.  On a local host with visible devices the stage cubes cannot succeed with
    an option dictionary that has no [system_id] (none of their parameters
    has that name, and the SD tags cannot add it): whatever the record, a
    [process] call that comes back has put nothing on the success port. *)
Theorem cubes_fail_behind_the_arbiter
    (float_of_string : string → option Q)
    (mm : OpenMM) (host : Host) (kernel : Kernel)
    (fuel : nat) (self : pid) (locks : gmap string pid)
    (upload read_text : string → string)
    (k : cube_kind) (self_opt : gmap string pyval)
    (σ σ' : cube_state) (r : res unit) :
  arbitrated host = true →
  self_opt !! "system_id" = None →
  process float_of_string (simulation mm host kernel (S fuel) self locks)
          upload read_text k self_opt σ = Some (r, σ') →
  cs_success σ' = cs_success σ.
Proof.
  intros Harb Hid. revert r σ'.
  change (wpC (process float_of_string (simulation mm host kernel (S fuel) self locks)
                 upload read_text k self_opt) σ
              (λ _ σ', cs_success σ' = cs_success σ)).
  unfold process. apply wpC_try_except.
  intros r σ1 Htry.
  pose proof (process_try_behind_the_arbiter float_of_string mm host kernel fuel
                self locks upload read_text k self_opt σ Harb Hid r σ1 Htry) as H.
  cbv beta in H.
  destruct r as [[]|e]; [exact H|].
  wpc; [|done]. wpc. done.
Qed.

(** The NVT cube with its defaults on the host with two devices: the call
    comes back, and the record is on the failure port. *)
Lemma cubes_fail_behind_the_arbiter_witness :
  (λ x, (x.1, cs_failure x.2)) <$> local_nvt_run
  = Some (Ok tt, [after_setup []])
  ∧ ∀ r σ', local_nvt_run = Some (r, σ') →
            cs_success σ' = cs_success (cube_start (after_setup [])).
Proof.
  split; [vm_compute; reflexivity|].
  intros r σ' Hrun.
  apply (cubes_fail_behind_the_arbiter decimal_float reference_only two_gpus
           flock_kernel 7 0%nat ∅ id (fun _ => "") NvtCube nvt_args
           (cube_start (after_setup [])) σ' r).
  - reflexivity.
  - reflexivity.
  - exact Hrun.
Defined.

(** ** The stage cubes: what is emitted *)

(** X8.  A record without a primary molecule: the stage is not called, the record
    goes once to the failure port as it came, and [process] returns. *)
Theorem no_molecule_no_stage
    (float_of_string : string → option Q)
    (stage_call : MDData → world → option (res unit * world))
    (upload read_text : string → string)
    (k : cube_kind) (self_opt : gmap string pyval) (σ : cube_state) :
  f_primary_molecule (cs_record σ) = None →
  process float_of_string stage_call upload read_text k self_opt σ
  = Some (Ok tt,
          {| cs_world := add_log (LWarn, "Missing molecule '{}' field", [])
                                 (set_opt (λ _, self_opt) (cs_world σ));
             cs_record := cs_record σ;
             cs_success := cs_success σ;
             cs_failure := cs_failure σ ++ [cs_record σ] |}).
Proof.
  intros Hmol. destruct σ as [w r succ fail]. cbn in Hmol.
  unfold process, try_except, process_try.
  repeat (rewrite C_bind_unfold; cbn). rewrite Hmol.
  repeat (rewrite C_bind_unfold; cbn). done.
Qed.

Lemma no_molecule_no_stage_witness :
  process decimal_float (fun _ _ => None) id (fun _ => "") NptCube
          (begin NptCube ∅) (cube_start bare_record)
  = Some (Ok tt,
          {| cs_world := add_log (LWarn, "Missing molecule '{}' field", [])
                                 (set_opt (λ _, begin NptCube ∅) empty_world);
             cs_record := bare_record;
             cs_success := [];
             cs_failure := [bare_record] |}).
Proof.
  apply (no_molecule_no_stage decimal_float (fun _ _ => None) id (fun _ => "")
           NptCube (begin NptCube ∅) (cube_start bare_record)).
  reflexivity.
Defined.

(** X9.  A record whose list of stages is there but empty: [md_stages[-1]]
    raises, the stage is not called, and the record goes once to the failure
    port as it came. *)
Theorem empty_history_fails_once
    (float_of_string : string → option Q)
    (stage_call : MDData → world → option (res unit * world))
    (upload read_text : string → string)
    (k : cube_kind) (self_opt : gmap string pyval) (σ : cube_state)
    (mol : OEMol) :
  f_primary_molecule (cs_record σ) = Some mol →
  f_md_stages (cs_record σ) = Some [] →
  ∃ σ', process float_of_string stage_call upload read_text k self_opt σ
        = Some (Ok tt, σ')
        ∧ cs_failure σ' = (cs_failure σ ++ [cs_record σ])%list
        ∧ cs_success σ' = cs_success σ
        ∧ cs_record σ' = cs_record σ
        ∧ w_mm (cs_world σ') = w_mm (cs_world σ).
Proof.
  intros Hmol Hst. destruct σ as [w r succ fail]. cbn in Hmol, Hst.
  unfold process, try_except, process_try.
  repeat (rewrite C_bind_unfold; cbn). rewrite Hmol.
  repeat (rewrite C_bind_unfold; cbn).
  destruct (f_id r); repeat (rewrite C_bind_unfold; cbn); rewrite Hst;
    repeat (rewrite C_bind_unfold; cbn);
    eexists; (split; [reflexivity|]); cbn; done.
Qed.

Lemma empty_history_fails_once_witness :
  ∃ σ', process decimal_float orion_call id (fun _ => "") NvtCube nvt_args
                (cube_start no_stage_yet)
        = Some (Ok tt, σ')
        ∧ cs_failure σ' = [no_stage_yet]
        ∧ cs_success σ' = []
        ∧ cs_record σ' = no_stage_yet
        ∧ w_mm (cs_world σ') = [].
Proof.
  apply (empty_history_fails_once decimal_float orion_call id (fun _ => "")
           NvtCube nvt_args (cube_start no_stage_yet) (water_mol []));
    reflexivity.
Defined.

(** ** Durations and step counts *)

Lemma py_round_eq (x y : Q) : (x == y)%Q → py_round x = py_round y.
Proof.
  intros H. unfold py_round.
  rewrite (Qfloor_comp _ _ H).
  assert (E : ((x - inject_Z (Qfloor y) ?= 1 # 2) = (y - inject_Z (Qfloor y) ?= 1 # 2))%Q)
    by (by rewrite H).
  by rewrite E.
Qed.


(** [round] is within one half of its argument. *)
Lemma py_round_near (x : Q) :
  (inject_Z (py_round x) - (1 # 2) <= x ∧ x <= inject_Z (py_round x) + (1 # 2))%Q.
Proof.
  unfold py_round.
  pose proof (Qfloor_le x) as Hlo.
  pose proof (Qlt_floor x) as Hhi.
  rewrite inject_Z_plus in Hhi. change (inject_Z 1) with 1%Q in Hhi.
  destruct (Qcompare_spec (x - inject_Z (Qfloor x)) (1 # 2)) as [E|E|E];
    [destruct (Z.even (Qfloor x))| |];
    rewrite ?inject_Z_plus; change (inject_Z 1) with 1%Q; lra.
Qed.

(** A value less than one half away from an integer rounds to it. *)
Lemma py_round_unique (x : Q) (n : Z) :
  (inject_Z n - (1 # 2) < x)%Q → (x < inject_Z n + (1 # 2))%Q → py_round x = n.
Proof.
  intros Hlo Hhi.
  destruct (py_round_near x) as [H1 H2].
  assert (Ha : (inject_Z (py_round x) < inject_Z n + 1)%Q) by lra.
  assert (Hb : (inject_Z n < inject_Z (py_round x) + 1)%Q) by lra.
  change 1%Q with (inject_Z 1) in Ha, Hb.
  rewrite <- inject_Z_plus in Ha, Hb.
  rewrite <- Zlt_Qlt in Ha, Hb. lia.
Qed.

Lemma time_to_steps_ps (t q : Q) :
  time_to_steps t q picoseconds = py_round (t / (q / 1000)).
Proof.
  unfold time_to_steps. apply py_round_eq.
  by rewrite in_nanoseconds_ps.
Qed.





(** ** Reporters of a short interval *)

Lemma time_to_steps_short (ri q : Q) :
  (0 < q)%Q → (0 <= ri)%Q → (ri < (q / 1000) / 2)%Q →
  time_to_steps ri q picoseconds = 0.
Proof.
  intros Hq Hri Hshort. rewrite time_to_steps_ps.
  assert (Hd : (0 < q / 1000)%Q) by (apply Qlt_shift_div_l; lra).
  set (d := (q / 1000)%Q) in *.
  assert (Hx : (d / 2 == (1 # 2) * d)%Q) by field.
  rewrite Hx in Hshort.
  assert (Hlo : (0 <= ri / d)%Q) by (apply Qle_shift_div_l; lra).
  assert (Hhi : (ri / d < 1 # 2)%Q) by (apply Qlt_shift_div_r; lra).
  apply py_round_unique; change (inject_Z 0) with 0%Q; lra.
Qed.

(** X13.  A scalar-log interval that is not zero but shorter than half a
    timestep does not switch the channel off: both reporters of the log are
    built, with a step interval of 0. *)
Theorem short_interval_reports_every_zero_steps
    (fopen : string → option Z) (kw : gmap string pyval)
    (name : string) (steps : pyval) (q ri ti : Q) :
  kw !! "totalSteps" = None →
  kw !! "outfname" = Some (PStr name) →
  kw !! "steps" = Some steps →
  kw !! "timestep" = Some (PQuantity q picoseconds) →
  kw !! "reporter_interval" = Some (PFloat ri) →
  kw !! "trajectory_interval" = Some (PFloat ti) →
  fopen (name +:+ ".log") = None →
  (Qeq_bool ti 0 = false → fopen (name +:+ ".h5") = None) →
  (0 < q)%Q → (0 < ri)%Q → (ri < (q / 1000) / 2)%Q →
  ∃ trajectory,
    getReporters fopen kw
    = Ok ([StateDataReporter (ToFile (name +:+ ".log")) 0 None;
           StateDataReporter ToStdout 0 (Some steps)] ++ trajectory)%list.
Proof.
  intros H1 H2 H3 H4 H5 H6 Hlog Hh5 Hq Hri Hshort.
  exists (trajectory_channel name q picoseconds ti).
  rewrite (getReporters_eq fopen kw name steps q picoseconds H1 H2 H3 H4 ri ti H5 H6
             (λ _, Hlog) Hh5).
  unfold log_channel.
  assert (E : Qeq_bool ri 0 = false).
  { apply not_true_is_false. intros E. apply Qeq_bool_eq in E. lra. }
  rewrite E. rewrite time_to_steps_short by lra. done.
Qed.

(** The NVT defaults with a scalar log every 1e-7. *)
Lemma short_interval_reports_every_zero_steps_witness :
  ∃ trajectory,
    getReporters (fun _ => None)
                 (<["reporter_interval" := PFloat (1 # 10000000)]>
                  (<["steps" := PInt 5000000]>
                   (<["timestep" := PQuantity (2 # 1000) picoseconds]>
                    (w_opt nvt_world))))
    = Ok ([StateDataReporter (ToFile "1-nvt.log") 0 None;
           StateDataReporter ToStdout 0 (Some (PInt 5000000))] ++ trajectory)%list.
Proof.
  apply (short_interval_reports_every_zero_steps
           (fun _ => None)
           (<["reporter_interval" := PFloat (1 # 10000000)]>
            (<["steps" := PInt 5000000]>
             (<["timestep" := PQuantity (2 # 1000) picoseconds]>
              (w_opt nvt_world))))
           "1-nvt" (PInt 5000000) (2 # 1000) (1 # 10000000) (1 # 2));
    try (vm_compute; reflexivity).
Defined.

(** ** Footprints *)

Lemma within_refl (fp : footprint) (w : world) : within fp w w.
Proof.
  repeat split; try done. exists []. by rewrite app_nil_r.
Qed.

Lemma stays_bind {A B} fp w0 (c : M A) (k : A → M B) :
  stays fp w0 c → (∀ a, stays fp w0 (k a)) → stays fp w0 (c ≫= k).
Proof.
  intros Hc Hk w Hw. rewrite M_bind_unfold.
  specialize (Hc w Hw).
  destruct (c w) as [[a|e] w1]; cbn in Hc; [|exact Hc].
  by apply Hk.
Qed.

Lemma stays_mret {A} fp w0 (a : A) : stays fp w0 (mret a).
Proof. by intros w Hw. Qed.
Lemma stays_raise {A} fp w0 (e : exn) : stays fp w0 (@raise A e).
Proof. by intros w Hw. Qed.
Lemma stays_lift {A} fp w0 (r : res A) : stays fp w0 (lift r).
Proof. by intros w Hw. Qed.
Lemma stays_opt_get fp w0 k : stays fp w0 (opt_get k).
Proof. by intros w Hw. Qed.
Lemma stays_opt_has fp w0 k : stays fp w0 (opt_has k).
Proof. by intros w Hw. Qed.
Lemma stays_log fp w0 l m a : stays fp w0 (log l m a).
Proof. by intros w Hw. Qed.
Lemma stays_reporters fp w0 mm : stays fp w0 (reporters_of_opt mm).
Proof. by intros w Hw. Qed.

Lemma stays_opt_put fp w0 k v : k ∈ fp_keys fp → stays fp w0 (opt_put k v).
Proof.
  intros Hk w (H1 & H2 & H3 & H4). repeat split; try done.
  intros k' Hk'. cbn. rewrite lookup_insert_ne; [by apply H1|].
  intros ->. done.
Qed.

Lemma stays_call fp w0 c : fp_calls fp c = true → stays fp w0 (call c).
Proof.
  intros Hc w (H1 & (added & H2 & Hall) & H3 & H4). repeat split; try done.
  exists (added ++ [c])%list. cbn. rewrite H2, <- app_assoc. split; [done|].
  rewrite forallb_app, Hall. cbn. by rewrite Hc.
Qed.

Lemma stays_calls fp w0 cs :
  forallb (fp_calls fp) cs = true → stays fp w0 (calls cs).
Proof.
  intros Hcs w (H1 & (added & H2 & Hall) & H3 & H4).
  unfold calls. cbn [snd].
  assert (E : ∀ w1 : world,
             w_opt (foldl (λ w c, add_call c w) w1 cs) = w_opt w1
             ∧ w_structs (foldl (λ w c, add_call c w) w1 cs) = w_structs w1
             ∧ w_mols (foldl (λ w c, add_call c w) w1 cs) = w_mols w1).
  { clear. induction cs as [|c cs IH]; intros w1; [done|]. cbn.
    destruct (IH (add_call c w1)) as (-> & -> & ->). done. }
  destruct (E w) as (E1 & E2 & E3).
  repeat split.
  - intros k Hk. rewrite E1. by apply H1.
  - exists (added ++ cs)%list. rewrite w_mm_calls, H2, <- app_assoc.
    split; [done|]. by rewrite forallb_app, Hall, Hcs.
  - intros l Hl. rewrite E2. by apply H3.
  - intros l Hl. rewrite E3. by apply H4.
Qed.

Lemma stays_structure_at fp w0 l : stays fp w0 (structure_at l).
Proof. intros w Hw. unfold structure_at. by destruct (w_structs w !! l). Qed.

Lemma stays_update_structure fp w0 l f :
  l ∈ fp_structs fp → stays fp w0 (update_structure l f).
Proof.
  intros Hl w Hw. unfold update_structure.
  destruct (w_structs w !! l) as [s|]; [|done].
  destruct Hw as (H1 & H2 & H3 & H4). repeat split; try done.
  intros l' Hl'. cbn. rewrite lookup_insert_ne; [by apply H3|].
  intros ->. done.
Qed.

Lemma stays_update_mol fp w0 l f :
  l ∈ fp_mols fp → stays fp w0 (update_mol l f).
Proof.
  intros Hl w Hw. unfold update_mol.
  destruct (w_mols w !! l) as [s|]; [|done].
  destruct Hw as (H1 & H2 & H3 & H4). repeat split; try done.
  intros l' Hl'. cbn. rewrite lookup_insert_ne; [by apply H4|].
  intros ->. done.
Qed.

(** Reading a key that the footprint protects gives the value of [w0]. *)
Lemma stays_bind_key {B} fp w0 key (k : pyval → M B) :
  key ∉ fp_keys fp →
  (∀ v, w_opt w0 !! key = Some v → stays fp w0 (k v)) →
  stays fp w0 (opt_get key ≫= k).
Proof.
  intros Hkey Hk w Hw. rewrite M_bind_unfold. unfold opt_get, getitem.
  destruct (w_opt w !! key) as [v|] eqn:E; [|done].
  apply Hk; [|done]. destruct Hw as (H1 & _). by rewrite <- H1.
Qed.

Lemma stays_bind_has {B} fp w0 key (k : bool → M B) :
  key ∉ fp_keys fp →
  stays fp w0 (k (bool_decide (is_Some (w_opt w0 !! key)))) →
  stays fp w0 (opt_has key ≫= k).
Proof.
  intros Hkey Hk w Hw. rewrite M_bind_unfold. unfold opt_has.
  destruct Hw as (H1 & Hrest). rewrite (H1 key Hkey).
  apply Hk. by split.
Qed.

Ltac stays_step :=
  lazymatch goal with
  | |- stays _ _ (_ ≫= _) => apply stays_bind; [|intros ?]
  | |- stays _ _ (mret _) => apply stays_mret
  | |- stays _ _ (raise _) => apply stays_raise
  | |- stays _ _ (lift _) => apply stays_lift
  | |- stays _ _ (opt_get _) => apply stays_opt_get
  | |- stays _ _ (opt_has _) => apply stays_opt_has
  | |- stays _ _ (log _ _ _) => apply stays_log
  | |- stays _ _ (reporters_of_opt _) => apply stays_reporters
  | |- stays _ _ (opt_put _ _) =>
      apply stays_opt_put; apply (bool_decide_unpack _); vm_compute; exact I
  | |- stays _ _ (call _) =>
      apply stays_call; first [reflexivity | solve [auto]]
  | |- stays _ _ (structure_at _) => apply stays_structure_at
  | |- stays _ _ (update_structure _ _) =>
      apply stays_update_structure;
      first [assumption | cbn; rewrite ?elem_of_cons; tauto]
  | |- stays _ _ (when ?b _) => unfold when; destruct b
  | |- stays _ _ (if ?b then _ else _) => destruct b
  | |- stays _ _ (match ?x with _ => _ end) => destruct x
  | |- stays _ _ (let _ := _ in _) => cbv zeta
  end.

Section StageFootprint.
Context (mm : OpenMM) (host : Host) (fp : footprint) (w0 : world).

Lemma stays_mol_at v : stays fp w0 (mol_at v).
Proof. unfold mol_at. repeat stays_step. Qed.
Lemma stays_opt_float k : stays fp w0 (opt_float k).
Proof. unfold opt_float. repeat stays_step. Qed.
End StageFootprint.

Lemma stays_bind_mol_at {B} fp w0 (v : pyval) (k : loc → M B) :
  (∀ l, v = PMol l → stays fp w0 (k l)) →
  stays fp w0 (mol_at v ≫= k).
Proof.
  intros Hk w Hw. rewrite M_bind_unfold. unfold mol_at.
  destruct v; try done. cbn. by apply Hk.
Qed.

Lemma forallb_any_call (cs : list mm_call) : forallb any_call cs = true.
Proof. by induction cs. Qed.

Ltac not_a_key := apply (bool_decide_unpack _); vm_compute; exact I.

(** One more step, keeping what [opt['molecule']] and [opt['SimType']]
    were at the start. *)
Ltac stays_read :=
  lazymatch goal with
  | |- stays _ _ (opt_get "molecule" ≫= _) =>
      apply stays_bind_key; [not_a_key|intros ? ?]
  | |- stays _ _ (opt_get "SimType" ≫= _) =>
      apply stays_bind_key; [not_a_key|intros ? ?]
  | |- stays _ _ (opt_get "platform" ≫= _) =>
      apply stays_bind_key; [not_a_key|intros ? ?]
  | |- stays _ _ (opt_has "gpu_id" ≫= _) =>
      apply stays_bind_has; [not_a_key|]
  | |- stays _ _ (mol_at _ ≫= _) =>
      apply stays_bind_mol_at; intros ? ?
  end.

Lemma forallb_map_allowed {A} (P : mm_call → bool) (f : A → mm_call) (l : list A) :
  (∀ x, P (f x) = true) → forallb P (map f l) = true.
Proof. intros H. induction l as [|x l IH]; [done|]. cbn. by rewrite H, IH. Qed.

(** The parts of the stage that make the same calls whatever the system is,
    for a footprint that allows these calls. *)
Section Parts.
Context (mm : OpenMM) (host : Host) (mdData : MDData).
Context (fp : footprint) (w0 : world).
Hypothesis structure_in : md_structure mdData ∈ fp_structs fp.
Hypothesis allow_platform : ∀ n b, fp_calls fp (GetPlatformByName n b) = true.
Hypothesis allow_context : ∀ p props b, fp_calls fp (NewSimulation p props b) = true.
Hypothesis allow_force : ∀ wt l, fp_calls fp (CustomExternalForce wt l) = true.
Hypothesis allow_mass : ∀ idx m, fp_calls fp (SetParticleMass idx m) = true.

Lemma part_center : stays fp w0 (center_system mm mdData).
Proof. unfold center_system. repeat stays_step. Qed.
Lemma part_restraints p : stays fp w0 (apply_restraints mm p).
Proof. unfold apply_restraints, opt_float, mol_at. repeat stays_step. Qed.
Lemma part_freeze p : stays fp w0 (apply_freeze mm p).
Proof.
  unfold apply_freeze, mol_at.
  repeat first [apply stays_calls, forallb_map_allowed; intros; apply allow_mass
               | stays_step].
Qed.
Lemma part_auto_platform names : stays fp w0 (auto_platform mm names).
Proof. induction names as [|n names IH]; cbn; repeat stays_step. exact IH. Qed.
Lemma part_plain p : stays fp w0 (plain_simulation mm p).
Proof. unfold plain_simulation. repeat stays_step. Qed.
Lemma part_auto_precision p l : stays fp w0 (auto_precision mm host p l).
Proof.
  induction l as [|n l IH]; cbn; unfold auto_properties; repeat stays_step;
    exact IH.
Qed.
Lemma part_select : stays fp w0 (select_platform mm host).
Proof.
  unfold select_platform.
  repeat first [apply part_auto_platform | apply part_auto_precision
               | apply part_plain | stays_step].
Qed.
End Parts.

Ltac frame_step :=
  first [ stays_read
        | apply stays_calls, forallb_any_call
        | stays_step ].

Section Frame.
Context (mm : OpenMM) (host : Host) (mdData : MDData) (mols : list loc) (w0 : world).

Lemma frame_center : stays (stage_footprint mdData mols) w0 (center_system mm mdData).
Proof. unfold center_system. repeat frame_step. Qed.
Lemma frame_create : stays (stage_footprint mdData mols) w0 (create_system mdData).
Proof. unfold create_system, opt_float. repeat frame_step. Qed.
Lemma frame_restraints p : stays (stage_footprint mdData mols) w0 (apply_restraints mm p).
Proof. unfold apply_restraints, opt_float. repeat frame_step. Qed.
Lemma frame_freeze p : stays (stage_footprint mdData mols) w0 (apply_freeze mm p).
Proof. unfold apply_freeze. repeat frame_step. Qed.
Lemma frame_auto_platform names : stays (stage_footprint mdData mols) w0 (auto_platform mm names).
Proof. induction names as [|n names IH]; cbn; repeat frame_step. exact IH. Qed.
Lemma frame_auto_precision p l : stays (stage_footprint mdData mols) w0 (auto_precision mm host p l).
Proof.
  induction l as [|n l IH]; cbn; unfold auto_properties; repeat frame_step;
    exact IH.
Qed.
Lemma frame_select : stays (stage_footprint mdData mols) w0 (select_platform mm host).
Proof.
  unfold select_platform, plain_simulation.
  repeat first [apply frame_auto_platform | apply frame_auto_precision | frame_step].
Qed.
Lemma frame_seed v stepLen : stays (stage_footprint mdData mols) w0 (seed_and_schedule mm v stepLen).
Proof. unfold seed_and_schedule, opt_float. repeat frame_step. Qed.
Lemma frame_run_md ctx box : stays (stage_footprint mdData mols) w0 (run_md mm ctx box).
Proof. unfold run_md. repeat frame_step. Qed.
Lemma frame_run_min ctx : stays (stage_footprint mdData mols) w0 (run_min mm ctx).
Proof. unfold run_min, opt_float. repeat frame_step. Qed.

Lemma frame_body :
  mol_locs w0 ⊆ mols →
  stays (stage_footprint mdData mols) w0 (simulation_body mm host mdData).
Proof.
  intros Hmols.
  unfold simulation_body. cbv zeta.
  repeat first
    [ apply frame_center | apply frame_create | apply frame_restraints
    | apply frame_freeze | apply frame_select | apply frame_seed
    | apply frame_run_md | apply frame_run_min
    | apply stays_opt_float | frame_step ].
  apply stays_update_mol. cbn. apply Hmols. unfold mol_locs.
  match goal with H : w_opt w0 !! "molecule" = Some _ |- _ => rewrite H end.
  subst. apply list_elem_of_here.
Qed.
End Frame.

(** X14.  A stage assigns no key of [opt] but [timestep], [steps] and
    [str_logger], writes no structure but the one it was given, and no
    molecule but the one at [opt['molecule']]; this holds whether the stage
    runs to its end or raises on the way. *)
Theorem stage_keeps_its_footprint
    (mm : OpenMM) (host : Host) (mdData : MDData) (w : world) :
  let out := (simulation_body mm host mdData w).2 in
  (∀ k, k ∉ ["timestep"; "steps"; "str_logger"] → w_opt out !! k = w_opt w !! k)
  ∧ (∀ l, l ≠ md_structure mdData → w_structs out !! l = w_structs w !! l)
  ∧ (∀ l, w_opt w !! "molecule" ≠ Some (PMol l) → w_mols out !! l = w_mols w !! l).
Proof.
  cbv zeta.
  destruct (frame_body mm host mdData (mol_locs w) w (reflexivity _) w
              (within_refl _ w)) as (H1 & _ & H3 & H4).
  split; [exact H1|]. split.
  - intros l Hl. apply H3. cbn. rewrite list_elem_of_singleton. done.
  - intros l Hl. apply H4. cbn. unfold mol_locs.
    destruct (w_opt w !! "molecule") as [[]|] eqn:E;
      rewrite ?list_elem_of_singleton, ?elem_of_nil; try tauto.
    intros ->. done.
Qed.

(** ** A system without a box *)




(** ** A Minimize stage *)

Ltac known_simtype :=
  lazymatch goal with
  | Hmin : w_opt ?w0 !! "SimType" = Some (PStr "min"),
    H : w_opt ?w0 !! "SimType" = Some ?v |- _ =>
      rewrite Hmin in H; injection H as <-;
      change (is_md (PStr "min")) with false;
      change (is_str (PStr "min") "npt") with false;
      change (is_str (PStr "min") "min") with true;
      cbv iota
  end.

Lemma min_body (mm : OpenMM) (host : Host) (mdData : MDData) (w0 : world) :
  w_opt w0 !! "SimType" = Some (PStr "min") →
  stays (min_footprint mdData w0) w0 (simulation_body mm host mdData).
Proof.
  intros Hmin.
  unfold simulation_body, create_system, run_min, opt_float.
  cbv zeta.
  repeat first
    [ apply part_center; cbn; apply list_elem_of_here
    | apply part_restraints; intros; reflexivity
    | apply part_freeze; intros; reflexivity
    | apply part_select; intros; reflexivity
    | stays_read; try known_simtype
    | stays_step ].
  apply stays_update_mol. cbn. unfold mol_locs.
  match goal with H : w_opt w0 !! "molecule" = Some _ |- _ => rewrite H end.
  subst. apply list_elem_of_here.
Qed.

(** X16.  A stage of type [min] does not integrate: it sets no velocities,
    adds no barostat, attaches no reporter and makes no step, and it leaves
    [opt['steps']], its limit of iterations, as it was. *)
Theorem minimization_does_not_integrate
    (mm : OpenMM) (host : Host) (mdData : MDData) (w : world) :
  w_opt w !! "SimType" = Some (PStr "min") →
  let out := (simulation_body mm host mdData w).2 in
  (∃ added, w_mm out = (w_mm w ++ added)%list
            ∧ forallb static_call added = true)
  ∧ w_opt out !! "steps" = w_opt w !! "steps".
Proof.
  intros Hmin out. subst out.
  destruct (min_body mm host mdData w Hmin w (within_refl _ w))
    as (H1 & H2 & _).
  split; [exact H2|]. apply H1. not_a_key.
Qed.

(** The minimization of the water system. *)
Lemma minimization_does_not_integrate_witness :
  let out := (simulation_body reference_only orion restart_data min_world).2 in
  (∃ added, w_mm out = (w_mm min_world ++ added)%list
            ∧ forallb static_call added = true)
  ∧ w_opt out !! "steps" = w_opt min_world !! "steps".
Proof.
  apply (minimization_does_not_integrate reference_only orion restart_data min_world).
  reflexivity.
Defined.

(** ** Binding a context to a device *)

Lemma stays_bind_value {A B} fp w0 (c : M A) (a : A) (k : A → M B) :
  (∀ w, within fp w0 w → c w = (Ok a, w)) →
  stays fp w0 (k a) → stays fp w0 (c ≫= k).
Proof.
  intros Hc Hk w Hw. rewrite M_bind_unfold, (Hc w Hw). by apply Hk.
Qed.

Lemma is_str_true (v : pyval) (s : string) : is_str v s = true → v = PStr s.
Proof.
  destruct v; cbn; try discriminate.
  intros H. apply String.eqb_eq in H. by subst.
Qed.

Section Unpinned.
Context (mm : OpenMM) (host : Host) (mdData : MDData) (w0 : world).

(** Without a visible device list, in Orion, or without a leased device in
    [opt], the properties of [Auto] are the precision alone. *)
Lemma auto_properties_unpinned (precision : string) (w : world) :
  arbitrated host = false ∨ w_opt w !! "gpu_id" = None →
  auto_properties host precision w = (Ok [("Precision", precision)], w).
Proof.
  intros H. unfold auto_properties. rewrite M_bind_unfold. unfold opt_has.
  destruct H as [H|H].
  - unfold arbitrated in H.
    destruct (bool_decide (is_Some (w_opt w !! "gpu_id"))); [|done].
    rewrite andb_true_l. by rewrite H.
  - by rewrite H.
Qed.

Lemma unpinned_auto_precision (platform : string) (l : list string) :
  arbitrated host = false ∨ w_opt w0 !! "gpu_id" = None →
  stays (unpinned_footprint mdData w0) w0 (auto_precision mm host platform l).
Proof.
  intros H. induction l as [|precision l IH]; cbn; [apply stays_raise|].
  apply (stays_bind_value _ _ _ [("Precision", precision)]).
  { intros w (Hopt & _). apply auto_properties_unpinned.
    destruct H as [H|H]; [by left|right].
    rewrite Hopt; [done|not_a_key]. }
  repeat stays_step. exact IH.
Qed.

Lemma unpinned_select :
  arbitrated host = false ∨ w_opt w0 !! "gpu_id" = None
  ∨ w_opt w0 !! "platform" ≠ Some (PStr "Auto") →
  stays (unpinned_footprint mdData w0) w0 (select_platform mm host).
Proof.
  intros H. unfold select_platform, plain_simulation.
  apply stays_bind_key; [not_a_key|]. intros p Hp.
  destruct (is_str p "Auto") eqn:E.
  - apply is_str_true in E. subst p.
    assert (H' : arbitrated host = false ∨ w_opt w0 !! "gpu_id" = None).
    { destruct H as [H|[H|H]]; [by left|by right|done]. }
    repeat first
      [ apply part_auto_platform; intros; reflexivity
      | apply unpinned_auto_precision; exact H'
      | stays_step ].
  - repeat stays_step.
Qed.

Lemma unpinned_body :
  arbitrated host = false ∨ w_opt w0 !! "gpu_id" = None
  ∨ w_opt w0 !! "platform" ≠ Some (PStr "Auto") →
  stays (unpinned_footprint mdData w0) w0 (simulation_body mm host mdData).
Proof.
  intros H.
  unfold simulation_body, create_system, seed_and_schedule, run_md, run_min,
    opt_float.
  cbv zeta.
  repeat first
    [ apply part_center; cbn; apply list_elem_of_here
    | apply part_restraints; intros; reflexivity
    | apply part_freeze; intros; reflexivity
    | apply unpinned_select; exact H
    | apply stays_calls, forallb_map_allowed; intros; reflexivity
    | stays_read
    | stays_step ].
  apply stays_update_mol. cbn. unfold mol_locs.
  match goal with H : w_opt w0 !! "molecule" = Some _ |- _ => rewrite H end.
  subst. apply list_elem_of_here.
Qed.
End Unpinned.

(** X17.  No context of a stage is bound to a device unless the platform is
    [Auto], the host has a visible device list outside Orion, and [opt] has
    a [gpu_id]: in Orion, without a leased device, or with a platform that
    was asked for by name, [DeviceIndex] is not among the properties of any
    context that the stage builds. *)
Theorem device_is_bound_under_auto_only
    (mm : OpenMM) (host : Host) (mdData : MDData) (w : world) :
  arbitrated host = false ∨ w_opt w !! "gpu_id" = None
  ∨ w_opt w !! "platform" ≠ Some (PStr "Auto") →
  ∃ added,
    w_mm (simulation_body mm host mdData w).2 = (w_mm w ++ added)%list
    ∧ forallb no_device_index added = true.
Proof.
  intros H.
  by destruct (unpinned_body mm host mdData w H w (within_refl _ w))
    as (_ & H2 & _).
Qed.

(** The job that has the lease on device 1 and asks for CUDA by name. *)
Lemma device_is_bound_under_auto_only_witness :
  ∃ added,
    w_mm (simulation_body cuda_installation two_gpus water_data
            (leased_world "CUDA")).2
    = (w_mm (leased_world "CUDA") ++ added)%list
    ∧ forallb no_device_index added = true.
Proof.
  apply (device_is_bound_under_auto_only cuda_installation two_gpus water_data
           (leased_world "CUDA")).
  right. right. vm_compute. discriminate.
Defined.

(** ** The molecule after a stage *)

Lemma post_bind_stays {A B} fp w0 (c : M A) (k : A → M B) w
    (Q : res B → world → Prop) :
  stays fp w0 c → within fp w0 w →
  (∀ a w1, within fp w0 w1 → post (k a w1) Q) →
  (∀ e w1, Q (Raise e) w1) →
  post ((c ≫= k) w) Q.
Proof.
  intros Hc Hw Hk He. rewrite M_bind_unfold.
  specialize (Hc w Hw).
  destruct (c w) as [[a|e] w1]; cbn in Hc.
  - by apply Hk.
  - by apply He.
Qed.

Section Coordinates.
Context (mm : OpenMM) (host : Host) (mdData : MDData) (w0 : world).

Ltac walk :=
  lazymatch goal with
  | |- post ((structure_at _ ≫= _) _) _ => fail
  | Hw : within ?fp ?w _ |- post ((_ ≫= _) _) _ =>
      apply (post_bind_stays fp w);
      [ solve [ repeat first
                  [ apply frame_center | apply frame_create
                  | apply frame_restraints | apply frame_freeze
                  | apply frame_select | apply frame_seed
                  | apply frame_run_md | apply frame_run_min
                  | apply stays_opt_float | frame_step ] ]
      | exact Hw
      | clear Hw; intros ? ? Hw
      | intros ? ? ?; discriminate ]
  end.

Lemma body_coordinates :
  post (simulation_body mm host mdData w0) (coordinates_follow mdData w0).
Proof.
  unfold simulation_body. cbv zeta.
  pose proof (within_refl (stage_footprint mdData []) w0) as Hw.
  repeat walk.
  destruct Hw as (Hopt & _ & _ & Hmols).
  unfold post.
  lazymatch goal with
  | |- coordinates_follow _ _ (?c ?w).1 (?c ?w).2 =>
      destruct (c w) as [r w'] eqn:E
  end.
  cbn [fst snd]. intros ->.
  rewrite M_bind_unfold in E. unfold structure_at in E.
  destruct (w_structs _ !! md_structure mdData) as [s|] eqn:Es; [|discriminate].
  rewrite M_bind_unfold in E. unfold opt_get at 1, getitem in E.
  rewrite (Hopt "molecule") in E by not_a_key.
  destruct (w_opt w0 !! "molecule") as [mol|] eqn:Emol; [|discriminate].
  rewrite M_bind_unfold in E. unfold mol_at in E.
  destruct mol as [| | | | | |l]; try discriminate.
  cbn [mret M_ret] in E.
  rewrite M_bind_unfold in E. unfold update_mol in E.
  rewrite (Hmols l) in E by apply not_elem_of_nil.
  destruct (w_mols w0 !! l) as [m0|] eqn:Em; [|discriminate].
  rewrite M_bind_unfold in E. unfold opt_get at 1, getitem in E.
  destruct (w_opt _ !! "str_logger") as [old|]; [|discriminate].
  rewrite M_bind_unfold in E. unfold lift in E.
  destruct (as_str old) as [text|]; [|discriminate].
  injection E as <-.
  exists l, m0, s. cbn.
  repeat split; try done. by simplify_map_eq.
Qed.
End Coordinates.

(** X18.  When a stage has run to its end, the molecule at [opt['molecule']]
    is the one it was before with the positions of the structure as its
    coordinates; its title and its SD data are as they were. *)
Theorem molecule_follows_the_structure
    (mm : OpenMM) (host : Host) (mdData : MDData) (w : world) :
  let out := simulation_body mm host mdData w in
  out.1 = Ok tt →
  ∃ l m0 s,
    w_opt w !! "molecule" = Some (PMol l)
    ∧ w_mols w !! l = Some m0
    ∧ w_structs out.2 !! md_structure mdData = Some s
    ∧ w_mols out.2 !! l
      = Some {| m_title := m_title m0; m_sd_data := m_sd_data m0;
                m_coords := s_positions s |}.
Proof. exact (body_coordinates mm host mdData w). Qed.

(** The NVT run of the water system. *)
Lemma molecule_follows_the_structure_witness :
  ∃ l m0 s,
    w_opt nvt_world !! "molecule" = Some (PMol l)
    ∧ w_mols nvt_world !! l = Some m0
    ∧ w_structs (simulation_body reference_only orion water_data nvt_world).2
        !! md_structure water_data = Some s
    ∧ w_mols (simulation_body reference_only orion water_data nvt_world).2 !! l
      = Some {| m_title := m_title m0; m_sd_data := m_sd_data m0;
                m_coords := s_positions s |}.
Proof.
  apply (molecule_follows_the_structure reference_only orion water_data nvt_world).
  vm_compute. reflexivity.
Defined.

(** ** NPT needs a box *)

Lemma opt_get_eq (k : string) (v : pyval) (w : world) :
  w_opt w !! k = Some v → opt_get k w = (Ok v, w).
Proof. intros H. unfold opt_get, getitem. by rewrite H. Qed.



(** ** Precision negotiation on a leased device *)

Lemma auto_properties_pinned (host : Host) (precision g : string) (w : world) :
  arbitrated host = true →
  w_opt w !! "gpu_id" = Some (PStr g) →
  auto_properties host precision w = (Ok (on_device g precision), w).
Proof.
  intros Harb Hg. unfold auto_properties. rewrite M_bind_unfold. unfold opt_has.
  rewrite Hg. unfold arbitrated in Harb.
  rewrite bool_decide_eq_true_2 by eauto.
  rewrite andb_true_l, Harb.
  rewrite M_bind_unfold, (opt_get_eq "gpu_id" (PStr g)) by done.
  done.
Qed.

(** X20.  Under [Auto], on a host with a visible device list outside Orion
    and with a leased device in [opt], the contexts of a CUDA or OpenCL
    platform are tried in the order mixed, single, double, each of them
    bound to the leased device; the first one that can be built is taken, and
    when none can be built the negotiation raises its [ValueError]. *)
Theorem precision_is_negotiated_on_the_leased_device
    (mm : OpenMM) (host : Host) (platform g : string) (w : world) :
  arbitrated host = true →
  w_opt w !! "gpu_id" = Some (PStr g) →
  let ok := λ precision, builds mm platform (on_device g precision) in
  let out := auto_precision mm host platform ["mixed"; "single"; "double"] w in
  out.1 = match List.find ok precision_order with
          | Some precision => Ok (on_device g precision)
          | None => Raise (ValueError "It was not possible to select any Precision for the selected Platform")
          end
  ∧ w_mm out.2
    = (w_mm w ++ map (λ precision, NewSimulation platform (on_device g precision)
                                                 (ok precision))
                     (tried ok precision_order))%list
  ∧ w_opt out.2 = w_opt w.
Proof.
  intros Harb Hg ok out. subst out.
  destruct (auto_precision mm host platform ["mixed"; "single"; "double"] w)
    as [r w'] eqn:E.
  cbn [fst snd]. revert E. cbn [auto_precision].
  rewrite M_bind_unfold, (auto_properties_pinned host "mixed" g) by done.
  rewrite M_bind_unfold. cbn [call]. fold (ok "mixed").
  unfold precision_order. cbn [List.find tried map].
  destruct (ok "mixed") eqn:E1.
  { intros E. injection E as <- <-. done. }
  change (String.eqb "mixed" "double") with false. cbv iota.
  cbn [List.find tried map]. rewrite ?E1.
  rewrite M_bind_unfold, (auto_properties_pinned host "single" g) by done.
  rewrite M_bind_unfold. cbn [call]. fold (ok "single").
  destruct (ok "single") eqn:E2.
  { intros E. injection E as <- <-. cbn. by rewrite <- app_assoc. }
  change (String.eqb "single" "double") with false. cbv iota.
  cbn [List.find tried map]. rewrite ?E2.
  rewrite M_bind_unfold, (auto_properties_pinned host "double" g) by done.
  rewrite M_bind_unfold. cbn [call]. fold (ok "double").
  destruct (ok "double") eqn:E3.
  { intros E. injection E as <- <-. cbn. by rewrite <- !app_assoc. }
  change (String.eqb "double" "double") with true. cbv iota.
  cbn [List.find tried map]. rewrite ?E3.
  intros E. injection E as <- <-. cbn. by rewrite <- !app_assoc.
Qed.

(** The job that has the lease on device 1, on an installation with CUDA. *)
Lemma precision_is_negotiated_on_the_leased_device_witness :
  let out := auto_precision cuda_installation two_gpus "CUDA"
               ["mixed"; "single"; "double"] (leased_world "Auto") in
  out.1 = Ok [("Precision", "mixed"); ("DeviceIndex", "1")]
  ∧ w_mm out.2
    = [NewSimulation "CUDA" [("Precision", "mixed"); ("DeviceIndex", "1")] true]
  ∧ w_opt out.2 = w_opt (leased_world "Auto").
Proof.
  apply (precision_is_negotiated_on_the_leased_device cuda_installation two_gpus
           "CUDA" "1" (leased_world "Auto")); vm_compute; reflexivity.
Defined.

(** ** The stage cubes: one record in, one record out *)

Lemma wpC_log {B} lvl msg args (k : unit → C B) σ
    (Q : res B → cube_state → Prop) :
  wpC (k tt) (with_cs_world (add_log (lvl, msg, args) (cs_world σ)) σ) Q →
  wpC (in_world (log lvl msg args) ≫= k) σ Q.
Proof.
  intros Hk r σ'. rewrite C_bind_unfold. cbn. apply Hk.
Qed.

Section Emission.
Context (float_of_string : string → option Q).
Context (stage_call : MDData → world → option (res unit * world)).
Context (upload read_text : string → string).
Context (k : cube_kind) (self_opt : gmap string pyval).
Context (σ : cube_state) (stages : list MDStageRecord).
Hypothesis history : f_md_stages (cs_record σ) = Some stages.

Lemma process_try_emission :
  wpC (process_try float_of_string stage_call upload read_text k self_opt) σ
      (λ r σ', match r with
               | Ok _ => emitted_once σ σ'
               | Raise _ => emitted_none σ σ'
               end).
Proof.
  unfold process_try.
  wpc; [|done].
  wpc. wpc. cbn.
  destruct (f_primary_molecule (cs_record σ)) as [primary|].
  2:{ wpc; [|done]. wpc. right. done. }
  wpc; [|done].
  wpc.
  assert (Hid : ∀ w1 (Q : res pyval → cube_state → Prop),
             (∀ v w2, Q (Ok v) (with_cs_world w2 σ)) →
             (∀ e w2, Q (Raise e) (with_cs_world w2 σ)) →
             wpC match f_id (cs_record σ) with
                 | Some z => mret (PInt z)
                 | None =>
                     in_world (log LWarn "Missing molecule ID '{}' field" [])
                     ≫= λ _ : (), mret (PStr (m_title primary))
                 end (with_cs_world w1 σ) Q).
  { intros w1 Q HQ HE. destruct (f_id (cs_record σ)).
    - wpc. apply HQ.
    - wpc; [|apply HE]. wpc. apply HQ. }
  apply Hid; [|done]. intros system_id w2.
  rewrite history.
  wpc. wpc. wpc. wpc. cbn.
  wpc.
  destruct (last stages) as [md_stage_record|]; [|wpc; done].
  wpc. wpc; [|done]. wpc; [|done]. wpc; [|done].
  wpc.
  assert (Hout : ∀ w1 (Q : res unit → cube_state → Prop),
             (∀ v w2, Q v (with_cs_world w2 σ)) →
             wpC match k with
                 | MinimizeCube => mret ()
                 | _ => in_world (set_outfname self_opt system_id)
                 end (with_cs_world w1 σ) Q).
  { intros w1 Q HQ. destruct k; wpc; apply HQ. }
  apply Hout. intros [[]|?] w6; [|done].
  wpc; [|done]. wpc; [|done]. wpc; [|done]. wpc; [|done].
  wpc; [|done].
  wpc.
  assert (Hlf : ∀ w1 (Q : res string → cube_state → Prop),
             (∀ v w2, Q v (with_cs_world w2 σ)) →
             wpC match k with
                 | MinimizeCube => mret ""
                 | _ => in_world (collect_output upload read_text)
                 end (with_cs_world w1 σ) Q).
  { intros w1 Q HQ. destruct k; wpc; apply HQ. }
  apply Hlf. intros [lf|?] w12; [|done].
  wpc; [|done].
  wpc. wpc. cbn.
  wpc; [|done].
  wpc; [|done].
  wpc; [|done].
  wpc. wpc. wpc. cbn.
  left. done.
Qed.
End Emission.

(** X10.  A [process] call on a record that has its list of stages, when it
    comes back, has not raised, and has emitted exactly one record on exactly
    one of the two ports: the record as it stands at the end of the call. *)
Theorem one_record_in_one_record_out
    (float_of_string : string → option Q)
    (stage_call : MDData → world → option (res unit * world))
    (upload read_text : string → string)
    (k : cube_kind) (self_opt : gmap string pyval)
    (σ σ' : cube_state) (r : res unit) (stages : list MDStageRecord) :
  f_md_stages (cs_record σ) = Some stages →
  process float_of_string stage_call upload read_text k self_opt σ
  = Some (r, σ') →
  r = Ok tt
  ∧ ((cs_success σ' = (cs_success σ ++ [cs_record σ'])%list
      ∧ cs_failure σ' = cs_failure σ)
     ∨ (cs_success σ' = cs_success σ
        ∧ cs_failure σ' = (cs_failure σ ++ [cs_record σ'])%list)).
Proof.
  intros Hst. revert r σ'.
  change (wpC (process float_of_string stage_call upload read_text k self_opt) σ
              (λ r σ', r = Ok tt ∧ emitted_once σ σ')).
  unfold process. apply wpC_try_except.
  intros r σ1 Htry.
  pose proof (process_try_emission float_of_string stage_call upload read_text
                k self_opt σ stages Hst r σ1 Htry) as Hspec.
  destruct r as [[]|e]; [by split|].
  destruct Hspec as [H1 H2].
  apply wpC_log. wpc. split; [done|]. right. cbn. by rewrite H1, H2.
Qed.

(** The NVT cube on the record that the setup left. *)
Lemma one_record_in_one_record_out_witness :
  bool_decide (is_Some (nvt_run [])) = true
  ∧ ∀ r σ',
      nvt_run [] = Some (r, σ') →
      r = Ok tt
      ∧ ((cs_success σ' = ([] ++ [cs_record σ'])%list ∧ cs_failure σ' = [])
         ∨ (cs_success σ' = [] ∧ cs_failure σ' = ([] ++ [cs_record σ'])%list)).
Proof.
  split; [vm_compute; reflexivity|].
  intros r σ' Hrun.
  apply (one_record_in_one_record_out decimal_float orion_call id (fun _ => "")
           NvtCube nvt_args (cube_start (after_setup [])) σ' r [setup_stage []]).
  - reflexivity.
  - exact Hrun.
Defined.

(** ** The steps of a run *)

Lemma within_step_calls fp w0 w :
  (∀ c, fp_calls fp c = true → is_step_call c = false) →
  within fp w0 w → step_calls w = step_calls w0.
Proof.
  intros Hfp (_ & (added & Hmm & Hall) & _). unfold step_calls.
  rewrite Hmm, List.filter_app.
  assert (E : List.filter is_step_call added = []).
  { clear -Hfp Hall. induction added as [|c cs IH]; [done|]. cbn in *.
    apply andb_prop in Hall as [Hc Hcs]. rewrite (Hfp c Hc). auto. }
  rewrite E. by rewrite app_nil_r.
Qed.

Lemma not_step_call_spec c : not_step_call c = true → is_step_call c = false.
Proof. unfold not_step_call. by destruct (is_step_call c). Qed.

Lemma post_stays {A} fp w0 (c : M A) w (Q : res A → world → Prop) :
  stays fp w0 c → within fp w0 w →
  (∀ r w1, within fp w0 w1 → Q r w1) →
  post (c w) Q.
Proof. intros Hc Hw HQ. apply HQ. by apply Hc. Qed.

Lemma step_calls_foldl (cs : list mm_call) (w : world) :
  forallb not_step_call cs = true →
  step_calls (foldl (λ w c, add_call c w) w cs) = step_calls w.
Proof.
  intros Hcs. unfold step_calls. rewrite w_mm_calls, List.filter_app.
  assert (E : List.filter is_step_call cs = []).
  { clear -Hcs. induction cs as [|c cs IH]; [done|]. cbn in *.
    apply andb_prop in Hcs as [Hc Hcs]. rewrite (not_step_call_spec c Hc). auto. }
  rewrite E. by rewrite app_nil_r.
Qed.

Section Steps.
Context (mm : OpenMM) (host : Host).

(** The seeding assigns the step count and makes no step. *)
Lemma seed_and_schedule_steps velocities stepLen w seed w2 :
  seed_and_schedule mm velocities stepLen w = (Ok seed, w2) →
  ∃ time T,
    w_opt w !! "time" = Some time ∧ as_float time = Ok T
    ∧ w_opt w2 = <["steps" := PInt (time_to_steps T stepLen picoseconds)]> (w_opt w)
    ∧ step_calls w2 = step_calls w
    ∧ w_structs w2 = w_structs w ∧ w_mols w2 = w_mols w.
Proof.
  unfold seed_and_schedule. rewrite M_bind_unfold.
  set (first := match velocities with
                | Some v => _
                | None => _
                end).
  assert (Hfirst : ∀ s w1, first w = (Ok s, w1) →
            w_opt w1 = w_opt w ∧ step_calls w1 = step_calls w
            ∧ w_structs w1 = w_structs w ∧ w_mols w1 = w_mols w).
  { subst first. intros s w1. destruct velocities as [v|].
    - rewrite M_bind_unfold. cbn [log]. rewrite M_bind_unfold. cbn [call].
      intros [= <- <-]. unfold step_calls. cbn.
      rewrite List.filter_app. cbn. by rewrite app_nil_r.
    - rewrite M_bind_unfold. cbn [log]. rewrite M_bind_unfold, opt_float_eq.
      cbn [w_opt add_log].
      destruct (w_opt w !! "temperature") as [t|]; [|discriminate].
      destruct (as_float t) as [T|]; [|discriminate].
      rewrite M_bind_unfold. cbn [call].
      intros [= <- <-]. unfold step_calls. cbn.
      rewrite List.filter_app. cbn. by rewrite app_nil_r. }
  destruct (first w) as [[s|e] w1] eqn:E1; [|discriminate].
  destruct (Hfirst s w1 eq_refl) as (Ho & Hs & Hst & Hmo).
  rewrite M_bind_unfold, opt_float_eq. rewrite Ho.
  destruct (w_opt w !! "time") as [time|]; [|discriminate].
  destruct (as_float time) as [T|] eqn:ET; [|discriminate].
  rewrite M_bind_unfold. unfold opt_put at 1.
  rewrite M_bind_unfold. unfold reporters_of_opt at 1.
  destruct (getReporters _ _) as [reps|]; [|discriminate].
  rewrite M_bind_unfold. unfold calls at 1.
  intros [= <- <-].
  exists time, T. repeat split; try done.
  - cbn.
    assert (E : ∀ cs w3, w_opt (foldl (λ w c, add_call c w) w3 cs) = w_opt w3).
    { clear. induction cs as [|c cs IH]; intros w3; [done|]. cbn. by rewrite IH. }
    rewrite E. cbn. by rewrite Ho.
  - rewrite step_calls_foldl; [exact Hs|].
    apply forallb_map_allowed. done.
  - assert (E : ∀ cs w3, w_structs (foldl (λ w c, add_call c w) w3 cs) = w_structs w3).
    { clear. induction cs as [|c cs IH]; intros w3; [done|]. cbn. by rewrite IH. }
    rewrite E. cbn. exact Hst.
  - assert (E : ∀ cs w3, w_mols (foldl (λ w c, add_call c w) w3 cs) = w_mols w3).
    { clear. induction cs as [|c cs IH]; intros w3; [done|]. cbn. by rewrite IH. }
    rewrite E. cbn. exact Hmo.
Qed.

Ltac read_key :=
  rewrite M_bind_unfold; unfold opt_get at 1, getitem;
  cbn [w_opt add_log add_call];
  lazymatch goal with
  | |- context [match w_opt ?w !! ?key with _ => _ end] =>
      let v := fresh "v" in
      destruct (w_opt w !! key) as [v|] eqn:?; [|discriminate]
  end.

(** The run makes one step call, with the step count of [opt]. *)
Lemma run_md_steps ctx box w n st w' :
  w_opt w !! "steps" = Some (PInt n) →
  run_md mm ctx box w = (Ok st, w') →
  w_opt w' = w_opt w
  ∧ step_calls w' = (step_calls w ++ [StepCall n])%list
  ∧ w_structs w' = w_structs w ∧ w_mols w' = w_mols w.
Proof.
  intros Hsteps. unfold run_md.
  read_key. read_key. read_key. read_key.
  assert (v1 = PInt n) as -> by congruence.
  rewrite M_bind_unfold.
  set (announce := if is_str v "nvt" then _ else _).
  assert (Ha : ∀ r w1, announce w = (r, w1) →
            w_opt w1 = w_opt w ∧ w_mm w1 = w_mm w
            ∧ w_structs w1 = w_structs w ∧ w_mols w1 = w_mols w).
  { subst announce. intros r w1. destruct (is_str v "nvt").
    - cbn [log]. by intros [= <- <-].
    - rewrite M_bind_unfold. unfold opt_get at 1, getitem.
      destruct (w_opt w !! "pressure"); [|by intros [= <- <-]].
      cbn [log]. by intros [= <- <-]. }
  destruct (announce w) as [[[]|e] w1] eqn:E1; [|discriminate].
  destruct (Ha _ _ eq_refl) as (Ho1 & Hm1 & Hs1 & Hmo1).
  rewrite M_bind_unfold. unfold opt_get at 1, getitem. rewrite Ho1.
  destruct (w_opt w !! "trajectory_interval") as [ti|]; [|discriminate].
  rewrite M_bind_unfold.
  set (frames := if py_truthy ti then _ else _).
  assert (Hf : ∀ r w2, frames w1 = (r, w2) →
            w_opt w2 = w_opt w1 ∧ w_mm w2 = w_mm w1
            ∧ w_structs w2 = w_structs w1 ∧ w_mols w2 = w_mols w1).
  { subst frames. intros r w2. destruct (py_truthy ti); [|by intros [= <- <-]].
    rewrite M_bind_unfold. unfold lift at 1.
    destruct (as_float v0); [|by intros [= <- <-]].
    rewrite M_bind_unfold. unfold lift at 1.
    destruct (as_float ti); [|by intros [= <- <-]].
    cbn [log]. by intros [= <- <-]. }
  destruct (frames w1) as [[[]|e] w2] eqn:E2; [|discriminate].
  destruct (Hf _ _ eq_refl) as (Ho2 & Hm2 & Hs2 & Hmo2).
  rewrite M_bind_unfold. cbn [lift as_int].
  rewrite M_bind_unfold. cbn [call].
  rewrite M_bind_unfold. cbn [call mret M_ret].
  intros [= <- <-]. unfold step_calls. cbn.
  rewrite Ho2, Ho1, Hm2, Hm1, Hs2, Hs1, Hmo2, Hmo1.
  rewrite !List.filter_app. cbn. rewrite app_nil_r. done.
Qed.
End Steps.

Section AnnouncedSteps.
Context (mm : OpenMM) (host : Host) (mdData : MDData) (w0 : world).
Hypothesis md : md_stage w0 = true.

Ltac setup_step :=
  lazymatch goal with
  | Hw : within ?fp ?w _ |- post ((_ ≫= _) _) _ =>
      apply (post_bind_stays fp w);
      [ solve [ unfold create_system, opt_float;
                repeat first
                  [ apply part_center; cbn; apply list_elem_of_here
                  | apply part_restraints; intros; reflexivity
                  | apply part_freeze; intros; reflexivity
                  | apply part_select; intros; reflexivity
                  | stays_step ] ]
      | exact Hw
      | clear Hw; intros ? ? Hw
      | intros ? ? ?; discriminate ]
  end.

Lemma body_steps :
  post (simulation_body mm host mdData w0) (steps_as_announced w0).
Proof.
  unfold simulation_body. cbv zeta.
  apply post_bind_opt_get; [|intros _ ?; discriminate].
  intros hmr Hhmr.
  set (stepLen := if py_truthy hmr then (4 # 1000)%Q else (2 # 1000)%Q).
  pose proof (within_refl (before_seeding mdData) w0) as Hw.
  do 13 setup_step.
  apply post_bind_opt_get; [|intros _ ?; discriminate].
  intros simtype Hsimtype.
  assert (Hmd : is_md simtype = true).
  { destruct Hw as (Hopt & _). rewrite (Hopt "SimType") in Hsimtype by not_a_key.
    unfold md_stage in md. by rewrite Hsimtype in md. }
  rewrite Hmd.
  rewrite M_bind_unfold.
  lazymatch goal with
  | |- context [seed_and_schedule mm ?v ?s ?w] =>
      pose proof (seed_and_schedule_steps mm v s w) as Hseed;
      destruct (seed_and_schedule mm v s w) as [[seed|e] wseed]
  end; [|intros ?; discriminate].
  destruct (Hseed _ _ eq_refl) as (time & T & Htime & HT & Ho2 & Hsteps2 & _).
  clear Hseed.
  assert (Htime0 : w_opt w0 !! "time" = Some time).
  { destruct Hw as (Hopt & _). rewrite <- (Hopt "time") by not_a_key. done. }
  assert (Hcalls : step_calls wseed = step_calls w0).
  { rewrite Hsteps2. refine (within_step_calls _ _ _ _ Hw); exact not_step_call_spec. }
  assert (Hsim2 : w_opt wseed !! "SimType" = Some simtype).
  { rewrite Ho2, lookup_insert_ne by done. done. }
  set (n := time_to_steps T stepLen picoseconds) in *.
  assert (Hn2 : w_opt wseed !! "steps" = Some (PInt n)).
  { rewrite Ho2. by simplify_map_eq. }
  clear Hw Ho2 Hsteps2.
  pose proof (within_refl (after_seeding mdData wseed) wseed) as Hw.
  do 3 setup_step.
  apply post_bind_opt_get; [|intros _ ?; discriminate].
  intros simtype' Hsimtype'.
  assert (simtype' = simtype) as ->.
  { destruct Hw as (Hopt & _). rewrite (Hopt "SimType") in Hsimtype' by not_a_key.
    congruence. }
  rewrite Hmd.
  rewrite M_bind_unfold.
  lazymatch goal with
  | |- context [run_md mm ?c ?b ?w] =>
      pose proof (run_md_steps mm c b w n) as Hrun;
      assert (Hn3 : w_opt w !! "steps" = Some (PInt n))
        by (destruct Hw as (Hopt & _); by rewrite (Hopt "steps") by not_a_key);
      assert (Hcalls3 : step_calls w = step_calls w0)
        by (rewrite <- Hcalls;
            refine (within_step_calls _ _ _ _ Hw); exact not_step_call_spec);
      destruct (run_md mm c b w) as [[st|e] wrun]
  end; [|intros ?; discriminate].
  destruct (Hrun st wrun Hn3 eq_refl) as (Ho4 & Hsteps4 & Hst4 & Hmo4). clear Hrun.
  apply (post_stays (after_seeding mdData wrun) wrun); [|apply within_refl|].
  { repeat first [ stays_read | stays_step ].
    apply stays_update_mol. cbn. unfold mol_locs.
    match goal with H : w_opt wrun !! "molecule" = Some _ |- _ => rewrite H end.
    subst. apply list_elem_of_here. }
  intros r wend Hend _.
  exists hmr, time, T.
  split; [done|]. split; [done|]. split; [done|].
  cbv zeta. fold stepLen. fold n. split.
  - destruct Hend as (Hopt & _). rewrite (Hopt "steps") by not_a_key.
    by rewrite Ho4.
  - rewrite (within_step_calls (after_seeding mdData wrun) _ _ not_step_call_spec Hend).
    by rewrite Hsteps4, Hcalls3.
Qed.
End AnnouncedSteps.

(** X21.  An NVT or NPT stage that runs to its end has integrated the number
    of steps that it left in [opt['steps']]: the duration [opt['time']] over
    the timestep in nanoseconds, rounded, where the timestep is 0.004 ps
    with hydrogen mass repartitioning and 0.002 ps without; and it has made
    one call of [simulation.step], with that number. *)
Theorem stage_integrates_the_announced_steps
    (mm : OpenMM) (host : Host) (mdData : MDData) (w : world) :
  md_stage w = true →
  let out := simulation_body mm host mdData w in
  out.1 = Ok tt →
  ∃ hmr time T,
    w_opt w !! "hmr" = Some hmr
    ∧ w_opt w !! "time" = Some time
    ∧ as_float time = Ok T
    ∧ let stepLen : Q := if py_truthy hmr then 4 # 1000 else 2 # 1000 in
      let n := time_to_steps T stepLen picoseconds in
      w_opt out.2 !! "steps" = Some (PInt n)
      ∧ List.filter is_step_call (w_mm out.2)
        = (List.filter is_step_call (w_mm w) ++ [StepCall n])%list.
Proof. intros Hmd. exact (body_steps mm host mdData w Hmd). Qed.

(** The NVT run of the water system. *)
Lemma stage_integrates_the_announced_steps_witness :
  ∃ hmr time T,
    w_opt nvt_world !! "hmr" = Some hmr
    ∧ w_opt nvt_world !! "time" = Some time
    ∧ as_float time = Ok T
    ∧ let stepLen : Q := if py_truthy hmr then 4 # 1000 else 2 # 1000 in
      let n := time_to_steps T stepLen picoseconds in
      w_opt (simulation_body reference_only orion water_data nvt_world).2 !! "steps"
      = Some (PInt n)
      ∧ List.filter is_step_call
          (w_mm (simulation_body reference_only orion water_data nvt_world).2)
        = (List.filter is_step_call (w_mm nvt_world) ++ [StepCall n])%list.
Proof.
  apply (stage_integrates_the_announced_steps reference_only orion water_data
           nvt_world); vm_compute; reflexivity.
Defined.
